(** * Gamepad reaction trainer: trial engine, scheduler and statistics

    A shallow embedding of the three Python programs of the repository
    ([reaction-trainer.py], [xbox-gamepad-trainer.py] and
    [xbox-gamepad-trainer-v2.py]) and the properties of their trial state
    machines, shuffle-bag scheduler, trigger decoder and session report.

    Conventions of the embedding:
    - Python floats are rationals [Q] (ideal arithmetic, no rounding);
    - an exception is a value [Raise e] of the [result] type;
    - the outside world (monotonic clock, random generator) is an explicit
      [World] threaded through the monad [M];
    - a label is a [string]. *)

From Stdlib Require Import QArith Lqa Sorted.
From stdpp Require Import base list strings.

Open Scope string_scope.
Open Scope list_scope.

(** ** The Python runtime the programs rely on *)

Module Py.

Inductive exn : Type :=
| IndexError | KeyError | ZeroDivisionError | StatisticsError | ValueError.

Inductive result (A : Type) : Type :=
| Ok (a : A)
| Raise (e : exn).
Arguments Ok {A} a.
Arguments Raise {A} e.

Definition rbind {A B} (c : result A) (k : A -> result B) : result B :=
  match c with
  | Ok a => k a
  | Raise e => Raise e
  end.

(** The world: [clock_ns] is the monotonic clock at its last reading, in
    nanoseconds; [ticks] are the (non-negative) advances of the clock
    between successive readings; [tape] is the raw output of the random
    generator still to be consumed.  A tape that runs out yields 0. *)
Record World : Type := mkWorld {
  clock_ns : N;
  ticks : list N;
  tape : list N
}.

Definition M (A : Type) : Type := World -> result (A * World).

Definition ret {A} (a : A) : M A := fun w => Ok (a, w).

Definition bind {A B} (c : M A) (k : A -> M B) : M B :=
  fun w => match c w with
           | Ok (a, w') => k a w'
           | Raise e => Raise e
           end.

Definition lift {A} (c : result A) : M A :=
  fun w => match c with
           | Ok a => Ok (a, w)
           | Raise e => Raise e
           end.

Definition seconds (ns : N) : Q := Z.of_N ns # 1000000000.

(** [time.perf_counter()] *)
Definition perf_counter : M Q :=
  fun w =>
    let ns := (clock_ns w + hd 0 (ticks w))%N in
    Ok (seconds ns, mkWorld ns (tl (ticks w)) (tape w)).

Definition next_raw : M N :=
  fun w => Ok (hd 0%N (tape w), mkWorld (clock_ns w) (ticks w) (tl (tape w))).

(** [random.Random._randbelow(n)]: some number below [n], here the next raw
    number of the tape modulo [n] *)
Definition randbelow (n : nat) : M nat :=
  bind next_raw (fun r => ret (N.to_nat (r mod N.of_nat n))).

(** [random.random()]: a multiple of 2^-53 in [0, 1) *)
Definition random : M Q :=
  bind next_raw (fun r => ret (Z.of_N (r mod 9007199254740992) # 9007199254740992)).

(** [random.uniform(a, b)] is [a + (b - a) * random()] *)
Definition uniform (a b : Q) : M Q :=
  bind random (fun r => ret (a + (b - a) * r)%Q).

(** [seq[i]] on a list *)
Definition getitem {A} (l : list A) (i : nat) : result A :=
  match l !! i with
  | Some a => Ok a
  | None => Raise IndexError
  end.

(** [random.choice(seq)] *)
Definition choice {A} (l : list A) : M A :=
  match l with
  | [] => lift (Raise IndexError)
  | _ => bind (randbelow (length l)) (fun i => lift (getitem l i))
  end.

(** [x[i], x[j] = x[j], x[i]] *)
Definition swap {A} (i j : nat) (x : list A) : result (list A) :=
  match x !! j, x !! i with
  | Some xj, Some xi => Ok (<[j:=xi]> (<[i:=xj]> x))
  | _, _ => Raise IndexError
  end.

(** [random.shuffle(x)]:
    [for i in reversed(range(1, len(x))): j = randbelow(i + 1); swap] *)
Fixpoint shuffle_from {A} (i : nat) (x : list A) : M (list A) :=
  match i with
  | 0 => ret x
  | S i' =>
      bind (randbelow (S i)) (fun j =>
      bind (lift (swap i j x)) (fun x' =>
      shuffle_from i' x'))
  end.

Definition shuffle {A} (x : list A) : M (list A) :=
  shuffle_from (length x - 1) x.

(** [list.pop()] *)
Definition pop {A} (l : list A) : result (A * list A) :=
  match last l with
  | Some a => Ok (a, removelast l)
  | None => Raise IndexError
  end.

End Py.

Import Py.

Notation "x <- c ;; k" := (bind c (fun x => k))
  (at level 89, c at next level, right associativity).
Notation "'try' x := c 'in' k" := (rbind c (fun x => k))
  (at level 89, x name, c at next level, right associativity).

Definition label : Type := string.

(** ** [class ShuffleBag] of xbox-gamepad-trainer-v2.py *)

Module ShuffleBag.

Record t : Type := mk { _items : list label; _bag : list label }.

Definition _refill (self : t) : M t :=
  b <- shuffle (_items self) ;;
  ret (mk (_items self) b).

Definition __init__ (items : list label) : M t :=
  _refill (mk items []).

Definition next (self : t) : M (label * t) :=
  self1 <- (match _bag self with
            | [] => _refill self
            | _ => ret self
            end) ;;
  popped <- lift (pop (_bag self1)) ;;
  let '(a, b) := popped in
  ret (a, mk (_items self1) b).

Definition remaining (self : t) : nat := length (_bag self).

(** [n] successive calls of [next], with the labels returned, in order *)
Fixpoint draw (n : nat) (self : t) : M (list label * t) :=
  match n with
  | 0 => ret ([], self)
  | S n' =>
      drawn <- next self ;;
      let '(a, self1) := drawn in
      rest <- draw n' self1 ;;
      let '(l, self2) := rest in
      ret (a :: l, self2)
  end.

(** A refill boundary: the bag is empty (the next call refills it) or it
    has just been refilled (it holds all the items). *)
Definition at_refill_boundary (self : t) : Prop :=
  _bag self = [] \/ Permutation (_bag self) (_items self).

End ShuffleBag.

(** ** Builtins and the [statistics] module, on exact rationals *)

Module Builtins.

Definition Qltb (a b : Q) : bool := negb (Qle_bool b a).

(** [a / b] on numbers *)
Definition truediv (a b : Q) : result Q :=
  if Qeq_bool b 0 then Raise ZeroDivisionError else Ok (a / b)%Q.

(** A stable sort, as [sorted] is: [before y x] says that [y] has to come
    strictly before [x]; elements that are not ordered by [before] keep
    the order they had. *)
Fixpoint insert_by {A} (before : A -> A -> bool) (x : A) (l : list A) : list A :=
  match l with
  | [] => [x]
  | y :: ys => if before y x then y :: insert_by before x ys else x :: y :: ys
  end.

Definition sorted_by {A} (before : A -> A -> bool) (l : list A) : list A :=
  foldr (insert_by before) [] l.

(** [sorted(data)] on numbers *)
Definition sorted (data : list Q) : list Q := sorted_by Qltb data.

(** [sorted(items, key=key, reverse=True)] with a numeric key: descending,
    and equal keys keep their original order *)
Definition sorted_key_reverse {A} (key : A -> nat) (items : list A) : list A :=
  sorted_by (fun y x => Nat.ltb (key x) (key y)) items.

Definition sum (data : list Q) : Q := foldr Qplus 0%Q data.

Definition Qlen {A} (l : list A) : Q := inject_Z (Z.of_nat (length l)).

(** [statistics.mean] *)
Definition mean (data : list Q) : result Q :=
  match data with
  | [] => Raise StatisticsError
  | _ => truediv (sum data) (Qlen data)
  end.

(** [statistics.median] *)
Definition median (data : list Q) : result Q :=
  let data := sorted data in
  let n := length data in
  match n with
  | 0 => Raise StatisticsError
  | _ =>
      if Nat.eqb (n mod 2) 1 then getitem data (n / 2)
      else
        let i := n / 2 in
        try lo := getitem data (i - 1) in
        try hi := getitem data i in
        truediv (lo + hi) 2
  end.

(** [min(data)], [max(data)]: the first smallest / largest element *)
Definition min (data : list Q) : result Q :=
  match data with
  | [] => Raise ValueError
  | x :: r => Ok (foldl (fun m y => if Qltb y m then y else m) x r)
  end.

Definition max (data : list Q) : result Q :=
  match data with
  | [] => Raise ValueError
  | x :: r => Ok (foldl (fun m y => if Qltb m y then y else m) x r)
  end.

Fixpoint mapM {A B} (f : A -> result B) (l : list A) : result (list B) :=
  match l with
  | [] => Ok []
  | a :: r => try b := f a in try bs := mapM f r in Ok (b :: bs)
  end.

(** A [dict]: keys in insertion order; assigning to a key that is present
    keeps its place. *)
Definition dict (K V : Type) : Type := list (K * V).

Fixpoint dict_get `{EqDecision K} {V} (d : dict K V) (k : K) (default : V) : V :=
  match d with
  | [] => default
  | (k', v) :: r => if decide (k = k') then v else dict_get r k default
  end.

(** [d.get(k)] *)
Definition dict_lookup `{EqDecision K} {V} (d : dict K V) (k : K) : option V :=
  dict_get (map (fun kv => (fst kv, Some (snd kv))) d) k None.

(** [d[k]] *)
Definition dict_getitem `{EqDecision K} {V} (d : dict K V) (k : K) : result V :=
  match dict_lookup d k with
  | Some v => Ok v
  | None => Raise KeyError
  end.

Fixpoint dict_set `{EqDecision K} {V} (d : dict K V) (k : K) (v : V) : dict K V :=
  match d with
  | [] => [(k, v)]
  | (k', v') :: r =>
      if decide (k = k') then (k', v) :: r else (k', v') :: dict_set r k v
  end.

End Builtins.

(** ** The report: one constructor per kind of line the programs write.
    A number is kept as a number; how it is printed ([:.0f], [:3d]) is left
    to the presentation. Times on a line are in milliseconds. *)

Module Report.

Inductive line : Type :=
| Text (s : string)
| Blank
| Rule                                  (* "-" * 60 *)
| TotalAttempts (n : nat)               (* Total attempts: {total} *)
| CorrectCount (n : nat)                (* Correct:        {correct} *)
| IncorrectCount (n : Z)                (* Incorrect:      {incorrect} *)
| Accuracy (pct : Q)                    (* Accuracy:       {acc:.1f}% *)
| TrialsCompleted (n : nat)             (* Trials completed: {n} *)
| FalseStarts (n : nat)                 (* False starts:     {false_starts} *)
| Mean (ms : Q)
| Median (ms : Q)
| Fastest (ms : Q)
| Slowest (ms : Q)
| NoReactionTime (s : string)           (* Reaction time: (no ...) *)
| Button (btn : label) (n : nat) (mean_ms median_ms : Q)
| ButtonEmpty (btn : label)             (* {btn}: n=  0  mean=   -  median=   - *)
| Mistake (target pressed : label) (n : nat).  (* {t} -> {p}: {n} *)

(** [ms(x)] without the formatting *)
Definition ms (x : Q) : Q := (x * 1000)%Q.

(** The labels that have an entry in the per-label breakdown of a report,
    with their count when they have one ([None] for the empty marker) *)
Definition breakdown_entry (l : line) : option (label * option nat) :=
  match l with
  | Button btn n _ _ => Some (btn, Some n)
  | ButtonEmpty btn => Some (btn, None)
  | _ => None
  end.

Definition breakdown (lines : list line) : list (label * option nat) :=
  omap breakdown_entry lines.

Definition mistake_entry (l : line) : option (label * label * nat) :=
  match l with
  | Mistake t p n => Some (t, p, n)
  | _ => None
  end.

(** The confusion summary of a report *)
Definition confusion (lines : list line) : list (label * label * nat) :=
  omap mistake_entry lines.

Definition accuracy_entry (l : line) : option Q :=
  match l with
  | Accuracy a => Some a
  | _ => None
  end.

(** The accuracy figures of a report *)
Definition accuracies (lines : list line) : list Q :=
  omap accuracy_entry lines.

Definition is_no_data (l : line) : bool :=
  match l with
  | NoReactionTime _ => true
  | _ => false
  end.

Definition is_latency_aggregate (l : line) : bool :=
  match l with
  | Mean _ | Median _ | Fastest _ | Slowest _ => true
  | _ => false
  end.

End Report.

(** ** [Attempt] and [SessionStats], as in xbox-gamepad-trainer.py and
    xbox-gamepad-trainer-v2.py.  The two files have the same class but for
    the list of the per-button loop ([["A", "B", "X", "Y"]] in the first,
    [ALL_TARGETS] in the second), which is the parameter [buttons]. *)

Module SessionStats.
Import Builtins Report.

Record Attempt : Type := mkAttempt {
  target : label;
  pressed : option label;
  reaction_s : option Q;
  correct : bool
}.

Record t : Type := mk { attempts : list Attempt }.

Definition add (self : t) (attempt : Attempt) : t :=
  mk (attempts self ++ [attempt]).

Definition _correct_reactions (self : t) : list Q :=
  omap (fun a => if correct a then reaction_s a else None) (attempts self).

(** The reactions of the correct attempts on [btn] *)
Definition button_reactions (self : t) (btn : label) : list Q :=
  omap (fun a => if correct a && bool_decide (target a = btn)
                 then reaction_s a else None) (attempts self).

Definition button_line (self : t) (btn : label) : result line :=
  let rts := button_reactions self btn in
  match rts with
  | [] => Ok (ButtonEmpty btn)
  | _ =>
      try m := mean rts in
      try md := median rts in
      Ok (Button btn (length rts) (ms m) (ms md))
  end.

(** [conf], after the loop over the attempts *)
Definition tally (self : t) : dict (label * label) nat :=
  foldl (fun conf a =>
           match correct a, pressed a with
           | false, Some p => dict_set conf (target a, p) (dict_get conf (target a, p) 0 + 1)
           | _, _ => conf
           end) [] (attempts self).

(** [acc = (correct / total * 100.0) if total else 0.0] *)
Definition accuracy (self : t) : result Q :=
  let total := length (attempts self) in
  let ncorrect := length (List.filter correct (attempts self)) in
  match total with
  | 0 => Ok 0%Q
  | _ => try q := truediv (inject_Z (Z.of_nat ncorrect))
                          (inject_Z (Z.of_nat total)) in
         Ok (q * 100)%Q
  end.

(** What the per-button loop reports for [btn]: [None] is the empty
    marker, [Some n] a line with [n=...] *)
Definition button_count (self : t) (btn : label) : option nat :=
  match button_reactions self btn with
  | [] => None
  | rts => Some (length rts)
  end.

(** The blocks of [summary_text], in the order it appends them *)
Definition counts_lines (self : t) : result (list line) :=
  let total := length (attempts self) in
  let ncorrect := length (List.filter correct (attempts self)) in
  let incorrect := (Z.of_nat total - Z.of_nat ncorrect)%Z in
  try acc := accuracy self in
  Ok [Text "SESSION SUMMARY"; Rule; TotalAttempts total;
      CorrectCount ncorrect; IncorrectCount incorrect; Accuracy acc].

Definition reaction_lines (self : t) : result (list line) :=
  let correct_rts := _correct_reactions self in
  match correct_rts with
  | [] =>
      Ok [Blank; NoReactionTime "Reaction time: (no correct attempts recorded)"]
  | _ =>
      try m := mean correct_rts in
      try md := median correct_rts in
      try lo := min correct_rts in
      try hi := max correct_rts in
      Ok [Blank; Text "Reaction time (correct only):";
          Mean (ms m); Median (ms md); Fastest (ms lo); Slowest (ms hi)]
  end.

Definition breakdown_lines (buttons : list label) (self : t) : result (list line) :=
  try per_button := mapM (button_line self) buttons in
  Ok ([Blank; Text "Per-button breakdown (correct only):"] ++ per_button).

Definition mistake_line (kv : label * label * nat) : line :=
  let '(t, p, n) := kv in Mistake t p n.

Definition mistake_lines (self : t) : list line :=
  let conf := tally self in
  match conf with
  | [] => []
  | _ =>
      [Blank; Text "Most common mistakes (target -> pressed):"]
        ++ map mistake_line (take 8 (sorted_key_reverse snd conf))
  end.

(** [summary_text], as the list of its lines (the program joins them with
    newlines and splits them again to display them) *)
Definition summary_text (buttons : list label) (self : t) : result (list line) :=
  try counts := counts_lines self in
  try reaction := reaction_lines self in
  try per_button := breakdown_lines buttons self in
  Ok (counts ++ reaction ++ per_button ++ mistake_lines self
        ++ [Rule; Text "Press ESC or close the window to exit."]).

(** The (target, pressed) pairs of the incorrect attempts with a known
    pressed label, in the order of the ledger *)
Definition mistakes (self : t) : list (label * label) :=
  omap (fun a => match correct a, pressed a with
                 | false, Some p => Some (target a, p)
                 | _, _ => None
                 end) (attempts self).

End SessionStats.

(** ** [Trial] and [Session] of reaction-trainer.py.  [TARGET_BUTTONS] is the
    configuration constant of the file ([["A"]] as distributed). *)

Module Session.
Import Builtins Report.

Record Trial : Type := mkTrial { target : label; reaction_s : Q }.

Record t : Type := mk { trials : list Trial; false_starts : nat }.

Definition add_trial (self : t) (target : label) (reaction_s : Q) : t :=
  mk (trials self ++ [mkTrial target reaction_s]) (false_starts self).

Definition record_false_start (self : t) : t :=
  mk (trials self) (false_starts self + 1).

Definition reaction_times (self : t) : list Q := map reaction_s (trials self).

Section Configured.
Variable TARGET_BUTTONS : list label.

Definition per_button_times (self : t) : dict label (list Q) :=
  foldl (fun out tr =>
           if bool_decide (target tr ∈ map fst out)
           then dict_set out (target tr) (dict_get out (target tr) [] ++ [reaction_s tr])
           else out)
        (foldl (fun out b => dict_set out b []) [] TARGET_BUTTONS) (trials self).

Definition button_line (per : dict label (list Q)) (b : label) : result line :=
  let xs := dict_get per b [] in
  match xs with
  | [] => Ok (ButtonEmpty b)
  | _ =>
      try m := mean xs in
      try md := median xs in
      Ok (Button b (length xs) (ms m) (ms md))
  end.

Definition reaction_lines (self : t) : result (list line) :=
  let rts := reaction_times self in
  let n := length rts in
  match n with
  | 0 => Ok [Blank; NoReactionTime "Reaction time: (no trials completed)"]
  | _ =>
      try m := mean rts in
      try md := median rts in
      try lo := min rts in
      try hi := max rts in
      let lines := [Blank; Text "Reaction time:";
                    Mean (ms m); Median (ms md);
                    Fastest (ms lo); Slowest (ms hi)] in
      (* Per-button breakdown only if multiple targets *)
      if Nat.ltb 1 (length TARGET_BUTTONS) then
        let per := per_button_times self in
        try per_button := mapM (button_line per) TARGET_BUTTONS in
        Ok (lines ++ [Blank; Text "Per-button breakdown:"] ++ per_button)
      else Ok lines
  end.

Definition summary_lines (self : t) : result (list line) :=
  let rts := reaction_times self in
  let n := length rts in
  try reaction := reaction_lines self in
  Ok ([Text "SESSION SUMMARY"; Rule; TrialsCompleted n;
       FalseStarts (false_starts self)]
        ++ reaction
        ++ [Rule; Text "Press ESC or close the window to exit."]).
End Configured.

End Session.

(** ** What the programs see of pygame *)

Module Pygame.

Inductive key : Type := K_SPACE | K_ESCAPE | K_other.

Inductive event : Type :=
| QUIT
| KEYDOWN (key : key)
| JOYBUTTONDOWN (joy : nat) (button : nat)
| other_event.

(** One turn of the main loop: the events that [pygame.event.get()]
    returns and the position of every axis of the joystick
    ([js.get_numaxes()] is the length, [js.get_axis(i)] the [i]-th). *)
Record frame_input : Type := mkFrame {
  events : list event;
  axes : list Q
}.

(** [js = pygame.joystick.Joystick(0)]; [js.get_id()] *)
Definition js_get_id : nat := 0.

(** The message shown to the player, one constructor per f-string *)
Inductive feedback : Type :=
| FbText (s : string)
| FbIgnored (idx : nat)
| FbFalseStart (pressed : label)
| FbWrong (pressed want : label)
| FbWrongTimed (pressed want : label) (ms : Q)
| FbJudged (correct : bool) (pressed : label) (ms : Q)
| FbCorrect (pressed : label) (ms : Q)
| FbNoTiming
| FbInputReceived.

(** The loop over the events, with [break]: the body returns [true] to
    leave the loop. *)
Fixpoint for_events {S} (body : event -> S -> M (S * bool))
         (evs : list event) (s : S) : M S :=
  match evs with
  | [] => ret s
  | e :: evs' =>
      done <- body e s ;;
      let '(s', stop) := done in
      if stop : bool then ret s' else for_events body evs' s'
  end.

Fixpoint for_each {A S} (body : A -> S -> M S) (l : list A) (s : S) : M S :=
  match l with
  | [] => ret s
  | a :: l' => s' <- body a s ;; for_each body l' s'
  end.

End Pygame.

(** ** reaction-trainer.py *)

Module ReactionTrainer.
Import Builtins Report Pygame.

Definition DELAY_RANGE_S : Q * Q := (1, 3)%Q.
Definition TARGET_BUTTONS : list label := ["A"].
Definition DEFAULT_XBOX_FACE : dict nat label := [(0, "A"); (1, "B"); (2, "X"); (3, "Y")].
Definition START_BUTTON_INDEX : nat := 7.

Inductive Phase : Type := READY | GO | SUMMARY.

Global Instance Phase_eq_dec : EqDecision Phase.
Proof. solve_decision. Defined.

Record AppState : Type := mkAppState {
  phase : Phase;
  target : label;
  delay_until : Q;
  go_shown_t : option Q;
  last_feedback : feedback;
  last_feedback_t : Q
}.

Definition rand_delay_s : M Q := uniform (fst DELAY_RANGE_S) (snd DELAY_RANGE_S).

Definition set_feedback (msg : feedback) (self : AppState) : M AppState :=
  t <- perf_counter ;;
  ret (mkAppState (phase self) (target self) (delay_until self) (go_shown_t self) msg t).

Definition schedule_ready (self : AppState) : M AppState :=
  t <- perf_counter ;;
  d <- rand_delay_s ;;
  ret (mkAppState READY (target self) (t + d)%Q None
                  (last_feedback self) (last_feedback_t self)).

Definition show_go (self : AppState) : M AppState :=
  t <- perf_counter ;;
  ret (mkAppState GO (target self) (delay_until self) (Some t)
                  (last_feedback self) (last_feedback_t self)).

Definition set_target (b : label) (self : AppState) : AppState :=
  mkAppState (phase self) b (delay_until self) (go_shown_t self)
             (last_feedback self) (last_feedback_t self).

Definition set_phase (p : Phase) (self : AppState) : AppState :=
  mkAppState p (target self) (delay_until self) (go_shown_t self)
             (last_feedback self) (last_feedback_t self).

(** The variables of [main] *)
Record Machine : Type := mkMachine {
  session : Session.t;
  state : AppState;
  summary_lines : list line;
  running : bool
}.

(** [state.phase = Phase.SUMMARY; summary_lines = session.summary_lines()] *)
Definition stop (m : Machine) : M Machine :=
  ls <- lift (Session.summary_lines TARGET_BUTTONS (session m)) ;;
  ret (mkMachine (session m) (set_phase SUMMARY (state m)) ls (running m)).

Definition with_state (m : Machine) (st : AppState) : Machine :=
  mkMachine (session m) st (summary_lines m) (running m).

(** The controller branch of the event loop, for button [idx] *)
Definition on_button (now : Q) (idx : nat) (m : Machine) : M Machine :=
  if bool_decide (idx = START_BUTTON_INDEX) && negb (bool_decide (phase (state m) = SUMMARY))
  then stop m
  else
    match dict_lookup DEFAULT_XBOX_FACE idx with
    | None =>
        st <- set_feedback (FbIgnored idx) (state m) ;;
        ret (with_state m st)
    | Some pressed_face =>
        match phase (state m) with
        | READY =>
            let session' := Session.record_false_start (session m) in
            st <- schedule_ready (state m) ;;
            st <- set_feedback (FbFalseStart pressed_face) st ;;
            ret (mkMachine session' st (summary_lines m) (running m))
        | GO =>
            if negb (bool_decide (pressed_face = target (state m))) then
              st <- set_feedback (FbWrong pressed_face (target (state m))) (state m) ;;
              ret (with_state m st)
            else
              match go_shown_t (state m) with
              | None =>
                  st <- set_feedback FbNoTiming (state m) ;;
                  st <- schedule_ready st ;;
                  b <- choice TARGET_BUTTONS ;;
                  ret (with_state m (set_target b st))
              | Some go =>
                  let rt := (now - go)%Q in
                  let session' := Session.add_trial (session m) (target (state m)) rt in
                  st <- set_feedback (FbCorrect pressed_face (rt * 1000)%Q) (state m) ;;
                  b <- choice TARGET_BUTTONS ;;
                  st <- schedule_ready (set_target b st) ;;
                  ret (mkMachine session' st (summary_lines m) (running m))
              end
        | SUMMARY => ret m
        end
    end.

Definition quit (m : Machine) : Machine :=
  mkMachine (session m) (state m) (summary_lines m) false.

(** The body of [for event in pygame.event.get()]; the boolean is [true]
    when the body ends with [break] *)
Definition handle_event (now : Q) (e : event) (m : Machine) : M (Machine * bool) :=
  match e with
  | QUIT => ret (quit m, true)
  | KEYDOWN K_ESCAPE => ret (quit m, true)
  | KEYDOWN K_SPACE =>
      if negb (bool_decide (phase (state m) = SUMMARY))
      then m' <- stop m ;; ret (m', false)
      else ret (m, false)
  | KEYDOWN K_other => ret (m, false)
  | JOYBUTTONDOWN joy button =>
      if bool_decide (joy = js_get_id)
      then m' <- on_button now button m ;; ret (m', false)
      else ret (m, false)
  | other_event => ret (m, false)
  end.

(** Phase progression, after the events *)
Definition progress (now : Q) (m : Machine) : M Machine :=
  if bool_decide (phase (state m) = READY) && Qle_bool (delay_until (state m)) now
  then st <- show_go (state m) ;; ret (with_state m st)
  else ret m.

(** One turn of [while running], without the drawing *)
Definition frame (f : frame_input) (m : Machine) : M Machine :=
  now <- perf_counter ;;
  m <- for_events (handle_event now) (events f) m ;;
  progress now m.

(** [main] up to the loop *)
Definition init : M Machine :=
  t0 <- perf_counter ;;
  let st := mkAppState READY "A" 0%Q None
              (FbText "Press SPACE (keyboard) or START (controller) to stop.") t0 in
  b <- choice TARGET_BUTTONS ;;
  st <- schedule_ready (set_target b st) ;;
  ret (mkMachine (Session.mk [] 0) st [] true).

Fixpoint loop (fs : list frame_input) (m : Machine) : M Machine :=
  match fs with
  | [] => ret m
  | f :: fs' =>
      if running m then m' <- frame f m ;; loop fs' m' else ret m
  end.

Definition main (fs : list frame_input) : M Machine :=
  m <- init ;; loop fs m.

End ReactionTrainer.

(** ** xbox-gamepad-trainer.py *)

Module XboxGamepadTrainer.
Import Builtins Report Pygame SessionStats.

Definition DEFAULT_XBOX_FACE : dict nat label := [(0, "A"); (1, "B"); (2, "X"); (3, "Y")].
Definition DELAY_RANGE_S : Q * Q := (1 # 10, 35 # 100)%Q.

(** The list [["A", "B", "X", "Y"]] that the program draws its targets
    from and that its report loops over *)
Definition FACE_BUTTONS : list label := ["A"; "B"; "X"; "Y"].

Definition summary_text : SessionStats.t -> result (list line) :=
  SessionStats.summary_text FACE_BUTTONS.

Inductive Phase : Type := delay | prompt | summary.

Global Instance Phase_eq_dec : EqDecision Phase.
Proof. solve_decision. Defined.

(** The variables of [main] *)
Record Machine : Type := mkMachine {
  stats : SessionStats.t;
  phase : Phase;
  delay_until : Q;
  target_btn : label;
  prompt_shown_t : option Q;
  last_feedback : feedback;
  last_feedback_t : Q;
  summary_lines : list line;
  running : bool
}.

Definition quit (m : Machine) : Machine :=
  mkMachine (stats m) (phase m) (delay_until m) (target_btn m) (prompt_shown_t m)
            (last_feedback m) (last_feedback_t m) (summary_lines m) false.

(** [phase = "summary"; summary_lines = stats.summary_text().splitlines()] *)
Definition stop (m : Machine) : M Machine :=
  ls <- lift (summary_text (stats m)) ;;
  ret (mkMachine (stats m) summary (delay_until m) (target_btn m) (prompt_shown_t m)
                 (last_feedback m) (last_feedback_t m) ls (running m)).

(** The body of [if phase == "prompt":] for button [idx] *)
Definition on_prompt_button (now : Q) (idx : nat) (m : Machine) : M Machine :=
  match dict_lookup DEFAULT_XBOX_FACE idx with
  | None =>
      ret (mkMachine (stats m) (phase m) (delay_until m) (target_btn m)
                     (prompt_shown_t m) (FbIgnored idx) now
                     (summary_lines m) (running m))
  | Some pressed_face =>
      let rt := match prompt_shown_t m with
                | Some t => Some (now - t)%Q
                | None => None
                end in
      let correct := bool_decide (pressed_face = target_btn m) in
      let stats' := add (stats m)
                        (mkAttempt (target_btn m) (Some pressed_face) rt correct) in
      let fb := match rt with
                | Some rt =>
                    if correct then FbCorrect pressed_face (rt * 1000)%Q
                    else FbWrongTimed pressed_face (target_btn m) (rt * 1000)%Q
                | None => FbInputReceived
                end in
      if correct then
        d <- uniform (fst DELAY_RANGE_S) (snd DELAY_RANGE_S) ;;
        b <- choice FACE_BUTTONS ;;
        ret (mkMachine stats' delay (now + d)%Q b None fb now
                       (summary_lines m) (running m))
      else
        ret (mkMachine stats' (phase m) (delay_until m) (target_btn m)
                       (prompt_shown_t m) fb now (summary_lines m) (running m))
  end.

(** The body of [for event in pygame.event.get()]; the boolean is [true]
    when the body ends with [break] *)
Definition handle_event (now : Q) (e : event) (m : Machine) : M (Machine * bool) :=
  match e with
  | QUIT => ret (quit m, true)
  | KEYDOWN K_SPACE =>
      if negb (bool_decide (phase m = summary))
      then m' <- stop m ;; ret (m', false)
      else ret (m, false)
  | KEYDOWN K_ESCAPE => ret (quit m, true)
  | KEYDOWN K_other => ret (m, false)
  | JOYBUTTONDOWN joy idx =>
      if bool_decide (joy = js_get_id) then
        if bool_decide (idx = 7) && negb (bool_decide (phase m = summary))
        then m' <- stop m ;; ret (m', false)
        else if bool_decide (phase m = prompt)
             then m' <- on_prompt_button now idx m ;; ret (m', false)
             else ret (m, false)
      else ret (m, false)
  | other_event => ret (m, false)
  end.

(** Phase progression, after the events *)
Definition progress (now : Q) (m : Machine) : M Machine :=
  if bool_decide (phase m = delay) && Qle_bool (delay_until m) now
  then
    t <- perf_counter ;;
    ret (mkMachine (stats m) prompt (delay_until m) (target_btn m) (Some t)
                   (last_feedback m) (last_feedback_t m) (summary_lines m) (running m))
  else ret m.

Definition frame (f : frame_input) (m : Machine) : M Machine :=
  now <- perf_counter ;;
  m <- for_events (handle_event now) (events f) m ;;
  progress now m.

Definition init : M Machine :=
  t0 <- perf_counter ;;
  d <- uniform (fst DELAY_RANGE_S) (snd DELAY_RANGE_S) ;;
  b <- choice FACE_BUTTONS ;;
  t1 <- perf_counter ;;
  ret (mkMachine (SessionStats.mk []) delay (t0 + d)%Q b None
                 (FbText "Press A/B/X/Y on your controller. SPACE or START to stop.")
                 t1 [] true).

Fixpoint loop (fs : list frame_input) (m : Machine) : M Machine :=
  match fs with
  | [] => ret m
  | f :: fs' =>
      if running m then m' <- frame f m ;; loop fs' m' else ret m
  end.

Definition main (fs : list frame_input) : M Machine :=
  m <- init ;; loop fs m.

End XboxGamepadTrainer.

(** ** xbox-gamepad-trainer-v2.py *)

Module XboxGamepadTrainerV2.
Import Builtins Report Pygame SessionStats.

Definition DEFAULT_XBOX_FACE : dict nat label := [(0, "A"); (1, "B"); (2, "X"); (3, "Y")].
Definition DEFAULT_XBOX_BUMPERS : dict nat label := [(4, "LB"); (5, "RB")].
Definition TRIGGER_AXES : dict nat label := [(4, "LT"); (5, "RT")].
Definition ALL_TARGETS : list label := ["A"; "B"; "X"; "Y"; "LB"; "RB"; "LT"; "RT"].
Definition DELAY_RANGE_S : Q * Q := (1 # 10, 35 # 100)%Q.
Definition TRIGGER_THRESHOLD : Q := (6 # 10)%Q.
Definition TRIGGER_RELEASE : Q := (2 # 10)%Q.

Definition summary_text : SessionStats.t -> result (list line) :=
  SessionStats.summary_text ALL_TARGETS.

(** [btn_index_to_label]: the face buttons, updated with the bumpers *)
Definition btn_index_to_label : dict nat label :=
  foldl (fun d kv => dict_set d (fst kv) (snd kv)) DEFAULT_XBOX_FACE DEFAULT_XBOX_BUMPERS.

Inductive Phase : Type := delay | prompt | summary.

Global Instance Phase_eq_dec : EqDecision Phase.
Proof. solve_decision. Defined.

(** The variables of [main]; [results_file] is what the runs have appended
    to the results file, one block of lines per session *)
Record Machine : Type := mkMachine {
  stats : SessionStats.t;
  phase : Phase;
  delay_until : Q;
  bag : ShuffleBag.t;
  target_btn : label;
  prompt_shown_t : option Q;
  last_feedback : feedback;
  last_feedback_t : Q;
  summary_lines : list line;
  trigger_armed : dict label bool;
  running : bool;
  results_file : list (list line)
}.

Definition quit (m : Machine) : Machine :=
  mkMachine (stats m) (phase m) (delay_until m) (bag m) (target_btn m)
            (prompt_shown_t m) (last_feedback m) (last_feedback_t m)
            (summary_lines m) (trigger_armed m) false (results_file m).

Definition set_armed (name : label) (b : bool) (m : Machine) : Machine :=
  mkMachine (stats m) (phase m) (delay_until m) (bag m) (target_btn m)
            (prompt_shown_t m) (last_feedback m) (last_feedback_t m)
            (summary_lines m) (dict_set (trigger_armed m) name b)
            (running m) (results_file m).

Definition start_summary (m : Machine) : M Machine :=
  text <- lift (summary_text (stats m)) ;;
  ret (mkMachine (stats m) summary (delay_until m) (bag m) (target_btn m)
                 (prompt_shown_t m) (last_feedback m) (last_feedback_t m)
                 text (trigger_armed m) (running m)
                 (results_file m ++ [text])).

(** The truth value of a float or [None] in [x if prompt_shown_t else y] *)
Definition truthy (t : option Q) : bool :=
  match t with
  | Some x => negb (Qeq_bool x 0)
  | None => false
  end.

Definition record_press (lbl : label) (now : Q) (m : Machine) : M Machine :=
  let rt := if truthy (prompt_shown_t m)
            then option_map (fun t => now - t)%Q (prompt_shown_t m)
            else None in
  let correct := bool_decide (lbl = target_btn m) in
  let stats' := add (stats m) (mkAttempt (target_btn m) (Some lbl) rt correct) in
  let fb := match rt with
            | Some rt => FbJudged correct lbl (rt * 1000)%Q
            | None => FbInputReceived
            end in
  if correct then
    d <- uniform (fst DELAY_RANGE_S) (snd DELAY_RANGE_S) ;;
    drawn <- ShuffleBag.next (bag m) ;;
    let '(b, bag') := drawn in
    ret (mkMachine stats' delay (now + d)%Q bag' b None fb now
                   (summary_lines m) (trigger_armed m) (running m) (results_file m))
  else
    ret (mkMachine stats' (phase m) (delay_until m) (bag m) (target_btn m)
                   (prompt_shown_t m) fb now
                   (summary_lines m) (trigger_armed m) (running m) (results_file m)).

(** The truth value of [label] in [if label:] *)
Definition nonempty (s : string) : bool :=
  match s with
  | EmptyString => false
  | _ => true
  end.

(** The body of [for event in pygame.event.get()] (it has no [break]) *)
Definition handle_event (now : Q) (e : event) (m : Machine) : M Machine :=
  match e with
  | QUIT => ret (quit m)
  | KEYDOWN K_SPACE =>
      if negb (bool_decide (phase m = summary)) then start_summary m else ret m
  | KEYDOWN K_ESCAPE => ret (quit m)
  | KEYDOWN K_other => ret m
  | JOYBUTTONDOWN _ idx =>
      if bool_decide (phase m = prompt) then
        if bool_decide (idx = 7) then start_summary m
        else
          match dict_lookup btn_index_to_label idx with
          | Some lbl => if nonempty lbl then record_press lbl now m else ret m
          | None => ret m
          end
      else ret m
  | other_event => ret m
  end.

(** The body of [for axis_idx, name in TRIGGER_AXES.items()] *)
Definition poll_axis (now : Q) (axes : list Q) (ax : nat * label) (m : Machine)
  : M Machine :=
  let '(axis_idx, name) := ax in
  if Nat.leb (length axes) axis_idx then ret m
  else
    v <- lift (getitem axes axis_idx) ;;
    fire <- lift (if Qltb TRIGGER_THRESHOLD v
                  then dict_getitem (trigger_armed m) name
                  else Ok false) ;;
    m <- (if fire : bool
          then record_press name now (set_armed name false m)
          else ret m) ;;
    ret (if Qltb v TRIGGER_RELEASE then set_armed name true m else m).

Definition poll_triggers (now : Q) (axes : list Q) (m : Machine) : M Machine :=
  if bool_decide (phase m = prompt)
  then for_each (poll_axis now axes) TRIGGER_AXES m
  else ret m.

(** Phase progression: the prompt becomes live and every trigger is armed *)
Definition progress (now : Q) (m : Machine) : M Machine :=
  if bool_decide (phase m = delay) && Qle_bool (delay_until m) now
  then
    t <- perf_counter ;;
    ret (mkMachine (stats m) prompt (delay_until m) (bag m) (target_btn m) (Some t)
                   (last_feedback m) (last_feedback_t m) (summary_lines m)
                   (map (fun kv => (fst kv, true)) (trigger_armed m))
                   (running m) (results_file m))
  else ret m.

Definition frame (f : frame_input) (m : Machine) : M Machine :=
  now <- perf_counter ;;
  m <- for_each (handle_event now) (events f) m ;;
  m <- poll_triggers now (axes f) m ;;
  progress now m.

Definition init : M Machine :=
  t0 <- perf_counter ;;
  d <- uniform (fst DELAY_RANGE_S) (snd DELAY_RANGE_S) ;;
  bag <- ShuffleBag.__init__ ALL_TARGETS ;;
  drawn <- ShuffleBag.next bag ;;
  let '(b, bag) := drawn in
  t1 <- perf_counter ;;
  ret (mkMachine (SessionStats.mk []) delay (t0 + d)%Q bag b None
                 (FbText "Press A/B/X/Y/LB/RB/LT/RT. SPACE or START to stop.")
                 t1 []
                 (foldl (fun d kv => dict_set d (snd kv) true) [] TRIGGER_AXES)
                 true []).

Fixpoint loop (fs : list frame_input) (m : Machine) : M Machine :=
  match fs with
  | [] => ret m
  | f :: fs' =>
      if running m then m' <- frame f m ;; loop fs' m' else ret m
  end.

Definition main (fs : list frame_input) : M Machine :=
  m <- init ;; loop fs m.

(** The decoder of one trigger, lines 277-282 without the call: whether a
    press fires on the sample [v], and the armed flag after it *)
Definition trigger_update (press release v : Q) (armed : bool) : bool * bool :=
  let fire := Qltb press v && armed in
  let armed := if fire then false else armed in
  (fire, if Qltb v release then true else armed).

(** The presses that a run of samples fires, with nothing else arming or
    disarming the trigger in between *)
Fixpoint decode (press release : Q) (armed : bool) (vs : list Q) : list bool :=
  match vs with
  | [] => []
  | v :: vs' =>
      let '(fire, armed') := trigger_update press release v armed in
      fire :: decode press release armed' vs'
  end.

End XboxGamepadTrainerV2.

(** ** The drawing of a turn: what the programs put on the screen, without
    the fonts and the positions *)

Module Display.
Import Builtins Report Pygame.

Inductive colour : Type := FG | MUTED | RGB (r g b : nat).

(** The screen after the drawing: the wait, the target, or the results
    (the lines drawn and, in the note under them, the number of lines of
    the report when there are more) *)
Inductive screen (Hud : Type) : Type :=
| GetReady (hud : Hud)
| ShowTarget (target : label) (c : colour) (hud : Hud)
| Results (lines : list line) (note : option nat).

Arguments GetReady {Hud} hud.
Arguments ShowTarget {Hud} target c hud.
Arguments Results {Hud} lines note.

(** [FG if age < 1.5 else MUTED], with [age = now - last_feedback_t] *)
Definition feedback_color (now last_feedback_t : Q) : colour :=
  if Qltb (now - last_feedback_t) (15 # 10) then FG else MUTED.

(** [summary_lines[:18]] *)
Definition first_lines (summary_lines : list line) : list line :=
  take 18 summary_lines.

(** [if len(summary_lines) > 18:] the note
    [(Showing first 18 lines of {len(summary_lines)}.)] *)
Definition more_lines_note (summary_lines : list line) : option nat :=
  if Nat.ltb 18 (length summary_lines) then Some (length summary_lines) else None.

(** The head-up display of reaction-trainer.py *)
Record TrialsHud : Type := mkTrialsHud {
  th_feedback : feedback;
  th_feedback_color : colour;
  th_trials : nat;
  th_false_starts : nat
}.

(** The head-up display of the gamepad trainers; [ah_remaining] is
    [bag.remaining()], which only the v2 trainer shows *)
Record AttemptsHud : Type := mkAttemptsHud {
  ah_remaining : option nat;
  ah_feedback : feedback;
  ah_feedback_color : colour;
  ah_total : nat;
  ah_correct : nat;
  ah_accuracy : Q
}.

(** [total], [correct_n] and [acc] of the head-up display *)
Definition attempts_hud (remaining : option nat) (stats : SessionStats.t)
           (now : Q) (last_feedback : feedback) (last_feedback_t : Q)
  : result AttemptsHud :=
  let total := length (SessionStats.attempts stats) in
  let correct_n := length (List.filter SessionStats.correct (SessionStats.attempts stats)) in
  try acc := (match total with
              | 0 => Ok 0%Q
              | _ => try q := truediv (inject_Z (Z.of_nat correct_n))
                                      (inject_Z (Z.of_nat total)) in
                     Ok (q * 100)%Q
              end) in
  Ok (mkAttemptsHud remaining last_feedback (feedback_color now last_feedback_t)
                    total correct_n acc).

End Display.

Module ReactionTrainerDisplay.
Import Builtins Report Pygame Display ReactionTrainer.

Definition BUTTON_COLORS : dict label colour :=
  [("A", RGB 0 200 0); ("B", RGB 220 0 0); ("X", RGB 0 120 255); ("Y", RGB 240 200 0)].

(** The drawing of the turn that read [now] from the clock *)
Definition draw (now : Q) (m : Machine) : screen TrialsHud :=
  if negb (bool_decide (phase (state m) = SUMMARY)) then
    let hud := mkTrialsHud (last_feedback (state m))
                           (feedback_color now (last_feedback_t (state m)))
                           (length (Session.trials (session m)))
                           (Session.false_starts (session m)) in
    if bool_decide (phase (state m) = READY) then GetReady hud
    else ShowTarget (target (state m))
                    (dict_get BUTTON_COLORS (target (state m)) FG) hud
  else Results (first_lines (summary_lines m)) (more_lines_note (summary_lines m)).

End ReactionTrainerDisplay.

Module XboxGamepadTrainerDisplay.
Import Builtins Report Pygame Display XboxGamepadTrainer.

Definition BUTTON_COLORS : dict label colour :=
  [("A", RGB 0 200 0); ("B", RGB 220 0 0); ("X", RGB 0 120 255); ("Y", RGB 240 200 0)].

Definition draw (now : Q) (m : Machine) : result (screen AttemptsHud) :=
  match phase m with
  | delay =>
      try hud := attempts_hud None (stats m) now (last_feedback m) (last_feedback_t m) in
      Ok (GetReady hud)
  | prompt =>
      try color := dict_getitem BUTTON_COLORS (target_btn m) in
      try hud := attempts_hud None (stats m) now (last_feedback m) (last_feedback_t m) in
      Ok (ShowTarget (target_btn m) color hud)
  | summary =>
      Ok (Results (first_lines (summary_lines m)) (more_lines_note (summary_lines m)))
  end.

End XboxGamepadTrainerDisplay.

Module XboxGamepadTrainerV2Display.
Import Builtins Report Pygame Display XboxGamepadTrainerV2.

Definition BUTTON_COLORS : dict label colour :=
  [("A", RGB 0 200 0); ("B", RGB 220 0 0); ("X", RGB 0 120 255); ("Y", RGB 240 200 0);
   ("LB", RGB 180 180 180); ("RB", RGB 180 180 180);
   ("LT", RGB 180 180 180); ("RT", RGB 180 180 180)].

(** The results branch has no note: the lines after the 18th are not on
    the screen and nothing says so. *)
Definition draw (now : Q) (m : Machine) : result (screen AttemptsHud) :=
  match phase m with
  | delay =>
      try hud := attempts_hud (Some (ShuffleBag.remaining (bag m))) (stats m) now
                              (last_feedback m) (last_feedback_t m) in
      Ok (GetReady hud)
  | prompt =>
      try color := dict_getitem BUTTON_COLORS (target_btn m) in
      try hud := attempts_hud (Some (ShuffleBag.remaining (bag m))) (stats m) now
                              (last_feedback m) (last_feedback_t m) in
      Ok (ShowTarget (target_btn m) color hud)
  | summary => Ok (Results (first_lines (summary_lines m)) None)
  end.

End XboxGamepadTrainerV2Display.

Import Builtins Report.

(** ** Predicates used to state the properties *)

(** What [reaction_lines] yields: the no-data line when there is no correct
    reaction, the four aggregates otherwise. *)
Definition reaction_block (self : SessionStats.t) (ls : list line) : Prop :=
  let rts := SessionStats._correct_reactions self in
  match rts with
  | [] => ls = [Blank; NoReactionTime "Reaction time: (no correct attempts recorded)"]
  | _ => exists m md lo hi,
      mean rts = Ok m /\ median rts = Ok md /\
      Builtins.min rts = Ok lo /\ Builtins.max rts = Ok hi /\
      ls = [Blank; Text "Reaction time (correct only):";
            Mean (ms m); Median (ms md); Fastest (ms lo); Slowest (ms hi)]
  end.

Definition button_block (self : SessionStats.t) (btn : label) (ln : line) : Prop :=
  match SessionStats.button_count self btn with
  | None => ln = ButtonEmpty btn
  | Some n => exists m md, ln = Button btn n m md
  end.

(** Following the spec's words, "first-seen-pair order": the distinct
    elements of a list in the order of their first occurrence. *)
Definition first_seen {A} `{EqDecision A} (l : list A) : list A :=
  foldl (fun seen x => if decide (x ∈ seen) then seen else seen ++ [x]) [] l.

Definition occurrences {A} `{EqDecision A} (k : A) (l : list A) : nat :=
  length (List.filter (fun y => bool_decide (y = k)) l).

(** Following the spec's words, the tally of the pairs: each distinct pair
    with the number of times it occurs, in first-seen order. *)
Definition pair_counts {A} `{EqDecision A} (l : list A) : list (A * nat) :=
  map (fun k => (k, occurrences k l)) (first_seen l).

(** Counts do not increase along the list. *)
Definition by_count_desc {A} (a b : A * nat) : Prop := snd b <= snd a.

Definition has_count {A} (n : nat) (kv : A * nat) : bool := Nat.eqb (snd kv) n.

(** The reaction times of the trials of reaction-trainer.py on [b], and what
    its per-button loop reports for [b] *)
Definition trial_times (self : Session.t) (b : label) : list Q :=
  map Session.reaction_s
      (List.filter (fun tr => bool_decide (Session.target tr = b)) (Session.trials self)).

Definition trial_count (self : Session.t) (b : label) : option nat :=
  match trial_times self b with
  | [] => None
  | xs => Some (length xs)
  end.

(** What the per-button loop of reaction-trainer.py appends for [b] *)
Definition rt_button_block (per : dict label (list Q)) (b : label) (ln : line) : Prop :=
  match dict_get per b [] with
  | [] => ln = ButtonEmpty b
  | xs => exists m md, ln = Button b (length xs) m md
  end.

(** ** The states the programs reach

    [reachable now m w]: the program is in its event loop, in a turn that
    read [now] from the clock, with variables [m] and the world [w].  The
    first turn starts after [init]; an event is handled; a turn ends with
    the phase progression and the next one reads the clock.  Every state of
    every run of [main] is among them (lemmas [*_main_reachable]). *)

Module RT.
Import Pygame ReactionTrainer.

Inductive reachable : Q -> Machine -> World -> Prop :=
| reach_init w0 m w now w' :
    init w0 = Ok (m, w) -> perf_counter w = Ok (now, w') ->
    reachable now m w'
| reach_event now m w e m' brk w' :
    reachable now m w ->
    handle_event now e m w = Ok ((m', brk), w') ->
    reachable now m' w'
| reach_turn now m w m1 w1 now' w2 :
    reachable now m w ->
    progress now m w = Ok (m1, w1) -> perf_counter w1 = Ok (now', w2) ->
    reachable now' m1 w2.

(** A correct press: button [idx] is mapped to the target *)
Definition correct_press (m : Machine) (idx : nat) : Prop :=
  dict_lookup DEFAULT_XBOX_FACE idx = Some (target (state m)).

(** What a correct press at [now] makes of [m]: one more trial, timed from
    the moment the target was shown; a new target from the scheduler; a new
    wait. *)
Definition correct_outcome (now : Q) (m m' : Machine) : Prop :=
  exists t,
    go_shown_t (state m) = Some t /\ (0 <= now - t)%Q
    /\ session m' = Session.add_trial (session m) (target (state m)) (now - t)
    /\ phase (state m') = READY /\ go_shown_t (state m') = None
    /\ exists w1 w2, choice TARGET_BUTTONS w1 = Ok (target (state m'), w2).

(** While the target is shown, the time it was shown at is known and is
    not after the clock reading of the turn. *)
Definition inv (now : Q) (m : Machine) (w : World) : Prop :=
  (now <= seconds (clock_ns w))%Q
  /\ (phase (state m) = GO ->
      exists t, go_shown_t (state m) = Some t /\ (t <= now)%Q).

End RT.

Module V1.
Import Pygame SessionStats XboxGamepadTrainer.

Inductive reachable : Q -> Machine -> World -> Prop :=
| reach_init w0 m w now w' :
    init w0 = Ok (m, w) -> perf_counter w = Ok (now, w') ->
    reachable now m w'
| reach_event now m w e m' brk w' :
    reachable now m w ->
    handle_event now e m w = Ok ((m', brk), w') ->
    reachable now m' w'
| reach_turn now m w m1 w1 now' w2 :
    reachable now m w ->
    progress now m w = Ok (m1, w1) -> perf_counter w1 = Ok (now', w2) ->
    reachable now' m1 w2.

Definition inv (now : Q) (m : Machine) (w : World) : Prop :=
  (now <= seconds (clock_ns w))%Q
  /\ (phase m = prompt ->
      exists t, prompt_shown_t m = Some t /\ (t <= now)%Q).

Definition correct_press (m : Machine) (idx : nat) : Prop :=
  dict_lookup DEFAULT_XBOX_FACE idx = Some (target_btn m).

Definition correct_outcome (now : Q) (m m' : Machine) : Prop :=
  exists t,
    prompt_shown_t m = Some t /\ (0 <= now - t)%Q
    /\ stats m' = add (stats m)
                      (mkAttempt (target_btn m) (Some (target_btn m))
                                 (Some (now - t)%Q) true)
    /\ phase m' = delay /\ prompt_shown_t m' = None
    /\ exists w1 w2, choice FACE_BUTTONS w1 = Ok (target_btn m', w2).

End V1.

Module V2.
Import Pygame SessionStats XboxGamepadTrainerV2.

(** The triggers are polled one axis at a time, the variables changing in
    between, so a poll of one axis is a step of its own. *)
Inductive reachable : Q -> Machine -> World -> Prop :=
| reach_init w0 m w now w' :
    init w0 = Ok (m, w) -> perf_counter w = Ok (now, w') ->
    reachable now m w'
| reach_event now m w e m' w' :
    reachable now m w ->
    handle_event now e m w = Ok (m', w') ->
    reachable now m' w'
| reach_poll now m w axes ax m' w' :
    reachable now m w -> ax ∈ TRIGGER_AXES ->
    poll_axis now axes ax m w = Ok (m', w') ->
    reachable now m' w'
| reach_turn now m w m1 w1 now' w2 :
    reachable now m w ->
    progress now m w = Ok (m1, w1) -> perf_counter w1 = Ok (now', w2) ->
    reachable now' m1 w2.

Definition inv (now : Q) (m : Machine) (w : World) : Prop :=
  ((0 <= now)%Q /\ (now <= seconds (clock_ns w))%Q)
  /\ (phase m = prompt ->
      exists t, prompt_shown_t m = Some t /\ (t <= now)%Q /\ (0 < t)%Q)
  /\ (phase m = delay -> (0 < delay_until m)%Q)
  /\ ShuffleBag._items (bag m) = ALL_TARGETS
  /\ map fst (trigger_armed m) = ["LT"; "RT"].

Definition correct_press (m : Machine) (idx : nat) : Prop :=
  dict_lookup btn_index_to_label idx = Some (target_btn m).

Definition correct_outcome (now : Q) (m m' : Machine) : Prop :=
  exists t,
    prompt_shown_t m = Some t /\ (0 <= now - t)%Q
    /\ stats m' = add (stats m)
                      (mkAttempt (target_btn m) (Some (target_btn m))
                                 (Some (now - t)%Q) true)
    /\ phase m' = delay /\ prompt_shown_t m' = None
    /\ exists w1 w2, ShuffleBag.next (bag m) w1 = Ok ((target_btn m', bag m'), w2).

(** The trigger [name] on axis [i] is pulled past the threshold while it
    is armed. *)
Definition trigger_pulled (m : Machine) (axes : list Q) (i : nat) (name : label)
  : Prop :=
  exists v, axes !! i = Some v /\ (TRIGGER_THRESHOLD < v)%Q
            /\ dict_lookup (trigger_armed m) name = Some true.

End V2.

(** ** Concrete runs *)

Module Examples.
Import Pygame.

Definition second : N := 1000000000.

(** A clock that advances by one second between two readings, and a random
    generator whose output makes ["LT"] the first target of the v2 trainer
    and ["RT"] the second. *)
Definition world_lt : World := mkWorld 0 (repeat second 20) [0; 6; 6]%N.

(** The same clock, and a random generator that yields zeros: the first
    target of the v2 trainer is ["A"]. *)
Definition world_a : World := mkWorld 0 (repeat second 20) [].

(** Six axes; the left trigger (axis 4) is held fully pulled. *)
Definition lt_held : list Q := [0; 0; 0; 0; 1; 0]%Q.

(** Both triggers (axes 4 and 5) are pulled. *)
Definition both_pulled : list Q := [0; 0; 0; 0; 1; 1]%Q.

(** A turn without events in which the left trigger is held *)
Definition hold : frame_input := mkFrame [] lt_held.

(** reaction-trainer.py, waiting to show ["A"] *)
Definition rt_waiting : ReactionTrainer.Machine :=
  ReactionTrainer.mkMachine
    (Session.mk [] 0)
    (ReactionTrainer.mkAppState ReactionTrainer.READY "A" 5 None
       (FbText "Press SPACE (keyboard) or START (controller) to stop.") 1)
    [] true.

End Examples.

(** ** Well-formed ledgers *)

Module Ledger.
Import SessionStats.

(** An attempt as the gamepad trainers record them, over the labels
    [labels]: the target and the pressed control are among the labels, the
    attempt is marked correct exactly when they are the same, and the
    reaction time, when there is one, is not negative. *)
Definition attempt_ok (labels : list label) (a : Attempt) : Prop :=
  target a ∈ labels
  /\ (exists p, pressed a = Some p /\ p ∈ labels
                /\ correct a = bool_decide (p = target a))
  /\ (forall r, reaction_s a = Some r -> (0 <= r)%Q).

Definition timed (a : Attempt) : Prop := exists r, reaction_s a = Some r.

(** A trial of reaction-trainer.py over the targets [labels] *)
Definition trial_ok (labels : list label) (tr : Session.Trial) : Prop :=
  Session.target tr ∈ labels /\ (0 <= Session.reaction_s tr)%Q.

End Ledger.

(** * Properties *)

(** ** The random generator and the shuffle *)

Lemma randbelow_lt (n : nat) (w : World) :
  0 < n -> exists j w', randbelow n w = Ok (j, w') /\ j < n.
Proof.
  intros Hn. unfold randbelow, bind, next_raw, ret.
  eexists _, _. split; [reflexivity|].
  assert (hd 0 (tape w) mod N.of_nat n < N.of_nat n)%N
    by (apply N.mod_upper_bound; lia).
  lia.
Qed.

Lemma swap_ok {A} (i j : nat) (x : list A) :
  i < length x -> j < length x ->
  exists x', swap i j x = Ok x' /\ Permutation x' x.
Proof.
  intros Hi Hj.
  destruct (lookup_lt_is_Some_2 x i Hi) as [xi Hxi].
  destruct (lookup_lt_is_Some_2 x j Hj) as [xj Hxj].
  unfold swap. rewrite Hxi, Hxj. eexists. split; [reflexivity|].
  apply Permutation_inj. split.
  - by rewrite !length_insert.
  - exists (fun p => if decide (p = i) then j else if decide (p = j) then i else p).
    split.
    + intros p q. repeat case_decide; congruence.
    + intros p. destruct (decide (p = j)) as [->|Hpj].
      * rewrite list_lookup_insert_eq by (by rewrite length_insert).
        case_decide; congruence.
      * rewrite list_lookup_insert_ne by done.
        destruct (decide (p = i)) as [->|Hpi].
        -- rewrite list_lookup_insert_eq by done. congruence.
        -- by rewrite list_lookup_insert_ne.
Qed.

Lemma shuffle_from_ok {A} (i : nat) : forall (x : list A) (w : World),
  i < length x ->
  exists x' w', shuffle_from i x w = Ok (x', w') /\ Permutation x' x.
Proof.
  induction i as [|i IH]; intros x w Hi.
  - exists x, w. split; [reflexivity|done].
  - destruct (randbelow_lt (S (S i)) w) as (j & w1 & Hr & Hj); [lia|].
    destruct (swap_ok (S i) j x) as (x1 & Hs & Hp1); [lia..|].
    destruct (IH x1 w1) as (x2 & w2 & Hrec & Hp2).
    { apply Permutation_length in Hp1. lia. }
    exists x2, w2. split; [|by etrans].
    cbn [shuffle_from]. unfold bind at 1. rewrite Hr.
    unfold bind at 1, lift. by rewrite Hs.
Qed.

Lemma shuffle_ok {A} (x : list A) (w : World) :
  exists x' w', shuffle x w = Ok (x', w') /\ Permutation x' x.
Proof.
  unfold shuffle. destruct x as [|a x].
  - exists [], w. split; [reflexivity|done].
  - apply shuffle_from_ok. simpl. lia.
Qed.

(** ** The shuffle bag *)

Import ShuffleBag.

Lemma refill_ok (self : t) (w : World) :
  exists b w', _refill self w = Ok (mk (_items self) b, w')
               /\ Permutation b (_items self).
Proof.
  destruct (shuffle_ok (_items self) w) as (b & w' & Hs & Hp).
  exists b, w'. split; [|done].
  unfold _refill, bind. by rewrite Hs.
Qed.

Lemma next_nonempty (items b : list label) (a : label) (w : World) :
  next (mk items (b ++ [a])) w = Ok ((a, mk items b), w).
Proof.
  unfold next, bind. cbn [_bag].
  destruct (b ++ [a]) as [|c l] eqn:E; [by destruct b|].
  rewrite <- E. unfold ret at 1. cbn [_bag _items].
  unfold lift, pop. by rewrite last_snoc, removelast_last.
Qed.

Lemma draw_bag (items b : list label) (w : World) :
  draw (length b) (mk items b) w = Ok ((rev b, mk items []), w).
Proof.
  induction b as [|a b IH] using rev_ind; [reflexivity|].
  rewrite length_app, Nat.add_1_r, rev_unit.
  cbn [draw]. unfold bind at 1. rewrite next_nonempty.
  unfold bind at 1. by rewrite IH.
Qed.

Lemma draw_from_empty (items : list label) (w : World) :
  items <> [] ->
  exists out w', draw (length items) (mk items []) w = Ok ((out, mk items []), w')
                 /\ Permutation out items.
Proof.
  intros Hne.
  destruct (refill_ok (mk items []) w) as (b & w' & Hr & Hp). cbn [_items] in *.
  exists (rev b), w'. split; [|by etrans; [symmetry; apply Permutation_rev|]].
  assert (Hlen : length items = length b) by (by apply Permutation_length in Hp).
  destruct b as [|c b] using rev_ind.
  { destruct items; [done|discriminate]. }
  clear IHb. rewrite Hlen, length_app, Nat.add_1_r.
  cbn [draw]. unfold bind at 1.
  assert (Hn : next (mk items []) w = Ok ((c, mk items b), w')).
  { unfold next, bind. cbn [_bag]. rewrite Hr. cbn [_bag _items].
    unfold lift, pop. by rewrite last_snoc, removelast_last. }
  rewrite Hn. unfold bind at 1. rewrite draw_bag. by rewrite rev_unit.
Qed.

Lemma draw_boundary (self : t) (w : World) :
  _items self <> [] -> at_refill_boundary self ->
  exists out w',
    draw (length (_items self)) self w = Ok ((out, mk (_items self) []), w')
    /\ Permutation out (_items self).
Proof.
  destruct self as [items b]. cbn [_items]. intros Hne [Hb|Hb]; cbn [_bag _items] in Hb.
  - subst b. by apply draw_from_empty.
  - exists (rev b), w. split.
    + rewrite <- (Permutation_length Hb). apply draw_bag.
    + etrans; [symmetry; apply Permutation_rev|done].
Qed.

(** ** Builtins: the guarded partial operations do not raise *)



Lemma Qlen_nonzero {A} (l : list A) : l <> [] -> Qeq_bool (Qlen l) 0 = false.
Proof.
  intros Hl. destruct (Qeq_bool (Qlen l) 0) eqn:E; [|done].
  apply Qeq_bool_iff in E. unfold Qlen, Qeq in E. simpl in E.
  destruct l; [done|]. simpl in E. lia.
Qed.

Lemma mean_ok (data : list Q) :
  data <> [] -> mean data = Ok (sum data / Qlen data)%Q.
Proof.
  intros Hd. unfold mean, truediv. rewrite (Qlen_nonzero data Hd).
  by destruct data.
Qed.

Lemma length_insert_by {A} (before : A -> A -> bool) (x : A) (l : list A) :
  length (insert_by before x l) = S (length l).
Proof.
  induction l as [|y l IH]; [done|]. simpl.
  destruct (before y x); simpl; by rewrite ?IH.
Qed.

Lemma length_sorted_by {A} (before : A -> A -> bool) (l : list A) :
  length (sorted_by before l) = length l.
Proof.
  induction l as [|x l IH]; [done|].
  simpl. by rewrite length_insert_by, IH.
Qed.

Lemma getitem_ok {A} (l : list A) (i : nat) :
  i < length l -> exists a, getitem l i = Ok a.
Proof.
  intros Hi. destruct (lookup_lt_is_Some_2 l i Hi) as [a Ha].
  exists a. unfold getitem. by rewrite Ha.
Qed.

Lemma median_ok (data : list Q) :
  data <> [] -> exists m, median data = Ok m.
Proof.
  intros Hd. unfold median. cbv zeta.
  assert (Hlen : length (sorted data) = length data) by apply length_sorted_by.
  remember (length (sorted data)) as n eqn:En.
  destruct n as [|n']; [by destruct data|].
  set (n := S n') in *.
  assert (Hpos : 0 < n) by (unfold n; lia).
  clearbody n.
  destruct (Nat.eqb (n mod 2) 1) eqn:Hodd.
  - apply getitem_ok. rewrite <- En. apply Nat.div_lt; lia.
  - apply Nat.eqb_neq in Hodd.
    assert (Hn2 : 2 <= n).
    { destruct n as [|[|n2]]; [lia| |lia]. by destruct Hodd. }
    assert (Hi : n / 2 < n) by (apply Nat.div_lt; lia).
    destruct (getitem_ok (sorted data) (n / 2 - 1)) as [lo Hlo]; [lia|].
    destruct (getitem_ok (sorted data) (n / 2)) as [hi Hhi]; [lia|].
    rewrite Hlo, Hhi. cbn [rbind]. eexists. reflexivity.
Qed.

Lemma min_ok (data : list Q) : data <> [] -> exists m, Builtins.min data = Ok m.
Proof. destruct data; [done|]. intros _. eexists. reflexivity. Qed.

Lemma max_ok (data : list Q) : data <> [] -> exists m, Builtins.max data = Ok m.
Proof. destruct data; [done|]. intros _. eexists. reflexivity. Qed.

Lemma mapM_Forall2 {A B} (f : A -> result B) (P : A -> B -> Prop) (l : list A) :
  (forall a, exists b, f a = Ok b /\ P a b) ->
  exists bs, mapM f l = Ok bs /\ Forall2 P l bs.
Proof.
  intros Hf. induction l as [|a l (bs & IH & HP)].
  - exists []. split; [done|constructor].
  - destruct (Hf a) as (b & Hb & Pb). exists (b :: bs).
    split; [|by constructor].
    cbn [mapM]. rewrite Hb. cbn [rbind]. by rewrite IH.
Qed.

(** ** The session report of the two gamepad trainers *)

Lemma accuracy_ok (self : SessionStats.t) :
  SessionStats.accuracy self =
    Ok (match SessionStats.attempts self with
        | [] => 0
        | _ => Qlen (List.filter SessionStats.correct (SessionStats.attempts self))
               / Qlen (SessionStats.attempts self) * 100
        end)%Q.
Proof.
  unfold SessionStats.accuracy.
  destruct (SessionStats.attempts self) as [|a l] eqn:E; [done|].
  cbn [length]. unfold truediv.
  change (inject_Z (Z.of_nat (S (length l)))) with (Qlen (a :: l)).
  by rewrite Qlen_nonzero.
Qed.

Lemma reaction_lines_ok (self : SessionStats.t) :
  exists ls, SessionStats.reaction_lines self = Ok ls /\ reaction_block self ls.
Proof.
  unfold SessionStats.reaction_lines, reaction_block. cbv zeta.
  destruct (SessionStats._correct_reactions self) as [|r rs] eqn:E.
  - eexists. split; reflexivity.
  - assert (Hne : r :: rs <> []) by done.
    destruct (median_ok _ Hne) as [md Hmd].
    destruct (min_ok _ Hne) as [lo Hlo].
    destruct (max_ok _ Hne) as [hi Hhi].
    rewrite (mean_ok _ Hne), Hmd, Hlo, Hhi. cbn [rbind].
    eexists. split; [reflexivity|].
    eexists _, _, _, _. repeat split; reflexivity.
Qed.

Lemma button_line_ok (self : SessionStats.t) (btn : label) :
  exists ln, SessionStats.button_line self btn = Ok ln /\ button_block self btn ln.
Proof.
  unfold SessionStats.button_line, button_block, SessionStats.button_count.
  cbv zeta.
  destruct (SessionStats.button_reactions self btn) as [|r rs] eqn:E.
  - eexists. split; reflexivity.
  - assert (Hne : r :: rs <> []) by done.
    destruct (median_ok _ Hne) as [md Hmd].
    rewrite (mean_ok _ Hne), Hmd. cbn [rbind].
    eexists. split; [reflexivity|]. eexists _, _. reflexivity.
Qed.

Lemma button_lines_projections (self : SessionStats.t) (buttons : list label) (pb : list line) :
  Forall2 (button_block self) buttons pb ->
  breakdown pb = map (fun btn => (btn, SessionStats.button_count self btn)) buttons
  /\ accuracies pb = [] /\ confusion pb = []
  /\ List.filter is_no_data pb = [] /\ List.filter is_latency_aggregate pb = [].
Proof.
  unfold breakdown, accuracies, confusion.
  induction 1 as [|btn ln buttons pb Hb _ (IH1 & IH2 & IH3 & IH4 & IH5)]; [done|].
  unfold button_block in Hb.
  destruct (SessionStats.button_count self btn) as [n|] eqn:E.
  - destruct Hb as (m & md & ->). cbn. rewrite E, IH1, IH2, IH3, IH4, IH5. done.
  - subst ln. cbn. rewrite E, IH1, IH2, IH3, IH4, IH5. done.
Qed.

Lemma mistake_lines_projections (self : SessionStats.t) :
  let ml := SessionStats.mistake_lines self in
  confusion ml = take 8 (sorted_key_reverse snd (SessionStats.tally self))
  /\ breakdown ml = [] /\ accuracies ml = []
  /\ List.filter is_no_data ml = [] /\ List.filter is_latency_aggregate ml = [].
Proof.
  cbv zeta. unfold SessionStats.mistake_lines.
  set (conf := SessionStats.tally self).
  assert (Hmap : forall l : list (label * label * nat),
    confusion (map SessionStats.mistake_line l) = l
    /\ breakdown (map SessionStats.mistake_line l) = []
    /\ accuracies (map SessionStats.mistake_line l) = []
    /\ List.filter is_no_data (map SessionStats.mistake_line l) = []
    /\ List.filter is_latency_aggregate (map SessionStats.mistake_line l) = []).
  { unfold confusion, breakdown, accuracies.
    induction l as [|[[t p] n] l (IH1 & IH2 & IH3 & IH4 & IH5)]; [done|].
    cbn. rewrite IH1, IH2, IH3, IH4, IH5. done. }
  destruct conf as [|kv conf]; [done|].
  destruct (Hmap (take 8 (sorted_key_reverse snd (kv :: conf))))
    as (H1 & H2 & H3 & H4 & H5).
  unfold confusion, breakdown, accuracies in *. cbn [app omap List.filter].
  cbn [mistake_entry breakdown_entry accuracy_entry is_no_data is_latency_aggregate].
  done.
Qed.

(** The shape of every report: the five blocks, none of which raises. *)
Lemma summary_text_blocks (buttons : list label) (self : SessionStats.t) :
  exists acc rl pb,
    SessionStats.summary_text buttons self =
      Ok ([Text "SESSION SUMMARY"; Rule;
           TotalAttempts (length (SessionStats.attempts self));
           CorrectCount (length (List.filter SessionStats.correct (SessionStats.attempts self)));
           IncorrectCount (Z.of_nat (length (SessionStats.attempts self))
                           - Z.of_nat (length (List.filter SessionStats.correct
                                                 (SessionStats.attempts self))));
           Accuracy acc]
          ++ rl
          ++ ([Blank; Text "Per-button breakdown (correct only):"] ++ pb)
          ++ SessionStats.mistake_lines self
          ++ [Rule; Text "Press ESC or close the window to exit."])
    /\ SessionStats.accuracy self = Ok acc
    /\ reaction_block self rl
    /\ Forall2 (button_block self) buttons pb.
Proof.
  destruct (reaction_lines_ok self) as (rl & Hrl & Hblock).
  destruct (mapM_Forall2 (SessionStats.button_line self) (button_block self) buttons
              (button_line_ok self)) as (pb & Hpb & HF).
  eexists _, rl, pb. split; [|split; [apply accuracy_ok|done]].
  unfold SessionStats.summary_text, SessionStats.counts_lines,
    SessionStats.breakdown_lines.
  rewrite accuracy_ok, Hrl, Hpb. reflexivity.
Qed.

Lemma no_correct_no_reactions (self : SessionStats.t) :
  List.filter SessionStats.correct (SessionStats.attempts self) = [] ->
  SessionStats._correct_reactions self = [].
Proof.
  unfold SessionStats._correct_reactions.
  induction (SessionStats.attempts self) as [|a l IH]; [done|].
  cbn. destruct (SessionStats.correct a); [done|]. exact IH.
Qed.

(** C7. The report of the gamepad trainers is total: [summary_text] returns
    a report for every ledger (it never raises); the report has one accuracy
    figure, the correct count divided by the total, written as a percentage,
    which is 0 for the empty ledger; without correct attempts the report
    holds the no-data line and none of the mean, median, fastest and slowest
    lines; with correct, timed attempts it holds these four, computed
    without an error. *)
Theorem summary_text_total (buttons : list label) (self : SessionStats.t) :
  exists lines,
    SessionStats.summary_text buttons self = Ok lines
    /\ accuracies lines =
         [match SessionStats.attempts self with
          | [] => 0
          | _ => Qlen (List.filter SessionStats.correct (SessionStats.attempts self))
                 / Qlen (SessionStats.attempts self) * 100
          end]%Q
    /\ (exists acc,
          accuracies lines = [acc]
          /\ (SessionStats.attempts self = [] -> acc = 0%Q)
          /\ (SessionStats.attempts self <> [] ->
              acc / 100
              == Qlen (List.filter SessionStats.correct (SessionStats.attempts self))
                 / Qlen (SessionStats.attempts self))%Q)
    /\ (List.filter SessionStats.correct (SessionStats.attempts self) = [] ->
        List.filter is_no_data lines
          = [NoReactionTime "Reaction time: (no correct attempts recorded)"]
        /\ List.filter is_latency_aggregate lines = [])
    /\ (SessionStats._correct_reactions self <> [] ->
        exists m md lo hi,
          mean (SessionStats._correct_reactions self) = Ok m
          /\ median (SessionStats._correct_reactions self) = Ok md
          /\ Builtins.min (SessionStats._correct_reactions self) = Ok lo
          /\ Builtins.max (SessionStats._correct_reactions self) = Ok hi
          /\ List.filter is_latency_aggregate lines
             = [Mean (ms m); Median (ms md); Fastest (ms lo); Slowest (ms hi)]
          /\ List.filter is_no_data lines = []).
Proof.
  destruct (summary_text_blocks buttons self) as (acc & rl & pb & Hs & Hacc & Hrl & Hpb).
  destruct (button_lines_projections self buttons pb Hpb) as (_ & Hp2 & _ & Hp4 & Hp5).
  destruct (mistake_lines_projections self) as (_ & _ & Hm3 & Hm4 & Hm5).
  eexists. split; [exact Hs|].
  rewrite accuracy_ok in Hacc. injection Hacc as <-.
  unfold reaction_block in Hrl. unfold accuracies in *.
  rewrite !omap_app, !List.filter_app, Hp2, Hp4, Hp5, Hm3, Hm4, Hm5.
  assert (Hacc : omap accuracy_entry rl = []).
  { destruct (SessionStats._correct_reactions self).
    - by subst rl.
    - by destruct Hrl as (? & ? & ? & ? & _ & _ & _ & _ & ->). }
  split; [|split; [|split]].
  - by rewrite Hacc.
  - rewrite Hacc. eexists. split; [reflexivity|].
    destruct (SessionStats.attempts self) as [|a l] eqn:Eatt; split; try done.
    intros _.
    assert (Ht : ~ (Qlen (a :: l) == 0)%Q).
    { intros Hz. apply Qeq_bool_iff in Hz.
      by rewrite (Qlen_nonzero (a :: l)) in Hz. }
    set (c := Qlen (List.filter _ _)). set (t := Qlen (a :: l)) in *.
    field. exact Ht.
  - intros Hnone. rewrite (no_correct_no_reactions self Hnone) in Hrl.
    by subst rl.
  - intros Hsome. destruct (SessionStats._correct_reactions self) as [|r rs]; [done|].
    destruct Hrl as (m & md & lo & hi & H1 & H2 & H3 & H4 & ->).
    by exists m, md, lo, hi.
Qed.

(** ** The stable sort *)

Lemma insert_by_perm {A} (before : A -> A -> bool) (x : A) (l : list A) :
  Permutation (insert_by before x l) (x :: l).
Proof.
  induction l as [|y l IH]; [done|]. simpl.
  destruct (before y x); [|done].
  rewrite IH. apply perm_swap.
Qed.

Lemma sorted_by_perm {A} (before : A -> A -> bool) (l : list A) :
  Permutation (sorted_by before l) l.
Proof.
  induction l as [|x l IH]; [done|].
  simpl. rewrite insert_by_perm. by constructor.
Qed.

Section KeyReverse.
Context {A : Type} (key : A -> nat).

Let before (y x : A) : bool := Nat.ltb (key x) (key y).
Let desc (a b : A) : Prop := key b <= key a.

Lemma insert_desc (x : A) (l : list A) :
  StronglySorted desc l -> StronglySorted desc (insert_by before x l).
Proof.
  induction 1 as [|y l Hs IH Hall]; simpl.
  - repeat constructor.
  - unfold before at 1. destruct (Nat.ltb_spec (key x) (key y)) as [Hlt|Hge].
    + constructor; [exact IH|].
      rewrite insert_by_perm. constructor; [unfold desc; lia|done].
    + constructor; [by constructor|].
      constructor; [done|].
      eapply Forall_impl; [exact Hall|]. unfold desc. intros z Hz. simpl in *. lia.
Qed.

Lemma sorted_key_reverse_desc (l : list A) :
  StronglySorted desc (sorted_key_reverse key l).
Proof.
  unfold sorted_key_reverse, sorted_by.
  induction l as [|x l IH]; [constructor|]. simpl. by apply insert_desc.
Qed.

(** Stability: the elements of one key are in the order they had. *)
Lemma insert_stable (n : nat) (x : A) (l : list A) :
  List.filter (fun a => Nat.eqb (key a) n) (insert_by before x l)
  = List.filter (fun a => Nat.eqb (key a) n) (x :: l).
Proof.
  induction l as [|y l IH]; [done|]. simpl.
  unfold before at 1. destruct (Nat.ltb_spec (key x) (key y)) as [Hlt|Hge]; [|done].
  simpl in *. rewrite IH.
  destruct (Nat.eqb_spec (key x) n), (Nat.eqb_spec (key y) n); try done; lia.
Qed.

Lemma sorted_key_reverse_stable (n : nat) (l : list A) :
  List.filter (fun a => Nat.eqb (key a) n) (sorted_key_reverse key l)
  = List.filter (fun a => Nat.eqb (key a) n) l.
Proof.
  unfold sorted_key_reverse, sorted_by.
  induction l as [|x l IH]; [done|].
  cbn [foldr]. rewrite insert_stable. simpl. by rewrite IH.
Qed.

Lemma take_desc (n : nat) (l : list A) :
  StronglySorted desc l -> StronglySorted desc (take n l).
Proof.
  intros Hs. revert n. induction Hs as [|y l Hs IH Hall]; intros [|n]; simpl;
    try constructor; [apply IH|].
  by apply Forall_take.
Qed.
End KeyReverse.

(** ** Insertion-ordered dictionaries and the tally of the mistakes *)

Section Dict.
Context {K : Type} `{EqDecision K} {V : Type}.
Implicit Types (d : dict K V) (k : K) (v : V).

Lemma keys_dict_set d k v :
  map fst (dict_set d k v)
  = if decide (k ∈ map fst d) then map fst d else map fst d ++ [k].
Proof.
  induction d as [|[k' v'] r IH]; simpl.
  - done.
  - destruct (decide (k = k')) as [->|Hne]; simpl.
    + by rewrite decide_True by (apply elem_of_cons; auto).
    + rewrite IH. destruct (decide (k ∈ map fst r)).
      * by rewrite decide_True by (apply elem_of_cons; auto).
      * by rewrite decide_False by (rewrite elem_of_cons; intros [?|?]; done).
Qed.

Lemma dict_get_set d k v k' (def : V) :
  dict_get (dict_set d k v) k' def
  = if decide (k' = k) then v else dict_get d k' def.
Proof.
  induction d as [|[k0 v0] r IH]; simpl.
  - by repeat case_decide.
  - destruct (decide (k = k0)) as [->|Hne]; simpl.
    + by repeat case_decide.
    + rewrite IH. repeat case_decide; congruence.
Qed.

Lemma dict_self d (def : V) :
  NoDup (map fst d) ->
  d = map (fun k => (k, dict_get d k def)) (map fst d).
Proof.
  induction d as [|[k0 v0] r IH]; [done|]. simpl. intros Hnd.
  apply NoDup_cons in Hnd as [Hnotin Hnd].
  rewrite decide_True by done. f_equal.
  rewrite (IH Hnd) at 1. apply map_ext_in. intros k Hk.
  apply list_elem_of_In in Hk.
  rewrite decide_False; [done|]. by intros ->.
Qed.
End Dict.

Section Tally.
Context {K : Type} `{EqDecision K}.

Let incr (conf : dict K nat) (k : K) : dict K nat :=
  dict_set conf k (dict_get conf k 0 + 1).
Let see (seen : list K) (x : K) : list K :=
  if decide (x ∈ seen) then seen else seen ++ [x].

Lemma see_NoDup (seen : list K) (x : K) : NoDup seen -> NoDup (see seen x).
Proof.
  intros Hnd. unfold see. case_decide; [done|].
  apply NoDup_app. repeat split; [done| |apply NoDup_singleton].
  intros y Hy Hy'. apply list_elem_of_singleton in Hy'. by subst.
Qed.

Lemma foldl_incr_counts (l : list K) : forall conf : dict K nat,
  NoDup (map fst conf) ->
  foldl incr conf l
  = map (fun k => (k, dict_get conf k 0 + occurrences k l)) (foldl see (map fst conf) l).
Proof.
  induction l as [|x l IH]; intros conf Hnd.
  - simpl. rewrite (dict_self conf 0 Hnd) at 1.
    apply map_ext. intros k. unfold occurrences. simpl. f_equal. lia.
  - cbn [foldl]. rewrite IH.
    + unfold incr at 2. rewrite keys_dict_set. fold (see (map fst conf) x).
      apply map_ext. intros k. f_equal. unfold incr.
      rewrite dict_get_set. unfold occurrences. simpl.
      case_decide as Hk.
      * subst k. rewrite bool_decide_eq_true_2 by done. simpl. lia.
      * rewrite bool_decide_eq_false_2 by congruence. done.
    + unfold incr. rewrite keys_dict_set. by apply see_NoDup.
Qed.

Lemma foldl_incr_pair_counts (l : list K) :
  foldl incr [] l = pair_counts l.
Proof.
  rewrite foldl_incr_counts by constructor. reflexivity.
Qed.
End Tally.

Lemma tally_pair_counts (self : SessionStats.t) :
  SessionStats.tally self = pair_counts (SessionStats.mistakes self).
Proof.
  rewrite <- foldl_incr_pair_counts.
  unfold SessionStats.tally, SessionStats.mistakes.
  generalize (@nil (label * label * nat)).
  induction (SessionStats.attempts self) as [|a l IH]; intros conf; [done|].
  cbn [foldl omap list_omap].
  destruct (SessionStats.correct a), (SessionStats.pressed a); cbn [foldl]; apply IH.
Qed.

Lemma reaction_block_projections (self : SessionStats.t) (rl : list line) :
  reaction_block self rl ->
  confusion rl = [] /\ breakdown rl = [].
Proof.
  unfold reaction_block. destruct (SessionStats._correct_reactions self).
  - by intros ->.
  - by intros (? & ? & ? & ? & _ & _ & _ & _ & ->).
Qed.

(** C9. The confusion summary of every report is the first 8 entries of the
    tally of the (target, pressed) pairs of the incorrect attempts with a
    known pressed label, sorted by non-increasing count, the pairs of equal
    count staying in first-seen order. *)
Theorem confusion_summary_top8 (buttons : list label) (self : SessionStats.t) :
  exists lines full,
    SessionStats.summary_text buttons self = Ok lines
    /\ confusion lines = take 8 full
    /\ length (confusion lines) <= 8
    /\ StronglySorted by_count_desc (confusion lines)
    /\ Permutation full (pair_counts (SessionStats.mistakes self))
    /\ StronglySorted by_count_desc full
    /\ forall n, List.filter (has_count n) full
                 = List.filter (has_count n) (pair_counts (SessionStats.mistakes self)).
Proof.
  destruct (summary_text_blocks buttons self) as (acc & rl & pb & Hs & _ & Hrl & Hpb).
  destruct (button_lines_projections self buttons pb Hpb) as (_ & _ & Hp3 & _ & _).
  destruct (mistake_lines_projections self) as (Hm1 & _).
  destruct (reaction_block_projections self rl Hrl) as (Hr1 & _).
  match type of Hs with _ = Ok ?L => set (lines := L) in * end.
  exists lines, (sorted_key_reverse snd (SessionStats.tally self)).
  split; [exact Hs|].
  assert (Hconf : confusion lines
                  = take 8 (sorted_key_reverse snd (SessionStats.tally self))).
  { unfold lines, confusion in *. rewrite !omap_app, Hr1, Hp3, Hm1. cbn.
    by rewrite app_nil_r. }
  rewrite Hconf. repeat split.
  - rewrite length_take. lia.
  - apply (take_desc snd), sorted_key_reverse_desc.
  - rewrite <- tally_pair_counts. apply sorted_by_perm.
  - apply (sorted_key_reverse_desc snd).
  - intros n. rewrite <- tally_pair_counts. apply (sorted_key_reverse_stable snd).
Qed.

(** ** The report of reaction-trainer.py *)

Lemma init_buttons_dict (TB : list label) : forall d : dict label (list Q),
  (forall b, dict_get d b [] = []) ->
  let out := foldl (fun out b => dict_set out b []) d TB in
  (forall b, dict_get out b [] = [])
  /\ (forall b, b ∈ map fst out <-> b ∈ map fst d \/ b ∈ TB).
Proof.
  induction TB as [|x TB IH]; intros d Hd; cbn [foldl].
  - split; [done|]. intros b. rewrite elem_of_nil. tauto.
  - destruct (IH (dict_set d x [])) as [H1 H2].
    { intros b. rewrite dict_get_set. by case_decide. }
    split; [done|]. intros b. rewrite H2, keys_dict_set, elem_of_cons.
    case_decide as Hx.
    + split; [tauto|]. intros [?|[->|?]]; auto.
    + rewrite elem_of_app, list_elem_of_singleton. tauto.
Qed.

Lemma per_button_fold (trials : list Session.Trial) : forall out : dict label (list Q),
  let step := fun (out : dict label (list Q)) tr =>
    if bool_decide (Session.target tr ∈ map fst out)
    then dict_set out (Session.target tr)
           (dict_get out (Session.target tr) [] ++ [Session.reaction_s tr])
    else out in
  forall b,
    dict_get (foldl step out trials) b []
    = dict_get out b []
      ++ (if decide (b ∈ map fst out)
          then map Session.reaction_s
                 (List.filter (fun tr => bool_decide (Session.target tr = b)) trials)
          else []).
Proof.
  induction trials as [|tr trials IH]; intros out step b; cbn [foldl].
  - case_decide; by rewrite app_nil_r.
  - fold step. rewrite (IH (step out tr)). clear IH.
    assert (Hkeys : map fst (step out tr) = map fst out).
    { unfold step. case_bool_decide; [|done]. by rewrite keys_dict_set, decide_True. }
    rewrite Hkeys. cbn [List.filter]. unfold step.
    destruct (bool_decide_reflect (Session.target tr ∈ map fst out)) as [Hin|Hnin].
    + rewrite dict_get_set.
      destruct (decide (b = Session.target tr)) as [->|Hne].
      * rewrite bool_decide_eq_true_2 by done. rewrite !decide_True by done.
        cbn [map]. by rewrite <- app_assoc.
      * rewrite bool_decide_eq_false_2 by congruence. done.
    + destruct (decide (b ∈ map fst out)) as [Hb|Hb]; [|done].
      rewrite bool_decide_eq_false_2; [done|]. intros Heq. by rewrite Heq in Hnin.
Qed.

Lemma per_button_times_get (TB : list label) (self : Session.t) (b : label) :
  dict_get (Session.per_button_times TB self) b []
  = if decide (b ∈ TB) then trial_times self b else [].
Proof.
  unfold Session.per_button_times. rewrite per_button_fold.
  destruct (init_buttons_dict TB [] (fun _ => eq_refl)) as [H1 H2].
  rewrite H1. cbn [app].
  destruct (decide (b ∈ TB)) as [Hb|Hb].
  - rewrite decide_True; [done|]. apply H2. by right.
  - rewrite decide_False; [done|]. rewrite H2, elem_of_nil. tauto.
Qed.

Lemma rt_button_line_ok (per : dict label (list Q)) (b : label) :
  exists ln, Session.button_line per b = Ok ln /\ rt_button_block per b ln.
Proof.
  unfold Session.button_line, rt_button_block. cbv zeta.
  destruct (dict_get per b []) as [|r rs] eqn:E.
  - eexists. split; reflexivity.
  - assert (Hne : r :: rs <> []) by done.
    destruct (median_ok _ Hne) as [md Hmd].
    rewrite (mean_ok _ Hne), Hmd. cbn [rbind].
    eexists. split; [reflexivity|]. eexists _, _. reflexivity.
Qed.

Lemma rt_button_lines_breakdown (per : dict label (list Q)) (TB : list label) (pb : list line) :
  Forall2 (rt_button_block per) TB pb ->
  breakdown pb
  = map (fun b => (b, match dict_get per b [] with
                      | [] => None
                      | xs => Some (length xs)
                      end)) TB.
Proof.
  unfold breakdown.
  induction 1 as [|b ln TB pb Hb _ IH]; [done|].
  unfold rt_button_block in Hb. cbn [map].
  destruct (dict_get per b []) as [|x xs].
  - subst ln. cbn. by rewrite IH.
  - destruct Hb as (m & md & ->). cbn. by rewrite IH.
Qed.

Lemma summary_lines_breakdown (TB : list label) (self : Session.t) :
  exists lines,
    Session.summary_lines TB self = Ok lines
    /\ breakdown lines
       = if bool_decide (Session.trials self <> []) && Nat.ltb 1 (length TB)
         then map (fun b => (b, trial_count self b)) TB
         else [].
Proof.
  unfold Session.summary_lines, Session.reaction_lines, Session.reaction_times.
  cbv zeta. rewrite length_map.
  destruct (Session.trials self) as [|tr trs] eqn:Etr.
  - eexists. split; [reflexivity|done].
  - rewrite bool_decide_eq_true_2 by done. cbn [length andb].
    assert (Hne : map Session.reaction_s (tr :: trs) <> []) by done.
    destruct (median_ok _ Hne) as [md Hmd].
    destruct (min_ok _ Hne) as [lo Hlo].
    destruct (max_ok _ Hne) as [hi Hhi].
    rewrite (mean_ok _ Hne), Hmd, Hlo, Hhi. cbn [rbind].
    destruct (Nat.ltb 1 (length TB)) eqn:Hmany.
    + destruct (mapM_Forall2 (Session.button_line (Session.per_button_times TB self))
                  (rt_button_block (Session.per_button_times TB self)) TB
                  (rt_button_line_ok _)) as (pb & Hpb & HF).
      rewrite Hpb. cbn [rbind]. eexists. split; [reflexivity|].
      unfold breakdown. rewrite !omap_app. cbn.
      rewrite app_nil_r. fold (breakdown pb).
      rewrite (rt_button_lines_breakdown _ _ _ HF).
      apply map_ext_in. intros b Hb. apply list_elem_of_In in Hb.
      rewrite per_button_times_get, decide_True by done. reflexivity.
    + eexists. split; [reflexivity|done].
Qed.

(** ** Reasoning on the monad *)

Lemma bind_Ok_inv {A B} (c : M A) (k : A -> M B) (w : World) (r : B * World) :
  bind c k w = Ok r -> exists a w1, c w = Ok (a, w1) /\ k a w1 = Ok r.
Proof.
  unfold bind. destruct (c w) as [[a w1]|e]; [|done]. intros H. by exists a, w1.
Qed.

Lemma ret_Ok_inv {A} (a b : A) (w w' : World) :
  ret a w = Ok (b, w') -> a = b /\ w = w'.
Proof. unfold ret. intros H. by injection H. Qed.

Lemma lift_Ok_inv {A} (c : result A) (a : A) (w w' : World) :
  lift c w = Ok (a, w') -> c = Ok a /\ w = w'.
Proof. unfold lift. destruct c; [|done]. intros H. by injection H as -> ->. Qed.

Lemma seconds_le (a b : N) : (a <= b)%N -> (seconds a <= seconds b)%Q.
Proof. intros H. unfold seconds, Qle. cbn [Qnum Qden]. lia. Qed.

Lemma seconds_nonneg (a : N) : (0 <= seconds a)%Q.
Proof. unfold seconds, Qle. cbn [Qnum Qden]. lia. Qed.

Lemma perf_counter_inv (w w' : World) (t : Q) :
  perf_counter w = Ok (t, w') ->
  t = seconds (clock_ns w') /\ (clock_ns w <= clock_ns w')%N.
Proof.
  unfold perf_counter. intros H. injection H as <- <-. simpl. split; [done|lia].
Qed.

Lemma random_inv (w w' : World) (r : Q) :
  random w = Ok (r, w') -> clock_ns w' = clock_ns w /\ (0 <= r)%Q.
Proof.
  unfold random, bind, next_raw, ret. intros H. injection H as <- <-.
  split; [done|]. unfold Qle. cbn [Qnum Qden].
  generalize (hd 0 (tape w) mod 9007199254740992)%N. intros n. lia.
Qed.

Lemma uniform_inv (a b : Q) (w w' : World) (d : Q) :
  uniform a b w = Ok (d, w') ->
  clock_ns w' = clock_ns w /\ ((a <= b)%Q -> (a <= d)%Q).
Proof.
  unfold uniform. intros H. apply bind_Ok_inv in H as (r & w1 & Hr & H).
  apply ret_Ok_inv in H as [<- <-]. apply random_inv in Hr as [Hc Hr].
  split; [done|]. intros Hab.
  assert (0 <= (b - a) * r)%Q by (apply Qmult_le_0_compat; [lra|done]). lra.
Qed.

Lemma randbelow_inv (n : nat) (w w' : World) (j : nat) :
  randbelow n w = Ok (j, w') -> clock_ns w' = clock_ns w.
Proof. unfold randbelow, bind, next_raw, ret. intros H. by injection H as <- <-. Qed.

Lemma choice_inv {A} (l : list A) (w w' : World) (x : A) :
  choice l w = Ok (x, w') -> clock_ns w' = clock_ns w /\ x ∈ l.
Proof.
  unfold choice. destruct l as [|a l]; [done|]. intros H.
  apply bind_Ok_inv in H as (j & w1 & Hj & H).
  apply lift_Ok_inv in H as [Hg <-]. apply randbelow_inv in Hj.
  split; [done|]. unfold getitem in Hg.
  destruct ((a :: l) !! j) as [y|] eqn:E; [|done]. injection Hg as <-.
  by eapply list_elem_of_lookup_2.
Qed.

Lemma choice_ok {A} (l : list A) (w : World) :
  l <> [] -> exists x w', choice l w = Ok (x, w').
Proof.
  intros Hl. destruct l as [|a l]; [done|]. unfold choice.
  destruct (randbelow_lt (length (a :: l)) w) as (j & w' & Hj & Hlt); [simpl; lia|].
  destruct (getitem_ok (a :: l) j Hlt) as [x Hx].
  exists x, w'. unfold bind. rewrite Hj. unfold lift. by rewrite Hx.
Qed.

Ltac minv :=
  repeat match goal with
    | H : bind _ _ _ = Ok _ |- _ =>
        let a := fresh "a" in
        let w := fresh "w" in
        let Hc := fresh "Hc" in
        apply bind_Ok_inv in H as (a & w & Hc & H)
    | H : ret _ _ = Ok _ |- _ => apply ret_Ok_inv in H as [? ?]
    | H : lift _ _ = Ok _ |- _ => apply lift_Ok_inv in H as [H ?]
    | H : perf_counter _ = Ok _ |- _ => apply perf_counter_inv in H as [? ?]
    | H : uniform _ _ _ = Ok _ |- _ => apply uniform_inv in H as [? ?]
    | H : choice _ _ = Ok _ |- _ => apply choice_inv in H as [? ?]
    end.

(** The clock of the world [w'] is not before [now]. *)
Ltac clock_le :=
  match goal with
  | H : (?now <= seconds (clock_ns ?w))%Q |- (?now <= seconds (clock_ns ?w'))%Q =>
      apply (Qle_trans _ _ _ H); apply seconds_le; lia
  end.

(** ** reaction-trainer.py: the invariant of the trial state machine *)

Section ReactionTrainerProofs.
Import Pygame ReactionTrainer.

Lemma rt_stop_inv (m m' : Machine) (w w' : World) :
  stop m w = Ok (m', w') ->
  w' = w /\ session m' = session m /\ phase (state m') = SUMMARY
  /\ running m' = running m.
Proof.
  unfold stop. intros H. minv. simplify_eq. done.
Qed.

Lemma rt_handle_event_inv (now : Q) (e : event) (m m' : Machine) (brk : bool)
      (w w' : World) :
  RT.inv now m w ->
  handle_event now e m w = Ok ((m', brk), w') ->
  RT.inv now m' w'.
Proof.
  intros [Hclock Hgo] H. unfold RT.inv.
  destruct e as [|[| |]|joy idx|]; cbn [handle_event] in H.
  - minv. simplify_eq. done.
  - destruct (negb (bool_decide (phase (state m) = SUMMARY))); minv; simplify_eq;
      [|done].
    apply rt_stop_inv in Hc as (-> & _ & Hph & _). split; [done|]. by rewrite Hph.
  - minv. simplify_eq. done.
  - minv. simplify_eq. done.
  - destruct (bool_decide (joy = js_get_id)); minv; simplify_eq; [|done].
    unfold on_button in Hc.
    destruct (bool_decide (idx = START_BUTTON_INDEX)
              && negb (bool_decide (phase (state m) = SUMMARY))).
    { apply rt_stop_inv in Hc as (-> & _ & Hph & _). split; [done|]. by rewrite Hph. }
    destruct (dict_lookup DEFAULT_XBOX_FACE idx) as [pressed|].
    2:{ unfold set_feedback in Hc. minv. simplify_eq. cbn. split; [clock_le|done]. }
    destruct (phase (state m)) eqn:Hph.
    + unfold schedule_ready, set_feedback, rand_delay_s in Hc. minv. simplify_eq.
      cbn. split; [clock_le|done].
    + destruct (negb (bool_decide (pressed = target (state m)))).
      { unfold set_feedback in Hc. minv. simplify_eq. cbn.
        split; [clock_le|]. rewrite Hph. done. }
      destruct (go_shown_t (state m)) as [go|];
        unfold schedule_ready, set_feedback, rand_delay_s in Hc; minv; simplify_eq;
        cbn; (split; [clock_le|done]).
    + minv. simplify_eq. split; [done|]. by rewrite Hph.
  - minv. simplify_eq. done.
Qed.

Lemma rt_reachable_inv (now : Q) (m : Machine) (w : World) :
  RT.reachable now m w -> RT.inv now m w.
Proof.
  induction 1 as [w0 m w now w' Hinit Hnow
                 |now m w e m' brk w' _ IH Hev
                 |now m w m1 w1 now' w2 _ [Hclock Hgo] Hprog Hnow].
  - unfold init, schedule_ready, rand_delay_s in Hinit. minv. simplify_eq.
    split; [apply Qle_refl|done].
  - by eapply rt_handle_event_inv.
  - unfold progress, show_go in Hprog.
    destruct (bool_decide (phase (state m) = READY)
              && Qle_bool (delay_until (state m)) now); minv; simplify_eq.
    + split; [apply Qle_refl|]. intros _. eexists. split; [reflexivity|].
      apply seconds_le. lia.
    + split; [apply Qle_refl|]. intros Hph. destruct (Hgo Hph) as (t & Ht & Hle).
      exists t. split; [done|].
      apply (Qle_trans _ _ _ Hle). apply (Qle_trans _ _ _ Hclock).
      apply seconds_le. lia.
Qed.





End ReactionTrainerProofs.

(** ** xbox-gamepad-trainer.py: the invariant of the trial state machine *)

Section XboxGamepadTrainerProofs.
Import Pygame SessionStats XboxGamepadTrainer.

Lemma v1_stop_inv (m m' : Machine) (w w' : World) :
  stop m w = Ok (m', w') ->
  w' = w /\ stats m' = stats m /\ phase m' = summary.
Proof.
  unfold stop. intros H. minv. simplify_eq. done.
Qed.


Lemma v1_handle_event_inv (now : Q) (e : event) (m m' : Machine) (brk : bool)
      (w w' : World) :
  V1.inv now m w ->
  handle_event now e m w = Ok ((m', brk), w') ->
  V1.inv now m' w'.
Proof.
  intros [Hclock Hgo] H. unfold V1.inv.
  destruct e as [|[| |]|joy idx|]; cbn [handle_event] in H.
  - minv. simplify_eq. done.
  - destruct (negb (bool_decide (phase m = summary))); minv; simplify_eq; [|done].
    apply v1_stop_inv in Hc as (-> & _ & Hph). split; [done|]. by rewrite Hph.
  - minv. simplify_eq. done.
  - minv. simplify_eq. done.
  - destruct (bool_decide (joy = js_get_id)); minv; simplify_eq; [|done].
    destruct (bool_decide (idx = 7) && negb (bool_decide (phase m = summary))).
    { minv. simplify_eq.
      apply v1_stop_inv in Hc as (-> & _ & Hph). split; [done|]. by rewrite Hph. }
    destruct (bool_decide (phase m = prompt)); minv; simplify_eq; [|done].
    unfold on_prompt_button in Hc.
    destruct (dict_lookup DEFAULT_XBOX_FACE idx) as [pressed|].
    2:{ minv. simplify_eq. done. }
    destruct (bool_decide (pressed = target_btn m)); minv; simplify_eq; cbn.
    + split; [clock_le|done].
    + done.
  - minv. simplify_eq. done.
Qed.

Lemma v1_reachable_inv (now : Q) (m : Machine) (w : World) :
  V1.reachable now m w -> V1.inv now m w.
Proof.
  induction 1 as [w0 m w now w' Hinit Hnow
                 |now m w e m' brk w' _ IH Hev
                 |now m w m1 w1 now' w2 _ [Hclock Hgo] Hprog Hnow].
  - unfold init in Hinit. minv. simplify_eq. split; [apply Qle_refl|done].
  - by eapply v1_handle_event_inv.
  - unfold progress in Hprog.
    destruct (bool_decide (phase m = delay) && Qle_bool (delay_until m) now);
      minv; simplify_eq.
    + split; [apply Qle_refl|]. intros _. eexists. split; [reflexivity|].
      apply seconds_le. lia.
    + split; [apply Qle_refl|]. intros Hph. destruct (Hgo Hph) as (t & Ht & Hle).
      exists t. split; [done|].
      apply (Qle_trans _ _ _ Hle). apply (Qle_trans _ _ _ Hclock).
      apply seconds_le. lia.
Qed.




End XboxGamepadTrainerProofs.

(** ** xbox-gamepad-trainer-v2.py: the invariant of the trial state machine *)

Lemma shuffle_from_clock {A} (i : nat) : forall (x x' : list A) (w w' : World),
  shuffle_from i x w = Ok (x', w') -> clock_ns w' = clock_ns w.
Proof.
  induction i as [|i IH]; intros x x' w w' H; cbn [shuffle_from] in H.
  - minv. by subst.
  - minv. apply randbelow_inv in Hc. apply IH in H. subst. congruence.
Qed.

Lemma next_inv (self self' : ShuffleBag.t) (a : label) (w w' : World) :
  ShuffleBag.next self w = Ok ((a, self'), w') ->
  _items self' = _items self /\ clock_ns w' = clock_ns w.
Proof.
  unfold next. intros H. minv. destruct a0 as [items b].
  destruct a1 as [a1 b1]. minv. simplify_eq. cbn.
  destruct (_bag self).
  - unfold _refill, shuffle in Hc. minv. simplify_eq.
    apply shuffle_from_clock in Hc1. done.
  - minv. by simplify_eq.
Qed.

Lemma next_ok (self : ShuffleBag.t) (w : World) :
  _items self <> [] -> exists a self' w', next self w = Ok ((a, self'), w').
Proof.
  intros Hne. destruct self as [items b]. cbn [_items] in Hne.
  destruct b as [|c b] using rev_ind.
  - destruct (draw_from_empty items w Hne) as (out & w' & Hd & _).
    destruct items as [|i items]; [done|]. cbn [length draw] in Hd.
    apply bind_Ok_inv in Hd as ([a self'] & w1 & Hn & _). by exists a, self', w1.
  - rewrite next_nonempty. by eexists _, _, _.
Qed.


Lemma Qltb_true (a b : Q) : Qltb a b = true <-> (a < b)%Q.
Proof.
  unfold Qltb. rewrite negb_true_iff. split.
  - intros H. apply Qnot_le_lt. intros Hle. apply Qle_bool_iff in Hle. congruence.
  - intros H. destruct (Qle_bool b a) eqn:E; [|done].
    apply Qle_bool_iff in E. lra.
Qed.

Lemma Qltb_false (a b : Q) : Qltb a b = false <-> (b <= a)%Q.
Proof.
  unfold Qltb. rewrite negb_false_iff. apply Qle_bool_iff.
Qed.

Lemma bind_ret_r {A} (c : M A) (w : World) : bind c ret w = c w.
Proof. unfold bind, ret. by destruct (c w) as [[a w']|e]. Qed.

Section XboxGamepadTrainerV2Proofs.
Import Pygame SessionStats XboxGamepadTrainerV2.

Ltac delay_bound :=
  match goal with
  | H : (fst DELAY_RANGE_S <= snd DELAY_RANGE_S)%Q -> (_ <= ?a)%Q |- _ =>
      unfold DELAY_RANGE_S in H; cbn [fst snd] in H;
      assert (1 # 10 <= a)%Q by (apply H; lra)
  end.

Lemma v2_start_summary_inv (m m' : Machine) (w w' : World) :
  start_summary m w = Ok (m', w') ->
  w' = w /\ stats m' = stats m /\ phase m' = summary
  /\ bag m' = bag m /\ trigger_armed m' = trigger_armed m.
Proof.
  unfold start_summary. intros H. minv. simplify_eq. done.
Qed.

(** What [record_press] does: one more attempt; the phase, the target and
    the times change on a correct press only; the triggers are untouched. *)
Lemma v2_record_press_inv (lbl : label) (now : Q) (m m' : Machine) (w w' : World) :
  record_press lbl now m w = Ok (m', w') ->
  clock_ns w' = clock_ns w
  /\ trigger_armed m' = trigger_armed m
  /\ _items (bag m') = _items (bag m)
  /\ (exists rt, attempts (stats m')
                 = attempts (stats m)
                   ++ [mkAttempt (target_btn m) (Some lbl) rt
                                 (bool_decide (lbl = target_btn m))])
  /\ ((lbl = target_btn m /\ phase m' = delay /\ prompt_shown_t m' = None
       /\ (now + (1 # 10) <= delay_until m')%Q)
      \/ (lbl <> target_btn m /\ phase m' = phase m
          /\ prompt_shown_t m' = prompt_shown_t m
          /\ delay_until m' = delay_until m /\ target_btn m' = target_btn m)).
Proof.
  unfold record_press. intros H.
  destruct (bool_decide_reflect (lbl = target_btn m)) as [Heq|Hne].
  - minv. destruct a0 as [b bag']. minv. simplify_eq. cbn.
    apply next_inv in Hc0 as [Hitems Hclk].
    repeat split; [congruence|done|by eexists|].
    left. repeat split. delay_bound. lra.
  - minv. simplify_eq. cbn. repeat split; [by eexists|]. by right.
Qed.

Lemma v2_record_press_keeps_inv (lbl : label) (now : Q) (m m' : Machine)
      (w w' : World) :
  V2.inv now m w ->
  record_press lbl now m w = Ok (m', w') ->
  V2.inv now m' w'.
Proof.
  intros ([Hnow Hclock] & Hgo & Hdelay & Hitems & Hkeys) H.
  apply v2_record_press_inv in H as (Hclk & Harm & Hit & _ & Hcase).
  unfold V2.inv. rewrite Hclk, Harm, Hit.
  split; [done|]. split; [|split; [|done]].
  - destruct Hcase as [(_ & Hph & _)|(_ & Hph & Ht & _)].
    + rewrite Hph. done.
    + rewrite Hph, Ht. done.
  - destruct Hcase as [(_ & _ & _ & Hd)|(_ & Hph & _ & Hd & _)].
    + intros _. lra.
    + rewrite Hph, Hd. done.
Qed.

Lemma v2_set_armed_keeps_inv (name : label) (b : bool) (now : Q) (m : Machine)
      (w : World) :
  name ∈ ["LT"; "RT"] -> V2.inv now m w -> V2.inv now (set_armed name b m) w.
Proof.
  intros Hname (Hnow & Hgo & Hdelay & Hitems & Hkeys).
  unfold V2.inv. cbn. repeat split; try done; try tauto.
  rewrite keys_dict_set, Hkeys. by rewrite decide_True.
Qed.

Lemma v2_handle_event_inv (now : Q) (e : event) (m m' : Machine) (w w' : World) :
  V2.inv now m w ->
  handle_event now e m w = Ok (m', w') ->
  V2.inv now m' w'.
Proof.
  intros Hinv H. pose proof Hinv as (Hnow & Hgo & Hdelay & Hitems & Hkeys).
  assert (Hsum : forall m1 w1, start_summary m w = Ok (m1, w1) -> V2.inv now m1 w1).
  { intros m1 w1 Hs. apply v2_start_summary_inv in Hs as (-> & _ & Hph & Hb & Ha).
    unfold V2.inv. rewrite Hph, Hb, Ha. repeat split; try done; tauto. }
  destruct e as [|[| |]|joy idx|]; cbn [handle_event] in H.
  - minv. simplify_eq. done.
  - destruct (negb (bool_decide (phase m = summary))); [by apply Hsum|].
    minv. by simplify_eq.
  - minv. simplify_eq. done.
  - minv. by simplify_eq.
  - destruct (bool_decide (phase m = prompt)); [|minv; by simplify_eq].
    destruct (bool_decide (idx = 7)); [by apply Hsum|].
    destruct (dict_lookup btn_index_to_label idx) as [lbl|]; [|minv; by simplify_eq].
    destruct (nonempty lbl); [|minv; by simplify_eq].
    by eapply v2_record_press_keeps_inv.
  - minv. by simplify_eq.
Qed.

Lemma v2_trigger_names (ax : nat * label) :
  ax ∈ TRIGGER_AXES -> snd ax ∈ ["LT"; "RT"].
Proof.
  unfold TRIGGER_AXES. rewrite !elem_of_cons, elem_of_nil.
  intros [->|[->|[]]]; cbn [snd]; auto.
Qed.

Lemma v2_poll_axis_inv (now : Q) (axes : list Q) (ax : nat * label)
      (m m' : Machine) (w w' : World) :
  ax ∈ TRIGGER_AXES ->
  V2.inv now m w ->
  poll_axis now axes ax m w = Ok (m', w') ->
  V2.inv now m' w'.
Proof.
  intros Hax Hinv H. apply v2_trigger_names in Hax.
  destruct ax as [i name]. cbn [snd] in Hax. unfold poll_axis in H.
  destruct (Nat.leb (length axes) i); [minv; by simplify_eq|].
  minv. subst.
  assert (Hm1 : V2.inv now a1 w').
  { destruct a0; [|minv; by simplify_eq].
    eapply v2_record_press_keeps_inv; [|exact Hc1].
    by apply v2_set_armed_keeps_inv. }
  destruct (Qltb a TRIGGER_RELEASE); [|done].
  by apply v2_set_armed_keeps_inv.
Qed.

Lemma v2_init_inv (w0 w : World) (m : Machine) :
  init w0 = Ok (m, w) ->
  phase m = delay /\ (0 < delay_until m)%Q
  /\ _items (bag m) = ALL_TARGETS
  /\ trigger_armed m = [("LT", true); ("RT", true)]
  /\ attempts (stats m) = [] /\ prompt_shown_t m = None.
Proof.
  unfold init. intros H. minv. destruct a2 as [b bag1]. minv. simplify_eq. cbn.
  apply next_inv in Hc2 as [Hit _].
  unfold __init__, _refill in Hc1. minv. simplify_eq. cbn in Hit.
  repeat split; try done.
  delay_bound.
  match goal with |- context [seconds ?c] => pose proof (seconds_nonneg c) end.
  lra.
Qed.

Lemma v2_reachable_inv (now : Q) (m : Machine) (w : World) :
  V2.reachable now m w -> V2.inv now m w.
Proof.
  induction 1 as [w0 m w now w' Hinit Hnow
                 |now m w e m' w' _ IH Hev
                 |now m w axes ax m' w' _ IH Hax Hpoll
                 |now m w m1 w1 now' w2 _ IH Hprog Hnow].
  - apply v2_init_inv in Hinit as (Hph & Hd & Hit & Harm & _ & _).
    minv. subst. unfold V2.inv. rewrite Hph, Hit, Harm.
    repeat split; try done; [apply seconds_nonneg|apply Qle_refl].
  - by eapply v2_handle_event_inv.
  - by eapply v2_poll_axis_inv.
  - destruct IH as ([Hnow0 Hclock] & Hgo & Hdelay & Hitems & Hkeys).
    unfold progress in Hprog.
    destruct (bool_decide_reflect (phase m = delay)) as [Hph|Hph]; cbn [andb] in Hprog.
    + destruct (Qle_bool (delay_until m) now) eqn:Hdue; minv; simplify_eq.
      * apply Qle_bool_iff in Hdue. specialize (Hdelay Hph).
        unfold V2.inv. cbn. rewrite map_map. cbn [fst].
        assert (Hw : (seconds (clock_ns w) <= seconds (clock_ns w1))%Q)
          by (apply seconds_le; lia).
        assert (Hw2 : (seconds (clock_ns w1) <= seconds (clock_ns w2))%Q)
          by (apply seconds_le; lia).
        repeat split; try done; try apply seconds_nonneg; try apply Qle_refl.
        intros _. eexists. split; [reflexivity|]. split; [done|]. lra.
      * unfold V2.inv. rewrite Hph.
        repeat split; try done; try apply seconds_nonneg; try apply Qle_refl.
        intros _. by apply Hdelay.
    + minv. simplify_eq. unfold V2.inv.
      assert (Hw : (seconds (clock_ns w1) <= seconds (clock_ns w2))%Q)
        by (apply seconds_le; lia).
      repeat split; try done; try apply seconds_nonneg; try apply Qle_refl.
      intros Hp. destruct (Hgo Hp) as (t & Ht & Hle & Hpos).
      exists t. repeat split; try done. lra.
Qed.



(** A trigger pulled past the threshold while armed is a press event. *)
Lemma v2_trigger_press (now : Q) (m : Machine) (w : World) (axes : list Q)
      (i : nat) (name : label) :
  V2.trigger_pulled m axes i name ->
  poll_axis now axes (i, name) m w
  = record_press name now (set_armed name false m) w.
Proof.
  intros (v & Hv & Hpull & Harmed). unfold poll_axis.
  assert (Hlen : Nat.leb (length axes) i = false).
  { apply Nat.leb_gt. by eapply lookup_lt_Some. }
  assert (Hfire : Qltb TRIGGER_THRESHOLD v = true) by by apply Qltb_true.
  assert (Hrel : Qltb v TRIGGER_RELEASE = false).
  { apply Qltb_false. unfold TRIGGER_RELEASE, TRIGGER_THRESHOLD in *. lra. }
  rewrite Hlen. unfold getitem, dict_getitem, bind, lift.
  rewrite Hv, Hfire, Hrel, Harmed.
  by destruct (record_press name now (set_armed name false m) w) as [[m1 w1]|].
Qed.









(** *** The trigger decoder *)

Lemma decode_disarmed (press release : Q) (vs : list Q) : forall j,
  decode press release false vs !! j = Some true ->
  exists k v, k < j /\ vs !! k = Some v /\ (v < release)%Q.
Proof.
  induction vs as [|v vs IH]; intros j Hj; [done|].
  cbn [decode trigger_update] in Hj. rewrite andb_false_r in Hj.
  destruct j as [|j]; [done|]. cbn [lookup list_lookup] in Hj.
  destruct (Qltb v release) eqn:Hrel.
  - exists 0, v. split; [lia|]. split; [done|]. by apply Qltb_true.
  - destruct (IH j Hj) as (k & v' & Hk & Hv & Hlt).
    exists (S k), v'. split; [lia|done].
Qed.

Lemma trigger_update_fire (press release v : Q) (armed : bool) :
  (release < press)%Q ->
  fst (trigger_update press release v armed) = true ->
  snd (trigger_update press release v armed) = false /\ (press < v)%Q.
Proof.
  intros Hband. unfold trigger_update. cbn [fst snd]. intros Hfire.
  rewrite Hfire. apply andb_true_iff in Hfire as [Hv _].
  apply Qltb_true in Hv. split; [|done].
  assert (Hrel : Qltb v release = false) by (apply Qltb_false; lra).
  by rewrite Hrel.
Qed.

Lemma decode_hysteresis (press release : Q) (vs : list Q) :
  (release < press)%Q ->
  forall (armed : bool) (i j : nat),
    i < j ->
    decode press release armed vs !! i = Some true ->
    decode press release armed vs !! j = Some true ->
    exists k v, i < k < j /\ vs !! k = Some v /\ (v < release)%Q.
Proof.
  intros Hband. induction vs as [|v vs IH]; intros armed i j Hij Hi Hj; [done|].
  cbn [decode] in Hi, Hj.
  destruct (trigger_update press release v armed) as [fire armed'] eqn:Hup.
  destruct j as [|j]; [lia|]. cbn [lookup list_lookup] in Hj.
  destruct i as [|i].
  - cbn [lookup list_lookup] in Hi. injection Hi as ->.
    destruct (trigger_update_fire press release v armed Hband) as [Hoff _];
      [by rewrite Hup|].
    rewrite Hup in Hoff. cbn [snd] in Hoff. subst armed'.
    destruct (decode_disarmed _ _ _ _ Hj) as (k & v' & Hk & Hv & Hlt).
    exists (S k), v'. split; [lia|done].
  - cbn [lookup list_lookup] in Hi.
    destruct (IH armed' i j) as (k & v' & Hk & Hv & Hlt); [lia|done..|].
    exists (S k), v'. split; [lia|done].
Qed.

Lemma dict_lookup_set {K V} `{EqDecision K} (d : dict K V) (k k' : K) (v : V) :
  dict_lookup (dict_set d k v) k'
  = if decide (k' = k) then Some v else dict_lookup d k'.
Proof.
  unfold dict_lookup. induction d as [|[k0 v0] d IH]; cbn.
  - by repeat case_decide.
  - destruct (decide (k = k0)) as [->|Hne]; cbn.
    + by repeat case_decide.
    + rewrite IH. repeat case_decide; congruence.
Qed.

Lemma v2_handle_event_armed (now : Q) (e : event) (m m' : Machine) (w w' : World) :
  handle_event now e m w = Ok (m', w') -> trigger_armed m' = trigger_armed m.
Proof.
  intros H.
  assert (Hsum : forall m1 w1, start_summary m w = Ok (m1, w1) ->
                               trigger_armed m1 = trigger_armed m).
  { intros m1 w1 Hs. by apply v2_start_summary_inv in Hs as (_ & _ & _ & _ & Ha). }
  destruct e as [|[| |]|joy idx|]; cbn [handle_event] in H.
  - minv. by simplify_eq.
  - destruct (negb (bool_decide (phase m = summary))); [by eapply Hsum|].
    minv. by simplify_eq.
  - minv. by simplify_eq.
  - minv. by simplify_eq.
  - destruct (bool_decide (phase m = prompt)); [|minv; by simplify_eq].
    destruct (bool_decide (idx = 7)); [by eapply Hsum|].
    destruct (dict_lookup btn_index_to_label idx) as [lbl|]; [|minv; by simplify_eq].
    destruct (nonempty lbl); [|minv; by simplify_eq].
    by apply v2_record_press_inv in H as (_ & Ha & _).
  - minv. by simplify_eq.
Qed.

(** One poll of an axis is one step of the decoder of its trigger. *)
Lemma v2_poll_axis_decodes (now : Q) (axes : list Q) (i : nat) (name : label)
      (m m' : Machine) (w w' : World) (v : Q) (a : bool) :
  axes !! i = Some v ->
  dict_lookup (trigger_armed m) name = Some a ->
  poll_axis now axes (i, name) m w = Ok (m', w') ->
  let '(fire, a') := trigger_update TRIGGER_THRESHOLD TRIGGER_RELEASE v a in
  dict_lookup (trigger_armed m') name = Some a'
  /\ (forall other, other <> name ->
        dict_lookup (trigger_armed m') other = dict_lookup (trigger_armed m) other)
  /\ exists rt,
       attempts (stats m')
       = attempts (stats m)
         ++ (if fire
             then [mkAttempt (target_btn m) (Some name) rt
                             (bool_decide (name = target_btn m))]
             else []).
Proof.
  intros Hv Ha H. unfold poll_axis in H.
  assert (Hlen : Nat.leb (length axes) i = false).
  { apply Nat.leb_gt. by eapply lookup_lt_Some. }
  rewrite Hlen in H. unfold getitem, dict_getitem in H. rewrite Hv, Ha in H.
  unfold trigger_update. minv. simplify_eq.
  match goal with Hx : axes !! i = Some ?x |- _ => rename x into v end.
  match goal with
  | Hx : (if Qltb _ _ then Ok a else Ok false) = Ok ?f,
    Hy : (if ?f then _ else _) ?w1 = Ok (?m1, _) |- _ =>
      rename f into fire; rename m1 into m2; rename Hx into Hfired;
      rename Hy into Hpress
  end.
  assert (Hquiet : forall m1 : Machine,
            trigger_armed m1 = trigger_armed m -> stats m1 = stats m ->
            a && Qltb TRIGGER_THRESHOLD v = false ->
            dict_lookup (trigger_armed (if Qltb v TRIGGER_RELEASE
                                        then set_armed name true m1 else m1)) name
            = Some (if Qltb v TRIGGER_RELEASE then true else a)
            /\ (forall other, other <> name ->
                  dict_lookup (trigger_armed (if Qltb v TRIGGER_RELEASE
                                              then set_armed name true m1 else m1))
                              other
                  = dict_lookup (trigger_armed m) other)
            /\ exists rt : option Q,
                 attempts (stats (if Qltb v TRIGGER_RELEASE
                                  then set_armed name true m1 else m1))
                 = attempts (stats m) ++ []).
  { intros m1 Harm Hst _. rewrite app_nil_r.
    destruct (Qltb v TRIGGER_RELEASE); cbn [set_armed trigger_armed stats];
      rewrite ?Harm, ?Hst.
    - rewrite dict_lookup_set, decide_True by done. split; [done|].
      split; [|by exists None]. intros other Ho.
      by rewrite dict_lookup_set, decide_False.
    - split; [done|]. split; [done|by exists None]. }
  destruct (Qltb TRIGGER_THRESHOLD v) eqn:Hfire; cbn [andb]; simplify_eq.
  - destruct fire.
    + apply v2_record_press_inv in Hpress as (_ & Harm & _ & (rt & Hatt) & _).
      cbn [set_armed trigger_armed stats target_btn] in Harm, Hatt.
      destruct (Qltb v TRIGGER_RELEASE); cbn [set_armed trigger_armed stats];
        rewrite ?dict_lookup_set, Harm, Hatt.
      * rewrite decide_True by done. split; [done|]. split; [|by exists rt].
        intros other Ho. by rewrite !dict_lookup_set, !decide_False.
      * rewrite dict_lookup_set, decide_True by done. split; [done|].
        split; [|by exists rt].
        intros other Ho. by rewrite dict_lookup_set, decide_False.
    + minv. simplify_eq. by apply Hquiet.
  - minv. simplify_eq.
    destruct (Hquiet m2 eq_refl eq_refl) as (H1 & H2 & H3); [by destruct a|].
    by destruct a.
Qed.

Lemma v2_record_press_ok (lbl : label) (now : Q) (m : Machine) (w : World) :
  _items (bag m) <> [] -> exists m' w', record_press lbl now m w = Ok (m', w').
Proof.
  intros Hitems. unfold record_press. cbv zeta.
  destruct (bool_decide (lbl = target_btn m)); [|by eexists _, _].
  destruct (next_ok (bag m) (mkWorld (clock_ns w) (ticks w) (tl (tape w))))
    as (b & bag' & w2 & Hn); [done|].
  eexists _, _.
  unfold bind at 1. unfold uniform, random, next_raw. unfold bind at 1 2.
  unfold ret at 1 2. unfold bind at 1. rewrite Hn. reflexivity.
Qed.

(** When the prompt becomes live, every trigger is armed. *)
Lemma v2_progress_arms (now : Q) (m m' : Machine) (w w' : World) :
  phase m = delay ->
  progress now m w = Ok (m', w') ->
  phase m' = prompt ->
  trigger_armed m' = map (fun kv => (fst kv, true)) (trigger_armed m)
  /\ bag m' = bag m /\ stats m' = stats m /\ target_btn m' = target_btn m.
Proof.
  intros Hph H Hp. unfold progress in H. rewrite Hph in H.
  rewrite bool_decide_eq_true_2 in H by done. cbn [andb] in H.
  destruct (Qle_bool (delay_until m) now); minv; simplify_eq; [done|congruence].
Qed.

Lemma dict_lookup_all_true {K} `{EqDecision K} (d : dict K bool) (k : K) :
  k ∈ map fst d ->
  dict_lookup (map (fun kv => (fst kv, true)) d) k = Some true.
Proof.
  unfold dict_lookup. induction d as [|[k0 v0] d IH]; cbn.
  - by intros ?%elem_of_nil.
  - intros [->|Hin]%elem_of_cons; [by rewrite decide_True|].
    case_decide; [done|]. by apply IH.
Qed.
End XboxGamepadTrainerV2Proofs.

(** ** Every run stays within the reachable states *)

Section Runs.
Import Pygame.

Lemma rt_events_reachable (now : Q) (evs : list event) :
  forall m w m' w',
    RT.reachable now m w ->
    for_events (ReactionTrainer.handle_event now) evs m w = Ok (m', w') ->
    RT.reachable now m' w'.
Proof.
  induction evs as [|e evs IH]; intros m w m' w' Hreach H; cbn [for_events] in H.
  - apply ret_Ok_inv in H as [<- <-]. exact Hreach.
  - apply bind_Ok_inv in H as ([m1 brk] & w1 & He & H).
    assert (Hm1 : RT.reachable now m1 w1) by (by eapply RT.reach_event).
    destruct brk.
    + apply ret_Ok_inv in H as [<- <-]. exact Hm1.
    + by eapply IH.
Qed.

Lemma rt_main_reachable (fs : list frame_input) (w0 : World) :
  forall m w now w',
    ReactionTrainer.main fs w0 = Ok (m, w) ->
    perf_counter w = Ok (now, w') ->
    RT.reachable now m w'.
Proof.
  intros m w now w' H. unfold ReactionTrainer.main in H.
  apply bind_Ok_inv in H as (m0 & w1 & Hinit & H).
  assert (H0 : forall now w', perf_counter w1 = Ok (now, w') -> RT.reachable now m0 w')
    by (intros; by eapply RT.reach_init).
  clear Hinit. revert m0 w1 H0 H now w'.
  induction fs as [|f fs IH]; intros m0 w1 H0 H now w' Hnow; cbn [ReactionTrainer.loop] in H.
  - apply ret_Ok_inv in H as [<- <-]. by apply H0.
  - destruct (ReactionTrainer.running m0).
    2:{ apply ret_Ok_inv in H as [<- <-]. by apply H0. }
    apply bind_Ok_inv in H as (m1 & w2 & Hframe & H).
    eapply (IH m1 w2); [|exact H|exact Hnow]. clear IH H Hnow now w'.
    intros now' w' Hnow'. unfold ReactionTrainer.frame in Hframe.
    apply bind_Ok_inv in Hframe as (now & w3 & Hnow & Hframe).
    apply bind_Ok_inv in Hframe as (m2 & w4 & Hev & Hprog).
    eapply RT.reach_turn; [|exact Hprog|exact Hnow'].
    eapply rt_events_reachable; [|exact Hev]. by apply H0.
Qed.

Lemma v1_events_reachable (now : Q) (evs : list event) :
  forall m w m' w',
    V1.reachable now m w ->
    for_events (XboxGamepadTrainer.handle_event now) evs m w = Ok (m', w') ->
    V1.reachable now m' w'.
Proof.
  induction evs as [|e evs IH]; intros m w m' w' Hreach H; cbn [for_events] in H.
  - apply ret_Ok_inv in H as [<- <-]. exact Hreach.
  - apply bind_Ok_inv in H as ([m1 brk] & w1 & He & H).
    assert (Hm1 : V1.reachable now m1 w1) by (by eapply V1.reach_event).
    destruct brk.
    + apply ret_Ok_inv in H as [<- <-]. exact Hm1.
    + by eapply IH.
Qed.

Lemma v1_main_reachable (fs : list frame_input) (w0 : World) :
  forall m w now w',
    XboxGamepadTrainer.main fs w0 = Ok (m, w) ->
    perf_counter w = Ok (now, w') ->
    V1.reachable now m w'.
Proof.
  intros m w now w' H. unfold XboxGamepadTrainer.main in H.
  apply bind_Ok_inv in H as (m0 & w1 & Hinit & H).
  assert (H0 : forall now w', perf_counter w1 = Ok (now, w') -> V1.reachable now m0 w')
    by (intros; by eapply V1.reach_init).
  clear Hinit. revert m0 w1 H0 H now w'.
  induction fs as [|f fs IH]; intros m0 w1 H0 H now w' Hnow;
    cbn [XboxGamepadTrainer.loop] in H.
  - apply ret_Ok_inv in H as [<- <-]. by apply H0.
  - destruct (XboxGamepadTrainer.running m0).
    2:{ apply ret_Ok_inv in H as [<- <-]. by apply H0. }
    apply bind_Ok_inv in H as (m1 & w2 & Hframe & H).
    eapply (IH m1 w2); [|exact H|exact Hnow]. clear IH H Hnow now w'.
    intros now' w' Hnow'. unfold XboxGamepadTrainer.frame in Hframe.
    apply bind_Ok_inv in Hframe as (now & w3 & Hnow & Hframe).
    apply bind_Ok_inv in Hframe as (m2 & w4 & Hev & Hprog).
    eapply V1.reach_turn; [|exact Hprog|exact Hnow'].
    eapply v1_events_reachable; [|exact Hev]. by apply H0.
Qed.

Lemma v2_events_reachable (now : Q) (evs : list event) :
  forall m w m' w',
    V2.reachable now m w ->
    for_each (XboxGamepadTrainerV2.handle_event now) evs m w = Ok (m', w') ->
    V2.reachable now m' w'.
Proof.
  induction evs as [|e evs IH]; intros m w m' w' Hreach H; cbn [for_each] in H.
  - apply ret_Ok_inv in H as [<- <-]. exact Hreach.
  - apply bind_Ok_inv in H as (m1 & w1 & He & H).
    eapply IH; [|exact H]. by eapply V2.reach_event.
Qed.

Lemma v2_polls_reachable (now : Q) (axes : list Q) (l : list (nat * label)) :
  Forall (fun ax => ax ∈ XboxGamepadTrainerV2.TRIGGER_AXES) l ->
  forall m w m' w',
    V2.reachable now m w ->
    for_each (XboxGamepadTrainerV2.poll_axis now axes) l m w = Ok (m', w') ->
    V2.reachable now m' w'.
Proof.
  induction 1 as [|ax l Hax _ IH]; intros m w m' w' Hreach H; cbn [for_each] in H.
  - apply ret_Ok_inv in H as [<- <-]. exact Hreach.
  - apply bind_Ok_inv in H as (m1 & w1 & He & H).
    eapply IH; [|exact H]. by eapply V2.reach_poll.
Qed.

Lemma v2_main_reachable (fs : list frame_input) (w0 : World) :
  forall m w now w',
    XboxGamepadTrainerV2.main fs w0 = Ok (m, w) ->
    perf_counter w = Ok (now, w') ->
    V2.reachable now m w'.
Proof.
  intros m w now w' H. unfold XboxGamepadTrainerV2.main in H.
  apply bind_Ok_inv in H as (m0 & w1 & Hinit & H).
  assert (H0 : forall now w', perf_counter w1 = Ok (now, w') -> V2.reachable now m0 w')
    by (intros; by eapply V2.reach_init).
  clear Hinit. revert m0 w1 H0 H now w'.
  induction fs as [|f fs IH]; intros m0 w1 H0 H now w' Hnow;
    cbn [XboxGamepadTrainerV2.loop] in H.
  - apply ret_Ok_inv in H as [<- <-]. by apply H0.
  - destruct (XboxGamepadTrainerV2.running m0).
    2:{ apply ret_Ok_inv in H as [<- <-]. by apply H0. }
    apply bind_Ok_inv in H as (m1 & w2 & Hframe & H).
    eapply (IH m1 w2); [|exact H|exact Hnow]. clear IH H Hnow now w'.
    intros now' w' Hnow'. unfold XboxGamepadTrainerV2.frame in Hframe.
    apply bind_Ok_inv in Hframe as (now & w3 & Hnow & Hframe).
    apply bind_Ok_inv in Hframe as (m2 & w4 & Hev & Hframe).
    apply bind_Ok_inv in Hframe as (m3 & w5 & Hpoll & Hprog).
    eapply V2.reach_turn; [|exact Hprog|exact Hnow'].
    assert (Hm2 : V2.reachable now m2 w4).
    { eapply v2_events_reachable; [|exact Hev]. by apply H0. }
    unfold XboxGamepadTrainerV2.poll_triggers in Hpoll.
    destruct (bool_decide (XboxGamepadTrainerV2.phase m2 = XboxGamepadTrainerV2.prompt)).
    + eapply v2_polls_reachable; [|exact Hm2|exact Hpoll].
      by apply Forall_forall.
    + apply ret_Ok_inv in Hpoll as [<- <-]. exact Hm2.
Qed.
End Runs.

(** * Main results *)

(** ** Target scheduler *)

Lemma exactly_once (items out : list label) :
  Permutation out items -> NoDup items ->
  forall x, In x items -> count_occ String.string_dec out x = 1.
Proof.
  intros Hp Hnd x Hx.
  rewrite (proj1 (Permutation_count_occ String.string_dec out items) Hp).
  apply (proj1 (NoDup_count_occ' String.string_dec items)); [|done].
  by apply NoDup_ListNoDup.
Qed.

Lemma draw_ok (n : nat) : forall (self : ShuffleBag.t) (w : World),
  _items self <> [] ->
  exists out self' w', draw n self w = Ok ((out, self'), w').
Proof.
  induction n as [|n IH]; intros self w Hne.
  - eexists _, _, _. reflexivity.
  - destruct (next_ok self w Hne) as (a & self1 & w1 & Hn).
    destruct (IH self1 w1) as (out & self2 & w2 & Hd).
    { apply next_inv in Hn as [-> _]. done. }
    exists (a :: out), self2, w2. cbn [draw].
    unfold bind at 1. rewrite Hn. unfold bind at 1. by rewrite Hd.
Qed.

(** C2. For a non-empty set of targets: the constructor leaves the bag at a
    refill boundary; from a refill boundary, as many calls of [next] as
    there are targets return a permutation of the targets (each of them
    exactly once when they are distinct) and end at a refill boundary
    again; and a call of [next] on a bag that is not empty pops its last
    element without refilling (the random generator is not consumed). *)
Theorem shuffle_bag_window (items : list label) (w : World) :
  items <> [] ->
  (exists self w',
      __init__ items w = Ok (self, w')
      /\ _items self = items /\ at_refill_boundary self)
  /\ (forall self : ShuffleBag.t,
        _items self = items -> at_refill_boundary self ->
        exists out self' w',
          draw (length items) self w = Ok ((out, self'), w')
          /\ Permutation out items
          /\ (NoDup items ->
              forall x, In x items -> count_occ String.string_dec out x = 1)
          /\ _items self' = items /\ at_refill_boundary self')
  /\ (forall (self : ShuffleBag.t) (a : label) (rest : list label),
        _items self = items -> _bag self = rest ++ [a] ->
        next self w = Ok ((a, ShuffleBag.mk items rest), w)).
Proof.
  intros Hne. split; [|split].
  - destruct (refill_ok (ShuffleBag.mk items []) w) as (b & w' & Hr & Hp).
    eexists _, w'. split; [exact Hr|]. split; [done|]. by right.
  - intros self Hitems Hb. subst items.
    destruct (draw_boundary self w Hne Hb) as (out & w' & Hd & Hp).
    exists out, (ShuffleBag.mk (_items self) []), w'.
    split; [done|]. split; [done|]. split; [|split; [done|by left]].
    intros Hnd. by apply exactly_once.
  - intros [items' b] a rest Hitems Hbag. cbn in Hitems, Hbag. subst.
    apply next_nonempty.
Qed.

Lemma shuffle_bag_window_witness :
  XboxGamepadTrainerV2.ALL_TARGETS <> []
  /\ exists out self' w',
      (bag <- __init__ XboxGamepadTrainerV2.ALL_TARGETS ;; draw 8 bag) Examples.world_lt
      = Ok ((out, self'), w')
      /\ Permutation out XboxGamepadTrainerV2.ALL_TARGETS.
Proof.
  assert (Hne : XboxGamepadTrainerV2.ALL_TARGETS <> []) by discriminate.
  split; [exact Hne|].
  destruct (shuffle_bag_window XboxGamepadTrainerV2.ALL_TARGETS Examples.world_lt Hne)
    as ((self & w' & Hinit & Hitems & Hb) & _ & _).
  destruct (shuffle_bag_window XboxGamepadTrainerV2.ALL_TARGETS w' Hne)
    as (_ & Hdraw & _).
  destruct (Hdraw self Hitems Hb) as (out & self' & w2 & Hd & Hp & _).
  exists out, self', w2. split; [|exact Hp].
  unfold bind. rewrite Hinit. exact Hd.
Defined.

(** C6, as the program has it.  The constructor accepts an empty set of
    targets; the error is the [IndexError] of the first [next], which pops
    from the empty list.  From a non-empty set of targets the constructor
    and every later [next] return. *)
Theorem scheduler_empty_set_fails_at_draw (items : list label) (w : World) (n : nat) :
  items <> [] ->
  __init__ [] w = Ok (ShuffleBag.mk [] [], w)
  /\ next (ShuffleBag.mk [] []) w = Raise IndexError
  /\ exists out self' w',
      (bag <- __init__ items ;; draw n bag) w = Ok ((out, self'), w').
Proof.
  intros Hne. split; [reflexivity|]. split; [reflexivity|].
  destruct (refill_ok (ShuffleBag.mk items []) w) as (b & w' & Hr & Hp).
  destruct (draw_ok n (ShuffleBag.mk items b) w' Hne) as (out & self' & w2 & Hd).
  exists out, self', w2. unfold bind, __init__. by rewrite Hr.
Qed.

Lemma scheduler_empty_set_fails_at_draw_witness :
  XboxGamepadTrainerV2.ALL_TARGETS <> []
  /\ exists out self' w',
      (bag <- __init__ XboxGamepadTrainerV2.ALL_TARGETS ;; draw 20 bag) Examples.world_a
      = Ok ((out, self'), w').
Proof.
  assert (Hne : XboxGamepadTrainerV2.ALL_TARGETS <> []) by discriminate.
  split; [exact Hne|].
  exact (proj2 (proj2 (scheduler_empty_set_fails_at_draw
                         XboxGamepadTrainerV2.ALL_TARGETS Examples.world_a 20 Hne))).
Defined.

(** The constructor does not raise on the empty set of targets, and the
    first draw does. *)
Lemma empty_target_set_counterexample :
  __init__ [] Examples.world_a = Ok (ShuffleBag.mk [] [], Examples.world_a)
  /\ (bag <- __init__ [] ;; next bag) Examples.world_a = Raise IndexError.
Proof. split; reflexivity. Qed.

(** ** Trial state machine *)



(** A state the v2 trainer reaches: the first target, ["A"], is shown. *)
Lemma example_prompt_a :
  exists now m w,
    V2.reachable now m w
    /\ XboxGamepadTrainerV2.phase m = XboxGamepadTrainerV2.prompt
    /\ V2.correct_press m 0.
Proof.
  eexists _, _, _. split.
  - eapply V2.reach_turn.
    + eapply (V2.reach_init Examples.world_a).
      * vm_compute. reflexivity.
      * vm_compute. reflexivity.
    + vm_compute. reflexivity.
    + vm_compute. reflexivity.
  - split; reflexivity.
Defined.




(** ** Trigger decoder *)

Section TriggerClaims.
Import Pygame SessionStats XboxGamepadTrainerV2.

Lemma decode_fire_sample (press release : Q) (vs : list Q) :
  forall (armed : bool) (j : nat),
    decode press release armed vs !! j = Some true ->
    exists v, vs !! j = Some v /\ (press < v)%Q.
Proof.
  induction vs as [|v vs IH]; intros armed j Hj; [done|].
  cbn [decode] in Hj.
  destruct (trigger_update press release v armed) as [fire armed'] eqn:Hup.
  destruct j as [|j]; cbn [lookup list_lookup] in *.
  - injection Hj as ->. exists v. split; [done|].
    unfold trigger_update in Hup. injection Hup as Hup _.
    apply andb_true_iff in Hup as [Hv _]. by apply Qltb_true.
  - by eapply IH.
Qed.

(** C4, as the program has it.  With the release threshold below the press
    threshold: between two presses that one trigger fires, with nothing
    else arming it in between, a sample was below the release threshold,
    and each press is on a sample above the press threshold.  A poll of
    an axis is one step of that decoder on the thresholds of the program
    (0.2 and 0.6), it leaves the other trigger alone and records a press
    exactly when the decoder fires; and handling an event never arms or
    disarms a trigger.  (The prompt becoming live does: it arms them
    all.) *)
Theorem trigger_hysteresis (press release : Q) :
  (release < press)%Q ->
  (forall (armed : bool) (vs : list Q) (i j : nat),
      i < j ->
      decode press release armed vs !! i = Some true ->
      decode press release armed vs !! j = Some true ->
      (exists k v, i < k < j /\ vs !! k = Some v /\ (v < release)%Q)
      /\ (exists v, vs !! j = Some v /\ (press < v)%Q))
  /\ (TRIGGER_RELEASE < TRIGGER_THRESHOLD)%Q
  /\ (forall now axes i name m m' w w' v a,
        axes !! i = Some v ->
        dict_lookup (trigger_armed m) name = Some a ->
        poll_axis now axes (i, name) m w = Ok (m', w') ->
        let '(fire, a') := trigger_update TRIGGER_THRESHOLD TRIGGER_RELEASE v a in
        dict_lookup (trigger_armed m') name = Some a'
        /\ (forall other, other <> name ->
              dict_lookup (trigger_armed m') other
              = dict_lookup (trigger_armed m) other)
        /\ exists rt,
             attempts (stats m')
             = attempts (stats m)
               ++ (if fire
                   then [mkAttempt (target_btn m) (Some name) rt
                                   (bool_decide (name = target_btn m))]
                   else []))
  /\ (forall now e m m' w w',
        handle_event now e m w = Ok (m', w') ->
        trigger_armed m' = trigger_armed m).
Proof.
  intros Hband. split; [|split; [reflexivity|split]].
  - intros armed vs i j Hij Hi Hj. split.
    + by eapply decode_hysteresis.
    + by eapply decode_fire_sample.
  - apply v2_poll_axis_decodes.
  - apply v2_handle_event_armed.
Qed.

Lemma trigger_hysteresis_witness :
  (TRIGGER_RELEASE < TRIGGER_THRESHOLD)%Q
  /\ decode TRIGGER_THRESHOLD TRIGGER_RELEASE true [1; 1; 0; 1]%Q
     = [true; false; false; true]
  /\ exists k v, 0 < k < 3 /\ [1; 1; 0; 1]%Q !! k = Some v /\ (v < TRIGGER_RELEASE)%Q.
Proof.
  assert (Hband : (TRIGGER_RELEASE < TRIGGER_THRESHOLD)%Q) by reflexivity.
  split; [exact Hband|]. split; [reflexivity|].
  destruct (trigger_hysteresis TRIGGER_THRESHOLD TRIGGER_RELEASE Hband) as (Hdec & _).
  destruct (Hdec true [1; 1; 0; 1]%Q 0 3) as (Hrel & _);
    [lia|reflexivity|reflexivity|].
  exact Hrel.
Defined.

(** The left trigger is held fully pulled for four turns, never released:
    the program fires two presses of it, one for each prompt. *)
Lemma sustained_pull_fires_twice :
  Forall (fun f => axes f !! 4 = Some 1%Q /\ ~ (1 < TRIGGER_RELEASE)%Q)
         [Examples.hold; Examples.hold; Examples.hold; Examples.hold]
  /\ exists m w,
      main [Examples.hold; Examples.hold; Examples.hold; Examples.hold]
           Examples.world_lt = Ok (m, w)
      /\ map pressed (attempts (stats m)) = [Some "LT"; Some "LT"].
Proof.
  split.
  - repeat constructor; by intros H.
  - eexists _, _. split; vm_compute; reflexivity.
Qed.

(** C5, as the program has it.  When the prompt becomes live every trigger
    is armed; so a trigger that is past the press threshold at a poll of
    the new prompt fires a press at once, whatever it did before: no
    release is needed first. *)
Theorem new_prompt_arms_triggers :
  (forall now m w m' w',
      V2.reachable now m w ->
      phase m = delay ->
      progress now m w = Ok (m', w') ->
      phase m' = prompt ->
      map fst (trigger_armed m') = ["LT"; "RT"]
      /\ Forall (fun kv => snd kv = true) (trigger_armed m'))
  /\ (forall now m w m' w' now' w1 axes i name v,
        V2.reachable now m w ->
        phase m = delay ->
        progress now m w = Ok (m', w') ->
        phase m' = prompt ->
        (i, name) ∈ TRIGGER_AXES ->
        axes !! i = Some v -> (TRIGGER_THRESHOLD < v)%Q ->
        exists m2 w2 rt,
          poll_axis now' axes (i, name) m' w1 = Ok (m2, w2)
          /\ attempts (stats m2)
             = attempts (stats m')
               ++ [mkAttempt (target_btn m') (Some name) rt
                             (bool_decide (name = target_btn m'))]).
Proof.
  split.
  - intros now m w m' w' Hreach Hph Hprog Hp.
    destruct (v2_reachable_inv _ _ _ Hreach) as (_ & _ & _ & _ & Hkeys).
    destruct (v2_progress_arms _ _ _ _ _ Hph Hprog Hp) as (Harm & _).
    rewrite Harm. split.
    + rewrite map_map. exact Hkeys.
    + apply Forall_map. by apply Forall_true.
  - intros now m w m' w' now' w1 axes i name v Hreach Hph Hprog Hp Hax Hv Hpull.
    destruct (v2_reachable_inv _ _ _ Hreach) as (_ & _ & _ & Hitems & Hkeys).
    destruct (v2_progress_arms _ _ _ _ _ Hph Hprog Hp) as (Harm & Hbag & _).
    assert (Hpulled : V2.trigger_pulled m' axes i name).
    { exists v. split; [done|]. split; [done|]. rewrite Harm.
      apply dict_lookup_all_true. rewrite Hkeys.
      by apply (v2_trigger_names (i, name)). }
    rewrite (v2_trigger_press now' m' w1 axes i name Hpulled).
    destruct (v2_record_press_ok name now' (set_armed name false m') w1)
      as (m2 & w2 & Hr).
    { cbn. rewrite Hbag, Hitems. discriminate. }
    exists m2, w2.
    apply v2_record_press_inv in Hr as Hfacts.
    destruct Hfacts as (_ & _ & _ & (rt & Hatt) & _).
    exists rt. by split.
Qed.

(** The left trigger, held since the previous trial and never released,
    fires in the first turn of the new prompt. *)
Lemma held_trigger_fires_at_once :
  exists m3 w3 m4 w4,
    main [Examples.hold; Examples.hold; Examples.hold] Examples.world_lt = Ok (m3, w3)
    /\ phase m3 = prompt
    /\ map pressed (attempts (stats m3)) = [Some "LT"]
    /\ dict_lookup (trigger_armed m3) "LT" = Some true
    /\ frame Examples.hold m3 w3 = Ok (m4, w4)
    /\ map pressed (attempts (stats m4)) = [Some "LT"; Some "LT"].
Proof.
  eexists _, _, _, _. split; [vm_compute; reflexivity|].
  repeat split; vm_compute; reflexivity.
Qed.

(** C10 at the failing input: the target is ["LT"] and both triggers are
    pulled in the same turn.  The poll of the left trigger is the correct
    press: the program waits again, for ["RT"].  The loop over the axes
    goes on to the right trigger all the same and records its press while
    the program waits: an attempt that is correct and has no reaction
    time, after which the target ["RT"] is gone without having been
    shown. *)
Theorem second_trigger_recorded_while_waiting :
  exists m0 w0 now w1 m1 w2 m2 w3,
    main [mkFrame [] Examples.both_pulled] Examples.world_lt = Ok (m0, w0)
    /\ phase m0 = prompt /\ target_btn m0 = "LT" /\ attempts (stats m0) = []
    /\ perf_counter w0 = Ok (now, w1)
    /\ poll_axis now Examples.both_pulled (4, "LT") m0 w1 = Ok (m1, w2)
    /\ phase m1 = delay /\ target_btn m1 = "RT" /\ prompt_shown_t m1 = None
    /\ poll_axis now Examples.both_pulled (5, "RT") m1 w2 = Ok (m2, w3)
    /\ poll_triggers now Examples.both_pulled m0 w1 = Ok (m2, w3)
    /\ attempts (stats m2)
       = attempts (stats m1) ++ [mkAttempt "RT" (Some "RT") None true]
    /\ phase m2 = delay /\ target_btn m2 = "A".
Proof.
  eexists _, _, _, _, _, _, _, _.
  split; [vm_compute; reflexivity|].
  do 3 (split; [reflexivity|]).
  split; [vm_compute; reflexivity|].
  split; [vm_compute; reflexivity|].
  do 3 (split; [reflexivity|]).
  split; [vm_compute; reflexivity|].
  split; [vm_compute; reflexivity|].
  repeat split; vm_compute; reflexivity.
Qed.
End TriggerClaims.

(** ** Session report *)

Lemma summary_text_breakdown (buttons : list label) (self : SessionStats.t) :
  exists lines,
    SessionStats.summary_text buttons self = Ok lines
    /\ breakdown lines
       = map (fun btn => (btn, SessionStats.button_count self btn)) buttons.
Proof.
  destruct (summary_text_blocks buttons self) as (acc & rl & pb & Hs & _ & Hrl & Hpb).
  destruct (button_lines_projections self buttons pb Hpb) as (Hp1 & _).
  destruct (mistake_lines_projections self) as (_ & Hm2 & _).
  destruct (reaction_block_projections self rl Hrl) as (_ & Hr2).
  eexists. split; [exact Hs|].
  unfold breakdown in *. rewrite !omap_app, Hr2, Hp1, Hm2. cbn.
  by rewrite app_nil_r.
Qed.

(** C8, as the programs have it.  The report of the two gamepad trainers
    has an entry for every label of their target set, the empty marker for a
    label without a correct, timed attempt.  The report of
    reaction-trainer.py has a per-button breakdown only when a trial was
    completed and more than one target is configured; it then has an entry
    for every configured label, the empty marker for a label without a
    trial. *)
Theorem breakdown_lists_every_label :
  (forall self,
      exists lines,
        XboxGamepadTrainer.summary_text self = Ok lines
        /\ breakdown lines
           = map (fun btn => (btn, SessionStats.button_count self btn))
                 XboxGamepadTrainer.FACE_BUTTONS)
  /\ (forall self,
        exists lines,
          XboxGamepadTrainerV2.summary_text self = Ok lines
          /\ breakdown lines
             = map (fun btn => (btn, SessionStats.button_count self btn))
                   XboxGamepadTrainerV2.ALL_TARGETS)
  /\ (forall TARGET_BUTTONS self,
        exists lines,
          Session.summary_lines TARGET_BUTTONS self = Ok lines
          /\ breakdown lines
             = if bool_decide (Session.trials self <> [])
                  && Nat.ltb 1 (length TARGET_BUTTONS)
               then map (fun b => (b, trial_count self b)) TARGET_BUTTONS
               else []).
Proof.
  split; [|split].
  - intros self. apply summary_text_breakdown.
  - intros self. apply summary_text_breakdown.
  - apply summary_lines_breakdown.
Qed.

(** The report of reaction-trainer.py as distributed, after one trial on
    ["A"], has no entry for ["A"]; and with four targets configured and no
    trial completed the report has no entry at all. *)
Lemma breakdown_counterexample :
  (exists lines,
      Session.summary_lines ReactionTrainer.TARGET_BUTTONS
        (Session.mk [Session.mkTrial "A" (1 # 4)] 0) = Ok lines
      /\ "A" ∈ ReactionTrainer.TARGET_BUTTONS
      /\ breakdown lines = [])
  /\ (exists lines,
        Session.summary_lines ["A"; "B"; "X"; "Y"] (Session.mk [] 0) = Ok lines
        /\ breakdown lines = []).
Proof.
  split.
  - eexists. split; [vm_compute; reflexivity|]. split; [|reflexivity].
    apply list_elem_of_here.
  - eexists. split; [vm_compute; reflexivity|reflexivity].
Qed.

Lemma summary_text_total_witness :
  exists lines,
    XboxGamepadTrainerV2.summary_text (SessionStats.mk []) = Ok lines
    /\ accuracies lines = [0%Q]
    /\ List.filter is_no_data lines
       = [NoReactionTime "Reaction time: (no correct attempts recorded)"]
    /\ List.filter is_latency_aggregate lines = [].
Proof.
  destruct (summary_text_total XboxGamepadTrainerV2.ALL_TARGETS (SessionStats.mk []))
    as (lines & Hs & Hacc & _ & Hnone & _).
  destruct (Hnone eq_refl) as [Hn Ha].
  exists lines. split; [exact Hs|]. split; [exact Hacc|]. split; [exact Hn|exact Ha].
Defined.

(** The v2 trainer after [init], in the first turn: the wait is over. *)
Lemma example_wait_over :
  exists now m w,
    V2.reachable now m w
    /\ XboxGamepadTrainerV2.phase m = XboxGamepadTrainerV2.delay
    /\ Qle_bool (XboxGamepadTrainerV2.delay_until m) now = true.
Proof.
  eexists _, _, _. split.
  - eapply (V2.reach_init Examples.world_lt).
    + vm_compute. reflexivity.
    + vm_compute. reflexivity.
  - split; reflexivity.
Defined.

Lemma new_prompt_arms_triggers_witness :
  exists now m w m' w' m2 w2 rt,
    V2.reachable now m w
    /\ XboxGamepadTrainerV2.progress now m w = Ok (m', w')
    /\ XboxGamepadTrainerV2.phase m' = XboxGamepadTrainerV2.prompt
    /\ Forall (fun kv => snd kv = true) (XboxGamepadTrainerV2.trigger_armed m')
    /\ XboxGamepadTrainerV2.poll_axis now Examples.lt_held (4, "LT") m' w' = Ok (m2, w2)
    /\ SessionStats.attempts (XboxGamepadTrainerV2.stats m2)
       = SessionStats.attempts (XboxGamepadTrainerV2.stats m')
         ++ [SessionStats.mkAttempt (XboxGamepadTrainerV2.target_btn m') (Some "LT") rt
               (bool_decide ("LT" = XboxGamepadTrainerV2.target_btn m'))].
Proof.
  destruct example_wait_over as (now & m & w & Hreach & Hph & Hdue).
  destruct new_prompt_arms_triggers as (Harm & Hfire).
  assert (Hprog : exists m' w',
             XboxGamepadTrainerV2.progress now m w = Ok (m', w')
             /\ XboxGamepadTrainerV2.phase m' = XboxGamepadTrainerV2.prompt).
  { unfold XboxGamepadTrainerV2.progress. rewrite Hph, Hdue. cbn.
    eexists _, _. split; reflexivity. }
  destruct Hprog as (m' & w' & Hprog & Hp).
  destruct (Harm now m w m' w' Hreach Hph Hprog Hp) as (_ & Hall).
  destruct (Hfire now m w m' w' now w' Examples.lt_held 4 "LT" 1%Q
              Hreach Hph Hprog Hp) as (m2 & w2 & rt & Hpoll & Hatt).
  { apply list_elem_of_here. }
  { reflexivity. }
  { reflexivity. }
  by exists now, m, w, m', w', m2, w2, rt.
Defined.

(** * Further properties of the programs *)

(** ** The random waits *)





(** ** The prompt and the clock *)

Section PromptOnset.
Import Pygame.

(** An event that leaves the target shown leaves its onset, its wait and
    the target as they were. *)
Lemma rt_stays_go (now : Q) (e : event) (m m' : ReactionTrainer.Machine) (brk : bool)
      (w w' : World) :
  ReactionTrainer.handle_event now e m w = Ok ((m', brk), w') ->
  ReactionTrainer.phase (ReactionTrainer.state m') = ReactionTrainer.GO ->
  ReactionTrainer.phase (ReactionTrainer.state m) = ReactionTrainer.GO
  /\ ReactionTrainer.go_shown_t (ReactionTrainer.state m')
     = ReactionTrainer.go_shown_t (ReactionTrainer.state m)
  /\ ReactionTrainer.delay_until (ReactionTrainer.state m')
     = ReactionTrainer.delay_until (ReactionTrainer.state m)
  /\ ReactionTrainer.target (ReactionTrainer.state m')
     = ReactionTrainer.target (ReactionTrainer.state m)
  /\ ReactionTrainer.session m' = ReactionTrainer.session m.
Proof.
  intros H Hgo.
  destruct e as [|[| |]|joy idx|]; cbn [ReactionTrainer.handle_event] in H.
  - minv. by simplify_eq.
  - destruct (negb (bool_decide (_ = ReactionTrainer.SUMMARY))); minv; simplify_eq;
      [|done].
    apply rt_stop_inv in Hc as (_ & _ & Hs & _). congruence.
  - minv. by simplify_eq.
  - minv. by simplify_eq.
  - destruct (bool_decide (joy = js_get_id)); minv; simplify_eq; [|done].
    unfold ReactionTrainer.on_button in Hc.
    destruct (bool_decide (idx = ReactionTrainer.START_BUTTON_INDEX) && _).
    { apply rt_stop_inv in Hc as (_ & _ & Hs & _). congruence. }
    destruct (dict_lookup ReactionTrainer.DEFAULT_XBOX_FACE idx) as [pressed|].
    2:{ unfold ReactionTrainer.set_feedback in Hc. minv. simplify_eq. done. }
    destruct (ReactionTrainer.phase (ReactionTrainer.state m)) eqn:Hph.
    + unfold ReactionTrainer.schedule_ready, ReactionTrainer.set_feedback,
        ReactionTrainer.rand_delay_s in Hc. minv. by simplify_eq.
    + destruct (negb (bool_decide (pressed = _))).
      { unfold ReactionTrainer.set_feedback in Hc. minv. simplify_eq. done. }
      destruct (ReactionTrainer.go_shown_t (ReactionTrainer.state m));
        unfold ReactionTrainer.schedule_ready, ReactionTrainer.set_feedback,
          ReactionTrainer.rand_delay_s in Hc; minv; by simplify_eq.
    + minv. simplify_eq. congruence.
  - minv. by simplify_eq.
Qed.

Lemma v1_stays_prompt (now : Q) (e : event) (m m' : XboxGamepadTrainer.Machine)
      (brk : bool) (w w' : World) :
  XboxGamepadTrainer.handle_event now e m w = Ok ((m', brk), w') ->
  XboxGamepadTrainer.phase m' = XboxGamepadTrainer.prompt ->
  XboxGamepadTrainer.phase m = XboxGamepadTrainer.prompt
  /\ XboxGamepadTrainer.prompt_shown_t m' = XboxGamepadTrainer.prompt_shown_t m
  /\ XboxGamepadTrainer.delay_until m' = XboxGamepadTrainer.delay_until m
  /\ XboxGamepadTrainer.target_btn m' = XboxGamepadTrainer.target_btn m.
Proof.
  intros H Hp.
  destruct e as [|[| |]|joy idx|]; cbn [XboxGamepadTrainer.handle_event] in H.
  - minv. by simplify_eq.
  - destruct (negb (bool_decide (_ = XboxGamepadTrainer.summary))); minv; simplify_eq;
      [|done].
    apply v1_stop_inv in Hc as (_ & _ & Hs). congruence.
  - minv. by simplify_eq.
  - minv. by simplify_eq.
  - destruct (bool_decide (joy = js_get_id)); minv; simplify_eq; [|done].
    destruct (bool_decide (idx = 7) && _).
    { minv. simplify_eq. apply v1_stop_inv in Hc as (_ & _ & Hs). congruence. }
    destruct (bool_decide_reflect (XboxGamepadTrainer.phase m = XboxGamepadTrainer.prompt))
      as [Hph|Hph]; [|minv; by simplify_eq].
    minv. simplify_eq.
    unfold XboxGamepadTrainer.on_prompt_button in Hc.
    destruct (dict_lookup XboxGamepadTrainer.DEFAULT_XBOX_FACE idx) as [pressed|].
    2:{ minv. by simplify_eq. }
    destruct (bool_decide (pressed = _)); minv; by simplify_eq.
  - minv. by simplify_eq.
Qed.

Lemma v2_stays_prompt (now : Q) (e : event) (m m' : XboxGamepadTrainerV2.Machine)
      (w w' : World) :
  XboxGamepadTrainerV2.handle_event now e m w = Ok (m', w') ->
  XboxGamepadTrainerV2.phase m' = XboxGamepadTrainerV2.prompt ->
  XboxGamepadTrainerV2.phase m = XboxGamepadTrainerV2.prompt
  /\ XboxGamepadTrainerV2.prompt_shown_t m' = XboxGamepadTrainerV2.prompt_shown_t m
  /\ XboxGamepadTrainerV2.delay_until m' = XboxGamepadTrainerV2.delay_until m
  /\ XboxGamepadTrainerV2.target_btn m' = XboxGamepadTrainerV2.target_btn m.
Proof.
  intros H Hp.
  assert (Hsum : forall m1 w1,
             XboxGamepadTrainerV2.start_summary m w = Ok (m1, w1) ->
             XboxGamepadTrainerV2.phase m1 <> XboxGamepadTrainerV2.prompt).
  { intros m1 w1 Hs. apply v2_start_summary_inv in Hs as (_ & _ & Hs & _). congruence. }
  destruct e as [|[| |]|joy idx|]; cbn [XboxGamepadTrainerV2.handle_event] in H.
  - minv. by simplify_eq.
  - destruct (negb (bool_decide (_ = XboxGamepadTrainerV2.summary))).
    + by apply Hsum in H.
    + minv. by simplify_eq.
  - minv. by simplify_eq.
  - minv. by simplify_eq.
  - destruct (bool_decide_reflect (XboxGamepadTrainerV2.phase m = XboxGamepadTrainerV2.prompt))
      as [Hph|Hph]; [|minv; by simplify_eq].
    destruct (bool_decide (idx = 7)); [by apply Hsum in H|].
    destruct (dict_lookup XboxGamepadTrainerV2.btn_index_to_label idx) as [lbl|];
      [|minv; by simplify_eq].
    destruct (XboxGamepadTrainerV2.nonempty lbl); [|minv; by simplify_eq].
    apply v2_record_press_inv in H
      as (_ & _ & _ & _ & [(_ & Hd & _)|(_ & Hq & Ht & Hd & Hb)]); [congruence|done].
  - minv. by simplify_eq.
Qed.

Lemma v2_poll_stays_prompt (now : Q) (axes : list Q) (ax : nat * label)
      (m m' : XboxGamepadTrainerV2.Machine) (w w' : World) :
  XboxGamepadTrainerV2.poll_axis now axes ax m w = Ok (m', w') ->
  XboxGamepadTrainerV2.phase m' = XboxGamepadTrainerV2.prompt ->
  XboxGamepadTrainerV2.phase m = XboxGamepadTrainerV2.prompt
  /\ XboxGamepadTrainerV2.prompt_shown_t m' = XboxGamepadTrainerV2.prompt_shown_t m
  /\ XboxGamepadTrainerV2.delay_until m' = XboxGamepadTrainerV2.delay_until m
  /\ XboxGamepadTrainerV2.target_btn m' = XboxGamepadTrainerV2.target_btn m.
Proof.
  intros H Hp. destruct ax as [i name]. unfold XboxGamepadTrainerV2.poll_axis in H.
  destruct (Nat.leb (length axes) i); [minv; by simplify_eq|].
  apply bind_Ok_inv in H as (v & w1 & _ & H).
  apply bind_Ok_inv in H as (fire & w2 & _ & H).
  apply bind_Ok_inv in H as (m1 & w3 & Hpress & H).
  apply ret_Ok_inv in H as [<- <-].
  assert (Hsame : XboxGamepadTrainerV2.phase m1 = XboxGamepadTrainerV2.prompt)
    by (by destruct (Qltb v XboxGamepadTrainerV2.TRIGGER_RELEASE)).
  assert (Hgoal : XboxGamepadTrainerV2.phase m = XboxGamepadTrainerV2.prompt
                  /\ XboxGamepadTrainerV2.prompt_shown_t m1
                     = XboxGamepadTrainerV2.prompt_shown_t m
                  /\ XboxGamepadTrainerV2.delay_until m1
                     = XboxGamepadTrainerV2.delay_until m
                  /\ XboxGamepadTrainerV2.target_btn m1
                     = XboxGamepadTrainerV2.target_btn m).
  { destruct fire; [|minv; by simplify_eq].
    apply v2_record_press_inv in Hpress
      as (_ & _ & _ & _ & [(_ & Hd & _)|(_ & Hq & Ht & Hd & Hb)]); [congruence|].
    cbn in Hq, Ht, Hd, Hb. rewrite <- Hq. done. }
  by destruct (Qltb v XboxGamepadTrainerV2.TRIGGER_RELEASE).
Qed.

(** X2. In each program, in every state it reaches: while the target is
    shown, the time it was shown at is not before the end of the wait that
    preceded it, and not after the clock reading of the turn.  The programs
    never show a target early. *)
Theorem prompt_never_early :
  (forall now m w,
      RT.reachable now m w ->
      ReactionTrainer.phase (ReactionTrainer.state m) = ReactionTrainer.GO ->
      exists t,
        ReactionTrainer.go_shown_t (ReactionTrainer.state m) = Some t
        /\ (ReactionTrainer.delay_until (ReactionTrainer.state m) <= t)%Q
        /\ (t <= now)%Q)
  /\ (forall now m w,
        V1.reachable now m w ->
        XboxGamepadTrainer.phase m = XboxGamepadTrainer.prompt ->
        exists t,
          XboxGamepadTrainer.prompt_shown_t m = Some t
          /\ (XboxGamepadTrainer.delay_until m <= t)%Q /\ (t <= now)%Q)
  /\ (forall now m w,
        V2.reachable now m w ->
        XboxGamepadTrainerV2.phase m = XboxGamepadTrainerV2.prompt ->
        exists t,
          XboxGamepadTrainerV2.prompt_shown_t m = Some t
          /\ (XboxGamepadTrainerV2.delay_until m <= t)%Q /\ (t <= now)%Q).
Proof.
  split; [|split].
  - induction 1 as [w0 m w now w' Hinit Hnow
                   |now m w e m' brk w' Hreach IH Hev
                   |now m w m1 w1 now' w2 Hreach IH Hprog Hnow]; intros Hph.
    + unfold ReactionTrainer.init, ReactionTrainer.schedule_ready,
        ReactionTrainer.rand_delay_s in Hinit. minv. by simplify_eq.
    + destruct (rt_stays_go _ _ _ _ _ _ _ Hev Hph) as (Hp & -> & -> & _). by apply IH.
    + destruct (rt_reachable_inv _ _ _ Hreach) as [Hclock _].
      unfold ReactionTrainer.progress, ReactionTrainer.show_go in Hprog.
      destruct (bool_decide_reflect
                  (ReactionTrainer.phase (ReactionTrainer.state m) = ReactionTrainer.READY))
        as [Hr|Hr]; cbn [andb] in Hprog.
      * destruct (Qle_bool _ now) eqn:Hdue; minv; simplify_eq; [|congruence].
        apply Qle_bool_iff in Hdue. eexists. split; [reflexivity|]. cbn.
        assert (seconds (clock_ns w) <= seconds (clock_ns w1))%Q
          by (apply seconds_le; lia).
        assert (seconds (clock_ns w1) <= seconds (clock_ns w2))%Q
          by (apply seconds_le; lia).
        split; lra.
      * minv. simplify_eq. destruct (IH Hph) as (t & Ht & Hd & Hle).
        exists t. split; [done|]. split; [done|].
        assert (seconds (clock_ns w1) <= seconds (clock_ns w2))%Q
          by (apply seconds_le; lia).
        lra.
  - induction 1 as [w0 m w now w' Hinit Hnow
                   |now m w e m' brk w' Hreach IH Hev
                   |now m w m1 w1 now' w2 Hreach IH Hprog Hnow]; intros Hph.
    + unfold XboxGamepadTrainer.init in Hinit. minv. by simplify_eq.
    + destruct (v1_stays_prompt _ _ _ _ _ _ _ Hev Hph) as (Hp & -> & -> & _). by apply IH.
    + destruct (v1_reachable_inv _ _ _ Hreach) as [Hclock _].
      unfold XboxGamepadTrainer.progress in Hprog.
      destruct (bool_decide_reflect (XboxGamepadTrainer.phase m = XboxGamepadTrainer.delay))
        as [Hr|Hr]; cbn [andb] in Hprog.
      * destruct (Qle_bool _ now) eqn:Hdue; minv; simplify_eq; [|congruence].
        apply Qle_bool_iff in Hdue. eexists. split; [reflexivity|]. cbn.
        assert (seconds (clock_ns w) <= seconds (clock_ns w1))%Q
          by (apply seconds_le; lia).
        assert (seconds (clock_ns w1) <= seconds (clock_ns w2))%Q
          by (apply seconds_le; lia).
        split; lra.
      * minv. simplify_eq. destruct (IH Hph) as (t & Ht & Hd & Hle).
        exists t. split; [done|]. split; [done|].
        assert (seconds (clock_ns w1) <= seconds (clock_ns w2))%Q
          by (apply seconds_le; lia).
        lra.
  - induction 1 as [w0 m w now w' Hinit Hnow
                   |now m w e m' w' Hreach IH Hev
                   |now m w axes ax m' w' Hreach IH Hax Hpoll
                   |now m w m1 w1 now' w2 Hreach IH Hprog Hnow]; intros Hph.
    + apply v2_init_inv in Hinit as (Hd & _). congruence.
    + destruct (v2_stays_prompt _ _ _ _ _ _ Hev Hph) as (Hp & -> & -> & _). by apply IH.
    + destruct (v2_poll_stays_prompt _ _ _ _ _ _ _ Hpoll Hph) as (Hp & -> & -> & _).
      by apply IH.
    + destruct (v2_reachable_inv _ _ _ Hreach) as ([_ Hclock] & _).
      unfold XboxGamepadTrainerV2.progress in Hprog.
      destruct (bool_decide_reflect
                  (XboxGamepadTrainerV2.phase m = XboxGamepadTrainerV2.delay))
        as [Hr|Hr]; cbn [andb] in Hprog.
      * destruct (Qle_bool _ now) eqn:Hdue; minv; simplify_eq; [|congruence].
        apply Qle_bool_iff in Hdue. eexists. split; [reflexivity|]. cbn.
        assert (seconds (clock_ns w) <= seconds (clock_ns w1))%Q
          by (apply seconds_le; lia).
        assert (seconds (clock_ns w1) <= seconds (clock_ns w2))%Q
          by (apply seconds_le; lia).
        split; lra.
      * minv. simplify_eq. destruct (IH Hph) as (t & Ht & Hd & Hle).
        exists t. split; [done|]. split; [done|].
        assert (seconds (clock_ns w1) <= seconds (clock_ns w2))%Q
          by (apply seconds_le; lia).
        lra.
Qed.
End PromptOnset.

Lemma prompt_never_early_witness :
  exists now m w t,
    V2.reachable now m w
    /\ XboxGamepadTrainerV2.phase m = XboxGamepadTrainerV2.prompt
    /\ XboxGamepadTrainerV2.prompt_shown_t m = Some t
    /\ (XboxGamepadTrainerV2.delay_until m <= t)%Q /\ (t <= now)%Q.
Proof.
  destruct example_prompt_a as (now & m & w & Hreach & Hph & _).
  destruct prompt_never_early as (_ & _ & Hv2).
  destruct (Hv2 now m w Hreach Hph) as (t & Ht & Hd & Hle).
  by exists now, m, w, t.
Defined.

(** ** No run raises *)

Section NoExceptions.
Import Pygame.

Lemma bind_ok {A B} (c : M A) (k : A -> M B) (w : World) :
  (exists r, c w = Ok r) -> (forall a w1, exists r, k a w1 = Ok r) ->
  exists r, bind c k w = Ok r.
Proof. intros [[a w1] Hc] Hk. unfold bind. rewrite Hc. apply Hk. Qed.

Lemma choice_total {A} (l : list A) (w : World) :
  l <> [] -> exists r, choice l w = Ok r.
Proof. intros Hl. destruct (choice_ok l w Hl) as (x & w' & H). by eexists. Qed.

Ltac ok_step :=
  lazymatch goal with
  | |- exists r, bind _ _ _ = Ok r => apply bind_ok; [|intros ? ?; cbv beta]
  | |- exists r, ret _ _ = Ok r => eexists; reflexivity
  | |- exists r, perf_counter _ = Ok r => eexists; reflexivity
  | |- exists r, uniform _ _ _ = Ok r => eexists; reflexivity
  | |- exists r, choice _ _ = Ok r => apply choice_total; done
  end.

Lemma rt_stop_ok (m : ReactionTrainer.Machine) (w : World) :
  exists r, ReactionTrainer.stop m w = Ok r.
Proof.
  unfold ReactionTrainer.stop.
  destruct (summary_lines_breakdown ReactionTrainer.TARGET_BUTTONS
              (ReactionTrainer.session m)) as (ls & Hls & _).
  eexists. unfold bind, lift. rewrite Hls. reflexivity.
Qed.

Lemma rt_handle_event_ok (now : Q) (e : event) (m : ReactionTrainer.Machine) (w : World) :
  exists r, ReactionTrainer.handle_event now e m w = Ok r.
Proof.
  destruct e as [|[| |]|joy idx|]; cbn [ReactionTrainer.handle_event];
    try (eexists; reflexivity).
  - destruct (negb _); [|eexists; reflexivity].
    ok_step; [apply rt_stop_ok|ok_step].
  - destruct (bool_decide (joy = js_get_id)); [|eexists; reflexivity].
    ok_step; [|ok_step]. unfold ReactionTrainer.on_button.
    destruct (_ && _); [apply rt_stop_ok|].
    unfold ReactionTrainer.set_feedback, ReactionTrainer.schedule_ready,
      ReactionTrainer.rand_delay_s.
    destruct (dict_lookup _ idx) as [pressed|]; [|repeat ok_step].
    destruct (ReactionTrainer.phase (ReactionTrainer.state m)); [repeat ok_step| |ok_step].
    destruct (negb _); [repeat ok_step|].
    destruct (ReactionTrainer.go_shown_t (ReactionTrainer.state m)); repeat ok_step.
Qed.

Lemma rt_frame_ok (f : frame_input) (m : ReactionTrainer.Machine) (w : World) :
  exists r, ReactionTrainer.frame f m w = Ok r.
Proof.
  unfold ReactionTrainer.frame. ok_step; [ok_step|]. ok_step.
  - clear w. revert m w1. induction (events f) as [|e evs IH]; intros m w;
      cbn [for_events]; [ok_step|].
    ok_step; [apply rt_handle_event_ok|]. destruct a0 as [m' []]; [ok_step|apply IH].
  - unfold ReactionTrainer.progress, ReactionTrainer.show_go.
    destruct (_ && _); repeat ok_step.
Qed.

Lemma v1_stop_ok (m : XboxGamepadTrainer.Machine) (w : World) :
  exists r, XboxGamepadTrainer.stop m w = Ok r.
Proof.
  unfold XboxGamepadTrainer.stop, XboxGamepadTrainer.summary_text.
  destruct (summary_text_blocks XboxGamepadTrainer.FACE_BUTTONS
              (XboxGamepadTrainer.stats m)) as (acc & rl & pb & Hls & _).
  eexists. unfold bind, lift. rewrite Hls. reflexivity.
Qed.

Lemma v1_handle_event_ok (now : Q) (e : event) (m : XboxGamepadTrainer.Machine)
      (w : World) :
  exists r, XboxGamepadTrainer.handle_event now e m w = Ok r.
Proof.
  destruct e as [|[| |]|joy idx|]; cbn [XboxGamepadTrainer.handle_event];
    try (eexists; reflexivity).
  - destruct (negb _); [|eexists; reflexivity].
    ok_step; [apply v1_stop_ok|ok_step].
  - destruct (bool_decide (joy = js_get_id)); [|eexists; reflexivity].
    destruct (_ && _); [ok_step; [apply v1_stop_ok|ok_step]|].
    destruct (bool_decide (_ = XboxGamepadTrainer.prompt)); [|eexists; reflexivity].
    ok_step; [|ok_step]. unfold XboxGamepadTrainer.on_prompt_button.
    destruct (dict_lookup _ idx) as [pressed|]; [|ok_step].
    cbv zeta. destruct (bool_decide (pressed = _)); repeat ok_step.
Qed.

Lemma v1_frame_ok (f : frame_input) (m : XboxGamepadTrainer.Machine) (w : World) :
  exists r, XboxGamepadTrainer.frame f m w = Ok r.
Proof.
  unfold XboxGamepadTrainer.frame. ok_step; [ok_step|]. ok_step.
  - clear w. revert m w1. induction (events f) as [|e evs IH]; intros m w;
      cbn [for_events]; [ok_step|].
    ok_step; [apply v1_handle_event_ok|]. destruct a0 as [m' []]; [ok_step|apply IH].
  - unfold XboxGamepadTrainer.progress. destruct (_ && _); repeat ok_step.
Qed.

Lemma v2_start_summary_ok (m : XboxGamepadTrainerV2.Machine) (w : World) :
  exists r, XboxGamepadTrainerV2.start_summary m w = Ok r.
Proof.
  unfold XboxGamepadTrainerV2.start_summary, XboxGamepadTrainerV2.summary_text.
  destruct (summary_text_blocks XboxGamepadTrainerV2.ALL_TARGETS
              (XboxGamepadTrainerV2.stats m)) as (acc & rl & pb & Hls & _).
  eexists. unfold bind, lift. rewrite Hls. reflexivity.
Qed.

Lemma v2_record_press_total (lbl : label) (now : Q) (m : XboxGamepadTrainerV2.Machine)
      (w : World) :
  ShuffleBag._items (XboxGamepadTrainerV2.bag m) <> [] ->
  exists r, XboxGamepadTrainerV2.record_press lbl now m w = Ok r.
Proof.
  intros H. destruct (v2_record_press_ok lbl now m w H) as (m' & w' & Hr). by eexists.
Qed.

Lemma v2_handle_event_ok (now : Q) (e : event) (m : XboxGamepadTrainerV2.Machine)
      (w : World) :
  ShuffleBag._items (XboxGamepadTrainerV2.bag m) <> [] ->
  exists r, XboxGamepadTrainerV2.handle_event now e m w = Ok r.
Proof.
  intros Hitems.
  destruct e as [|[| |]|joy idx|]; cbn [XboxGamepadTrainerV2.handle_event];
    try (eexists; reflexivity).
  - destruct (negb _); [apply v2_start_summary_ok|eexists; reflexivity].
  - destruct (bool_decide (_ = XboxGamepadTrainerV2.prompt)); [|eexists; reflexivity].
    destruct (bool_decide (idx = 7)); [apply v2_start_summary_ok|].
    destruct (dict_lookup _ idx) as [lbl|]; [|eexists; reflexivity].
    destruct (XboxGamepadTrainerV2.nonempty lbl); [|eexists; reflexivity].
    by apply v2_record_press_total.
Qed.

Lemma dict_lookup_key {K V} `{EqDecision K} (d : dict K V) (k : K) :
  k ∈ map fst d -> exists v, dict_lookup d k = Some v.
Proof.
  unfold dict_lookup. induction d as [|[k0 v0] d IH]; cbn.
  - by intros ?%elem_of_nil.
  - intros [->|Hin]%elem_of_cons; [rewrite decide_True by done; by eexists|].
    case_decide; [by eexists|]. by apply IH.
Qed.

Lemma v2_poll_axis_ok (now : Q) (axes : list Q) (ax : nat * label)
      (m : XboxGamepadTrainerV2.Machine) (w : World) :
  ShuffleBag._items (XboxGamepadTrainerV2.bag m) <> [] ->
  snd ax ∈ map fst (XboxGamepadTrainerV2.trigger_armed m) ->
  exists r, XboxGamepadTrainerV2.poll_axis now axes ax m w = Ok r.
Proof.
  intros Hitems Hkey. destruct ax as [i name]. cbn [snd] in Hkey.
  unfold XboxGamepadTrainerV2.poll_axis.
  destruct (Nat.leb (length axes) i) eqn:Hlen; [ok_step|].
  apply Nat.leb_gt in Hlen. destruct (getitem_ok axes i Hlen) as [v Hv].
  destruct (dict_lookup_key _ _ Hkey) as [armed Harmed].
  unfold bind at 1. unfold lift at 1. rewrite Hv.
  unfold bind at 1. unfold lift at 1. unfold dict_getitem. rewrite Harmed.
  assert (Hfire : forall fire : bool,
             exists r, (m0 <- (if fire
                               then XboxGamepadTrainerV2.record_press name now
                                      (XboxGamepadTrainerV2.set_armed name false m)
                               else ret m) ;;
                        ret (if Qltb v XboxGamepadTrainerV2.TRIGGER_RELEASE
                             then XboxGamepadTrainerV2.set_armed name true m0
                             else m0)) w = Ok r).
  { intros fire. ok_step; [|ok_step].
    destruct fire; [by apply v2_record_press_total|ok_step]. }
  destruct (Qltb XboxGamepadTrainerV2.TRIGGER_THRESHOLD v); cbv beta iota;
    [apply (Hfire armed)|apply (Hfire false)].
Qed.

Lemma v2_frame_reachable (f : frame_input) (m m1 : XboxGamepadTrainerV2.Machine)
      (w w1 : World) :
  (forall now w', perf_counter w = Ok (now, w') -> V2.reachable now m w') ->
  XboxGamepadTrainerV2.frame f m w = Ok (m1, w1) ->
  forall now w', perf_counter w1 = Ok (now, w') -> V2.reachable now m1 w'.
Proof.
  intros H0 Hframe now' w' Hnow'. unfold XboxGamepadTrainerV2.frame in Hframe.
  apply bind_Ok_inv in Hframe as (now & w3 & Hnow & Hframe).
  apply bind_Ok_inv in Hframe as (m2 & w4 & Hev & Hframe).
  apply bind_Ok_inv in Hframe as (m3 & w5 & Hpoll & Hprog).
  eapply V2.reach_turn; [|exact Hprog|exact Hnow'].
  assert (Hm2 : V2.reachable now m2 w4).
  { eapply v2_events_reachable; [|exact Hev]. by apply H0. }
  unfold XboxGamepadTrainerV2.poll_triggers in Hpoll.
  destruct (bool_decide (XboxGamepadTrainerV2.phase m2 = XboxGamepadTrainerV2.prompt)).
  - eapply v2_polls_reachable; [|exact Hm2|exact Hpoll]. by apply Forall_forall.
  - apply ret_Ok_inv in Hpoll as [<- <-]. exact Hm2.
Qed.

Lemma v2_reachable_items (now : Q) (m : XboxGamepadTrainerV2.Machine) (w : World) :
  V2.reachable now m w ->
  ShuffleBag._items (XboxGamepadTrainerV2.bag m) <> []
  /\ forall ax, ax ∈ XboxGamepadTrainerV2.TRIGGER_AXES ->
                snd ax ∈ map fst (XboxGamepadTrainerV2.trigger_armed m).
Proof.
  intros (_ & _ & _ & Hitems & Hkeys)%v2_reachable_inv.
  rewrite Hitems, Hkeys. split; [done|].
  intros ax Hax. unfold XboxGamepadTrainerV2.TRIGGER_AXES in Hax.
  apply elem_of_cons in Hax as [->|Hax]; [apply list_elem_of_here|].
  apply list_elem_of_singleton in Hax as ->. apply list_elem_of_further, list_elem_of_here.
Qed.

Lemma v2_frame_ok (f : frame_input) (m : XboxGamepadTrainerV2.Machine) (w : World) :
  (forall now w', perf_counter w = Ok (now, w') -> V2.reachable now m w') ->
  exists r, XboxGamepadTrainerV2.frame f m w = Ok r.
Proof.
  intros H0. unfold XboxGamepadTrainerV2.frame.
  assert (Hnow : exists now w1, perf_counter w = Ok (now, w1)) by (by eexists _, _).
  destruct Hnow as (now & w1 & Hnow). unfold bind at 1. rewrite Hnow.
  assert (Hreach := H0 _ _ Hnow). clear H0 Hnow w. revert Hreach.
  generalize w1. clear w1. intros w Hreach.
  assert (Hev : exists m2 w2,
             for_each (XboxGamepadTrainerV2.handle_event now) (events f) m w
             = Ok (m2, w2) /\ V2.reachable now m2 w2).
  { revert m w Hreach. induction (events f) as [|e evs IH]; intros m w Hreach;
      cbn [for_each]; [by eexists _, _|].
    destruct (v2_handle_event_ok now e m w) as [[m1 w1] H1];
      [by eapply v2_reachable_items|].
    destruct (IH m1 w1) as (m2 & w2 & H2 & Hr2); [by eapply V2.reach_event|].
    exists m2, w2. split; [|done]. unfold bind. by rewrite H1. }
  destruct Hev as (m2 & w2 & Hev & Hr2). unfold bind at 1. rewrite Hev.
  assert (Hpoll : exists r, XboxGamepadTrainerV2.poll_triggers now (axes f) m2 w2 = Ok r).
  { unfold XboxGamepadTrainerV2.poll_triggers.
    destruct (bool_decide _); [|ok_step].
    assert (Hall : Forall (fun ax => ax ∈ XboxGamepadTrainerV2.TRIGGER_AXES)
                          XboxGamepadTrainerV2.TRIGGER_AXES) by (by apply Forall_forall).
    clear Hev. revert Hall m2 w2 Hr2.
    generalize XboxGamepadTrainerV2.TRIGGER_AXES at 2 3.
    induction 1 as [|ax l Hax _ IH]; intros m2 w2 Hr2; cbn [for_each]; [ok_step|].
    destruct (v2_reachable_items _ _ _ Hr2) as [Hitems Hkeys].
    destruct (v2_poll_axis_ok now (axes f) ax m2 w2 Hitems (Hkeys ax Hax))
      as [[m3 w3] H3].
    unfold bind. rewrite H3. apply (IH m3 w3). by eapply V2.reach_poll. }
  destruct Hpoll as [[m3 w3] Hpoll]. unfold bind at 1. rewrite Hpoll.
  unfold XboxGamepadTrainerV2.progress. destruct (_ && _); repeat ok_step.
Qed.

(** X3. No run of the three programs raises: whatever the clock, the random
    generator, the events and the axis positions of the turns, [main] runs
    through them and returns.  In particular the report is never computed
    from statistics of an empty list, the shuffle bag is never popped
    empty, an axis the joystick does not have is never read, and the armed
    flag of a trigger is never missing. *)
Theorem main_never_raises (fs : list frame_input) (w : World) :
  (exists r, ReactionTrainer.main fs w = Ok r)
  /\ (exists r, XboxGamepadTrainer.main fs w = Ok r)
  /\ (exists r, XboxGamepadTrainerV2.main fs w = Ok r).
Proof.
  split; [|split].
  - unfold ReactionTrainer.main. ok_step.
    + unfold ReactionTrainer.init, ReactionTrainer.schedule_ready,
        ReactionTrainer.rand_delay_s. repeat ok_step.
    + clear w. revert a w1. induction fs as [|f fs IH]; intros m w;
        cbn [ReactionTrainer.loop]; [ok_step|].
      destruct (ReactionTrainer.running m); [|ok_step].
      ok_step; [apply rt_frame_ok|apply IH].
  - unfold XboxGamepadTrainer.main. ok_step.
    + unfold XboxGamepadTrainer.init. repeat ok_step.
    + clear w. revert a w1. induction fs as [|f fs IH]; intros m w;
        cbn [XboxGamepadTrainer.loop]; [ok_step|].
      destruct (XboxGamepadTrainer.running m); [|ok_step].
      ok_step; [apply v1_frame_ok|apply IH].
  - unfold XboxGamepadTrainerV2.main.
    assert (Hinit : exists m0 w0, XboxGamepadTrainerV2.init w = Ok (m0, w0)).
    { unfold XboxGamepadTrainerV2.init.
      unfold bind at 1. unfold perf_counter at 1.
      unfold bind at 1. unfold uniform, random, next_raw.
      unfold bind at 1 2. unfold ret at 1 2.
      unfold ShuffleBag.__init__, ShuffleBag._refill.
      match goal with |- context [shuffle ?x] => set (items := x) end.
      match goal with |- context [bind (bind (shuffle _) _) _ ?w] =>
        destruct (shuffle_ok items w) as (b & w1 & Hs & Hperm) end.
      unfold bind at 1. unfold bind at 1. rewrite Hs. unfold ret at 1.
      destruct (next_ok (ShuffleBag.mk items b) w1) as (a & self' & w2 & Hn); [done|].
      unfold bind at 1. rewrite Hn. by eexists _, _. }
    destruct Hinit as (m0 & w0 & Hinit). unfold bind. rewrite Hinit.
    assert (H0 : forall now w', perf_counter w0 = Ok (now, w') -> V2.reachable now m0 w')
      by (intros; by eapply V2.reach_init).
    clear Hinit. revert m0 w0 H0. induction fs as [|f fs IH]; intros m w0 H0;
      cbn [XboxGamepadTrainerV2.loop]; [ok_step|].
    destruct (XboxGamepadTrainerV2.running m); [|ok_step].
    destruct (v2_frame_ok f m w0 H0) as [[m1 w1] Hf].
    unfold bind. rewrite Hf. apply IH. by eapply v2_frame_reachable.
Qed.
End NoExceptions.

(** ** The end of a session *)

Section Sessions.
Import Pygame.

Lemma for_events_ind {S} (body : event -> S -> M (S * bool)) (P : S -> Prop) :
  (forall e s w s' b w', P s -> body e s w = Ok ((s', b), w') -> P s') ->
  forall evs s w s' w', P s -> for_events body evs s w = Ok (s', w') -> P s'.
Proof.
  intros Hbody. induction evs as [|e evs IH]; intros s w s' w' Hs H;
    cbn [for_events] in H.
  - by apply ret_Ok_inv in H as [<- _].
  - apply bind_Ok_inv in H as ([s1 b] & w1 & He & H).
    assert (P s1) by (by eapply Hbody).
    destruct b; [by apply ret_Ok_inv in H as [<- _]|by eapply IH].
Qed.

Lemma for_each_ind {A S} (body : A -> S -> M S) (P : S -> Prop) (l : list A) :
  (forall a s w s' w', a ∈ l -> P s -> body a s w = Ok (s', w') -> P s') ->
  forall s w s' w', P s -> for_each body l s w = Ok (s', w') -> P s'.
Proof.
  induction l as [|a l IH]; intros Hbody s w s' w' Hs H; cbn [for_each] in H.
  - by apply ret_Ok_inv in H as [<- _].
  - apply bind_Ok_inv in H as (s1 & w1 & He & H).
    eapply IH; [|eapply Hbody; [apply list_elem_of_here|exact Hs|exact He]|exact H].
    intros a' s0 w0 s0' w0' Hin. apply Hbody. by apply list_elem_of_further.
Qed.

(** What holds at the start of the loop and is kept by every event and by
    the phase progression holds at the end of the run. *)
Lemma rt_loop_ind (P : ReactionTrainer.Machine -> Prop) :
  (forall now e m w m' b w',
      P m -> ReactionTrainer.handle_event now e m w = Ok ((m', b), w') -> P m') ->
  (forall now m w m' w', P m -> ReactionTrainer.progress now m w = Ok (m', w') -> P m') ->
  forall fs m w m' w', P m -> ReactionTrainer.loop fs m w = Ok (m', w') -> P m'.
Proof.
  intros Hev Hprog. induction fs as [|f fs IH]; intros m w m' w' Hm H;
    cbn [ReactionTrainer.loop] in H.
  - by apply ret_Ok_inv in H as [<- _].
  - destruct (ReactionTrainer.running m); [|by apply ret_Ok_inv in H as [<- _]].
    apply bind_Ok_inv in H as (m1 & w1 & Hf & H). eapply IH; [|exact H].
    unfold ReactionTrainer.frame in Hf.
    apply bind_Ok_inv in Hf as (now & w2 & _ & Hf).
    apply bind_Ok_inv in Hf as (m2 & w3 & Hevs & Hp).
    eapply Hprog; [|exact Hp].
    eapply for_events_ind; [|exact Hm|exact Hevs]. intros. by eapply Hev.
Qed.

Lemma v1_loop_ind (P : XboxGamepadTrainer.Machine -> Prop) :
  (forall now e m w m' b w',
      P m -> XboxGamepadTrainer.handle_event now e m w = Ok ((m', b), w') -> P m') ->
  (forall now m w m' w', P m -> XboxGamepadTrainer.progress now m w = Ok (m', w') -> P m') ->
  forall fs m w m' w', P m -> XboxGamepadTrainer.loop fs m w = Ok (m', w') -> P m'.
Proof.
  intros Hev Hprog. induction fs as [|f fs IH]; intros m w m' w' Hm H;
    cbn [XboxGamepadTrainer.loop] in H.
  - by apply ret_Ok_inv in H as [<- _].
  - destruct (XboxGamepadTrainer.running m); [|by apply ret_Ok_inv in H as [<- _]].
    apply bind_Ok_inv in H as (m1 & w1 & Hf & H). eapply IH; [|exact H].
    unfold XboxGamepadTrainer.frame in Hf.
    apply bind_Ok_inv in Hf as (now & w2 & _ & Hf).
    apply bind_Ok_inv in Hf as (m2 & w3 & Hevs & Hp).
    eapply Hprog; [|exact Hp].
    eapply for_events_ind; [|exact Hm|exact Hevs]. intros. by eapply Hev.
Qed.

(** A poll of a trigger never leads to the summary. *)
Lemma v2_poll_axis_phase (now : Q) (axes : list Q) (ax : nat * label)
      (m m' : XboxGamepadTrainerV2.Machine) (w w' : World) :
  XboxGamepadTrainerV2.poll_axis now axes ax m w = Ok (m', w') ->
  XboxGamepadTrainerV2.phase m <> XboxGamepadTrainerV2.summary ->
  XboxGamepadTrainerV2.phase m' <> XboxGamepadTrainerV2.summary.
Proof.
  intros H Hp. destruct ax as [i name]. unfold XboxGamepadTrainerV2.poll_axis in H.
  destruct (Nat.leb (length axes) i); [minv; by simplify_eq|].
  apply bind_Ok_inv in H as (v & w1 & _ & H).
  apply bind_Ok_inv in H as (fire & w2 & _ & H).
  apply bind_Ok_inv in H as (m1 & w3 & Hpress & H).
  apply ret_Ok_inv in H as [<- <-].
  assert (XboxGamepadTrainerV2.phase m1 <> XboxGamepadTrainerV2.summary).
  { destruct fire; [|minv; by simplify_eq].
    apply v2_record_press_inv in Hpress
      as (_ & _ & _ & _ & [(_ & Hd & _)|(_ & Hq & _)]); cbn in *; congruence. }
  by destruct (Qltb v XboxGamepadTrainerV2.TRIGGER_RELEASE).
Qed.

(** The same for the v2 trainer, whose turn also polls the triggers; it
    polls them only while the summary is not shown. *)
Lemma v2_frame_ind (P : XboxGamepadTrainerV2.Machine -> Prop) (f : frame_input) :
  (forall now e m w m' w',
      P m -> XboxGamepadTrainerV2.handle_event now e m w = Ok (m', w') -> P m') ->
  (forall now ax m w m' w',
      ax ∈ XboxGamepadTrainerV2.TRIGGER_AXES ->
      XboxGamepadTrainerV2.phase m <> XboxGamepadTrainerV2.summary ->
      P m -> XboxGamepadTrainerV2.poll_axis now (axes f) ax m w = Ok (m', w') -> P m') ->
  (forall now m w m' w',
      P m -> XboxGamepadTrainerV2.progress now m w = Ok (m', w') -> P m') ->
  forall m w m' w', P m -> XboxGamepadTrainerV2.frame f m w = Ok (m', w') -> P m'.
Proof.
  intros Hev Hpoll Hprog m w m' w' Hm Hf.
  unfold XboxGamepadTrainerV2.frame in Hf.
  apply bind_Ok_inv in Hf as (now & w2 & _ & Hf).
  apply bind_Ok_inv in Hf as (m2 & w3 & Hevs & Hf).
  apply bind_Ok_inv in Hf as (m3 & w4 & Hpolls & Hp).
  eapply Hprog; [|exact Hp].
  assert (Hm2 : P m2).
  { eapply for_each_ind; [|exact Hm|exact Hevs]. intros. by eapply Hev. }
  unfold XboxGamepadTrainerV2.poll_triggers in Hpolls.
  destruct (bool_decide_reflect
              (XboxGamepadTrainerV2.phase m2 = XboxGamepadTrainerV2.prompt)) as [Hph|Hph];
    [|by apply ret_Ok_inv in Hpolls as [<- _]].
  apply (for_each_ind _
           (fun m => XboxGamepadTrainerV2.phase m <> XboxGamepadTrainerV2.summary /\ P m)
           _) with (s' := m3) (w' := w4) (s := m2) (w := w3) in Hpolls as [_ HP]; [done| |].
  - intros ax s0 w0 s0' w0' Hin [Hs0 HP0] Hs. split.
    + by eapply v2_poll_axis_phase.
    + by eapply Hpoll.
  - split; [congruence|done].
Qed.

Lemma v2_loop_ind (P : XboxGamepadTrainerV2.Machine -> Prop) :
  (forall now e m w m' w',
      P m -> XboxGamepadTrainerV2.handle_event now e m w = Ok (m', w') -> P m') ->
  (forall now axes ax m w m' w',
      ax ∈ XboxGamepadTrainerV2.TRIGGER_AXES ->
      XboxGamepadTrainerV2.phase m <> XboxGamepadTrainerV2.summary ->
      P m -> XboxGamepadTrainerV2.poll_axis now axes ax m w = Ok (m', w') -> P m') ->
  (forall now m w m' w',
      P m -> XboxGamepadTrainerV2.progress now m w = Ok (m', w') -> P m') ->
  forall fs m w m' w', P m -> XboxGamepadTrainerV2.loop fs m w = Ok (m', w') -> P m'.
Proof.
  intros Hev Hpoll Hprog. induction fs as [|f fs IH]; intros m w m' w' Hm H;
    cbn [XboxGamepadTrainerV2.loop] in H.
  - by apply ret_Ok_inv in H as [<- _].
  - destruct (XboxGamepadTrainerV2.running m); [|by apply ret_Ok_inv in H as [<- _]].
    apply bind_Ok_inv in H as (m1 & w1 & Hf & H). eapply IH; [|exact H].
    eapply (v2_frame_ind P f); [exact Hev| |exact Hprog|exact Hm|exact Hf].
    intros now ax. apply Hpoll.
Qed.
End Sessions.

Section SummaryPhase.
Import Pygame.

(** An event either stops the session (from a phase other than the
    summary) or leaves the report alone; in the summary it changes neither
    the phase nor the session. *)
Lemma rt_event_cases (now : Q) (e : event) (m m' : ReactionTrainer.Machine) (b : bool)
      (w w' : World) :
  ReactionTrainer.handle_event now e m w = Ok ((m', b), w') ->
  (ReactionTrainer.phase (ReactionTrainer.state m) <> ReactionTrainer.SUMMARY
   /\ ReactionTrainer.stop m w = Ok (m', w'))
  \/ (ReactionTrainer.summary_lines m' = ReactionTrainer.summary_lines m
      /\ (ReactionTrainer.phase (ReactionTrainer.state m) = ReactionTrainer.SUMMARY ->
          ReactionTrainer.phase (ReactionTrainer.state m') = ReactionTrainer.SUMMARY
          /\ ReactionTrainer.session m' = ReactionTrainer.session m)
      /\ (ReactionTrainer.phase (ReactionTrainer.state m) <> ReactionTrainer.SUMMARY ->
          ReactionTrainer.phase (ReactionTrainer.state m') <> ReactionTrainer.SUMMARY)).
Proof.
  intros H.
  destruct e as [|[| |]|joy idx|]; cbn [ReactionTrainer.handle_event] in H.
  - minv. simplify_eq. by right.
  - destruct (bool_decide_reflect
                (ReactionTrainer.phase (ReactionTrainer.state m) = ReactionTrainer.SUMMARY))
      as [Hs|Hs]; cbn [negb] in H.
    + minv. simplify_eq. by right.
    + apply bind_Ok_inv in H as (m1 & w1 & Hstop & H).
      apply ret_Ok_inv in H as [[= <- <-] <-]. by left.
  - minv. simplify_eq. by right.
  - minv. simplify_eq. by right.
  - destruct (bool_decide (joy = js_get_id)); [|minv; simplify_eq; by right].
    apply bind_Ok_inv in H as (m1 & w1 & Hb & H).
    apply ret_Ok_inv in H as [[= <- <-] <-].
    unfold ReactionTrainer.on_button in Hb.
    destruct (bool_decide_reflect
                (ReactionTrainer.phase (ReactionTrainer.state m) = ReactionTrainer.SUMMARY))
      as [Hs|Hs]; cbn [negb] in Hb.
    + rewrite andb_false_r in Hb. right.
      destruct (dict_lookup ReactionTrainer.DEFAULT_XBOX_FACE idx) as [pressed|].
      * rewrite Hs in Hb. minv. by simplify_eq.
      * unfold ReactionTrainer.set_feedback in Hb. minv. simplify_eq. cbn.
        split; [done|]. split; [done|]. by intros [].
    + rewrite andb_true_r in Hb.
      destruct (bool_decide (idx = ReactionTrainer.START_BUTTON_INDEX)); [by left|].
      right.
      unfold ReactionTrainer.set_feedback, ReactionTrainer.schedule_ready,
        ReactionTrainer.rand_delay_s in Hb.
      destruct (dict_lookup ReactionTrainer.DEFAULT_XBOX_FACE idx) as [pressed|].
      2:{ minv. simplify_eq. cbn. done. }
      destruct (ReactionTrainer.phase (ReactionTrainer.state m)) eqn:Hph; [| |done].
      * minv. simplify_eq. cbn. done.
      * destruct (negb _); [minv; simplify_eq; cbn; rewrite ?Hph; done|].
        destruct (ReactionTrainer.go_shown_t (ReactionTrainer.state m));
          minv; simplify_eq; cbn; done.
  - minv. simplify_eq. by right.
Qed.

Lemma rt_progress_cases (now : Q) (m m' : ReactionTrainer.Machine) (w w' : World) :
  ReactionTrainer.progress now m w = Ok (m', w') ->
  ReactionTrainer.summary_lines m' = ReactionTrainer.summary_lines m
  /\ ReactionTrainer.session m' = ReactionTrainer.session m
  /\ ReactionTrainer.running m' = ReactionTrainer.running m
  /\ (ReactionTrainer.phase (ReactionTrainer.state m') = ReactionTrainer.SUMMARY <->
      ReactionTrainer.phase (ReactionTrainer.state m) = ReactionTrainer.SUMMARY).
Proof.
  unfold ReactionTrainer.progress, ReactionTrainer.show_go. intros H.
  destruct (bool_decide_reflect
              (ReactionTrainer.phase (ReactionTrainer.state m) = ReactionTrainer.READY))
    as [Hr|Hr]; cbn [andb] in H; [|minv; by simplify_eq].
  destruct (Qle_bool _ now); minv; simplify_eq; [|done]. cbn. rewrite Hr.
  repeat split; done.
Qed.

Lemma v1_event_cases (now : Q) (e : event) (m m' : XboxGamepadTrainer.Machine) (b : bool)
      (w w' : World) :
  XboxGamepadTrainer.handle_event now e m w = Ok ((m', b), w') ->
  (XboxGamepadTrainer.phase m <> XboxGamepadTrainer.summary
   /\ XboxGamepadTrainer.stop m w = Ok (m', w'))
  \/ (XboxGamepadTrainer.summary_lines m' = XboxGamepadTrainer.summary_lines m
      /\ (XboxGamepadTrainer.phase m = XboxGamepadTrainer.summary ->
          XboxGamepadTrainer.phase m' = XboxGamepadTrainer.summary
          /\ XboxGamepadTrainer.stats m' = XboxGamepadTrainer.stats m)
      /\ (XboxGamepadTrainer.phase m <> XboxGamepadTrainer.summary ->
          XboxGamepadTrainer.phase m' <> XboxGamepadTrainer.summary)).
Proof.
  intros H.
  destruct e as [|[| |]|joy idx|]; cbn [XboxGamepadTrainer.handle_event] in H.
  - minv. simplify_eq. by right.
  - destruct (bool_decide_reflect (XboxGamepadTrainer.phase m = XboxGamepadTrainer.summary))
      as [Hs|Hs]; cbn [negb] in H.
    + minv. simplify_eq. by right.
    + apply bind_Ok_inv in H as (m1 & w1 & Hstop & H).
      apply ret_Ok_inv in H as [[= <- <-] <-]. by left.
  - minv. simplify_eq. by right.
  - minv. simplify_eq. by right.
  - destruct (bool_decide (joy = js_get_id)); [|minv; simplify_eq; by right].
    destruct (bool_decide_reflect (XboxGamepadTrainer.phase m = XboxGamepadTrainer.summary))
      as [Hs|Hs]; cbn [negb] in H.
    + rewrite andb_false_r in H. rewrite Hs in H.
      rewrite bool_decide_eq_false_2 in H by done. minv. simplify_eq. by right.
    + rewrite andb_true_r in H.
      destruct (bool_decide (idx = 7)).
      { apply bind_Ok_inv in H as (m1 & w1 & Hstop & H).
        apply ret_Ok_inv in H as [[= <- <-] <-]. by left. }
      right.
      destruct (bool_decide_reflect (XboxGamepadTrainer.phase m = XboxGamepadTrainer.prompt))
        as [Hp|Hp]; [|minv; by simplify_eq].
      apply bind_Ok_inv in H as (m1 & w1 & Hb & H).
      apply ret_Ok_inv in H as [[= <- <-] <-].
      unfold XboxGamepadTrainer.on_prompt_button in Hb.
      destruct (dict_lookup XboxGamepadTrainer.DEFAULT_XBOX_FACE idx) as [pressed|];
        [|minv; by simplify_eq].
      destruct (bool_decide (pressed = _)); minv; simplify_eq; cbn; done.
  - minv. simplify_eq. by right.
Qed.

Lemma v1_progress_cases (now : Q) (m m' : XboxGamepadTrainer.Machine) (w w' : World) :
  XboxGamepadTrainer.progress now m w = Ok (m', w') ->
  XboxGamepadTrainer.summary_lines m' = XboxGamepadTrainer.summary_lines m
  /\ XboxGamepadTrainer.stats m' = XboxGamepadTrainer.stats m
  /\ XboxGamepadTrainer.running m' = XboxGamepadTrainer.running m
  /\ (XboxGamepadTrainer.phase m' = XboxGamepadTrainer.summary <->
      XboxGamepadTrainer.phase m = XboxGamepadTrainer.summary).
Proof.
  unfold XboxGamepadTrainer.progress. intros H.
  destruct (bool_decide_reflect (XboxGamepadTrainer.phase m = XboxGamepadTrainer.delay))
    as [Hr|Hr]; cbn [andb] in H; [|minv; by simplify_eq].
  destruct (Qle_bool _ now); minv; simplify_eq; [|done]. cbn. rewrite Hr.
  repeat split; done.
Qed.

Lemma v2_record_press_files (lbl : label) (now : Q) (m m' : XboxGamepadTrainerV2.Machine)
      (w w' : World) :
  XboxGamepadTrainerV2.record_press lbl now m w = Ok (m', w') ->
  XboxGamepadTrainerV2.summary_lines m' = XboxGamepadTrainerV2.summary_lines m
  /\ XboxGamepadTrainerV2.results_file m' = XboxGamepadTrainerV2.results_file m
  /\ XboxGamepadTrainerV2.running m' = XboxGamepadTrainerV2.running m
  /\ (XboxGamepadTrainerV2.phase m' = XboxGamepadTrainerV2.delay
      \/ XboxGamepadTrainerV2.phase m' = XboxGamepadTrainerV2.phase m).
Proof.
  unfold XboxGamepadTrainerV2.record_press. cbv zeta. intros H.
  destruct (bool_decide (lbl = _)).
  - minv. destruct a0 as [b bag']. minv. simplify_eq. cbn.
    repeat split; try done. by left.
  - minv. simplify_eq. cbn. repeat split; try done. by right.
Qed.
End SummaryPhase.

Section SummaryPhaseV2.
Import Pygame.

Lemma v2_event_cases (now : Q) (e : event) (m m' : XboxGamepadTrainerV2.Machine)
      (w w' : World) :
  XboxGamepadTrainerV2.handle_event now e m w = Ok (m', w') ->
  (XboxGamepadTrainerV2.phase m <> XboxGamepadTrainerV2.summary
   /\ XboxGamepadTrainerV2.start_summary m w = Ok (m', w'))
  \/ (XboxGamepadTrainerV2.summary_lines m' = XboxGamepadTrainerV2.summary_lines m
      /\ XboxGamepadTrainerV2.results_file m' = XboxGamepadTrainerV2.results_file m
      /\ (XboxGamepadTrainerV2.phase m = XboxGamepadTrainerV2.summary ->
          XboxGamepadTrainerV2.phase m' = XboxGamepadTrainerV2.summary
          /\ XboxGamepadTrainerV2.stats m' = XboxGamepadTrainerV2.stats m)
      /\ (XboxGamepadTrainerV2.phase m <> XboxGamepadTrainerV2.summary ->
          XboxGamepadTrainerV2.phase m' <> XboxGamepadTrainerV2.summary)).
Proof.
  intros H.
  destruct e as [|[| |]|joy idx|]; cbn [XboxGamepadTrainerV2.handle_event] in H.
  - minv. simplify_eq. by right.
  - destruct (bool_decide_reflect
                (XboxGamepadTrainerV2.phase m = XboxGamepadTrainerV2.summary))
      as [Hs|Hs]; cbn [negb] in H; [|by left].
    minv. simplify_eq. by right.
  - minv. simplify_eq. by right.
  - minv. simplify_eq. by right.
  - destruct (bool_decide_reflect
                (XboxGamepadTrainerV2.phase m = XboxGamepadTrainerV2.prompt))
      as [Hp|Hp]; [|minv; simplify_eq; by right].
    destruct (bool_decide (idx = 7)); [left; split; [congruence|done]|].
    destruct (dict_lookup XboxGamepadTrainerV2.btn_index_to_label idx) as [lbl|];
      [|minv; simplify_eq; by right].
    destruct (XboxGamepadTrainerV2.nonempty lbl); [|minv; simplify_eq; by right].
    apply v2_record_press_files in H as (Hl & Hf & _ & Hph). right.
    split; [done|]. split; [done|]. split; [congruence|].
    intros _. destruct Hph; congruence.
  - minv. simplify_eq. by right.
Qed.

Lemma v2_poll_cases (now : Q) (axes : list Q) (ax : nat * label)
      (m m' : XboxGamepadTrainerV2.Machine) (w w' : World) :
  XboxGamepadTrainerV2.poll_axis now axes ax m w = Ok (m', w') ->
  XboxGamepadTrainerV2.summary_lines m' = XboxGamepadTrainerV2.summary_lines m
  /\ XboxGamepadTrainerV2.results_file m' = XboxGamepadTrainerV2.results_file m
  /\ XboxGamepadTrainerV2.running m' = XboxGamepadTrainerV2.running m.
Proof.
  intros H. destruct ax as [i name]. unfold XboxGamepadTrainerV2.poll_axis in H.
  destruct (Nat.leb (length axes) i); [minv; by simplify_eq|].
  apply bind_Ok_inv in H as (v & w1 & _ & H).
  apply bind_Ok_inv in H as (fire & w2 & _ & H).
  apply bind_Ok_inv in H as (m1 & w3 & Hpress & H).
  apply ret_Ok_inv in H as [<- <-].
  assert (XboxGamepadTrainerV2.summary_lines m1 = XboxGamepadTrainerV2.summary_lines m
          /\ XboxGamepadTrainerV2.results_file m1 = XboxGamepadTrainerV2.results_file m
          /\ XboxGamepadTrainerV2.running m1 = XboxGamepadTrainerV2.running m).
  { destruct fire; [|minv; by simplify_eq].
    by apply v2_record_press_files in Hpress as (Hl & Hf & Hr & _). }
  by destruct (Qltb v XboxGamepadTrainerV2.TRIGGER_RELEASE).
Qed.

Lemma v2_progress_cases (now : Q) (m m' : XboxGamepadTrainerV2.Machine) (w w' : World) :
  XboxGamepadTrainerV2.progress now m w = Ok (m', w') ->
  XboxGamepadTrainerV2.summary_lines m' = XboxGamepadTrainerV2.summary_lines m
  /\ XboxGamepadTrainerV2.results_file m' = XboxGamepadTrainerV2.results_file m
  /\ XboxGamepadTrainerV2.stats m' = XboxGamepadTrainerV2.stats m
  /\ XboxGamepadTrainerV2.running m' = XboxGamepadTrainerV2.running m
  /\ (XboxGamepadTrainerV2.phase m' = XboxGamepadTrainerV2.summary <->
      XboxGamepadTrainerV2.phase m = XboxGamepadTrainerV2.summary).
Proof.
  unfold XboxGamepadTrainerV2.progress. intros H.
  destruct (bool_decide_reflect (XboxGamepadTrainerV2.phase m = XboxGamepadTrainerV2.delay))
    as [Hr|Hr]; cbn [andb] in H; [|minv; by simplify_eq].
  destruct (Qle_bool _ now); minv; simplify_eq; [|done]. cbn. rewrite Hr.
  repeat split; done.
Qed.

(** X4. The summary is final.  From a state in which the summary is shown,
    however many more turns the loop runs and whatever they bring (events,
    trigger positions), the program stays in the summary, records nothing
    more, and shows the same report; the v2 trainer writes nothing more to
    the results file. *)
Theorem summary_is_final (fs : list frame_input) :
  (forall m w m' w',
      ReactionTrainer.loop fs m w = Ok (m', w') ->
      ReactionTrainer.phase (ReactionTrainer.state m) = ReactionTrainer.SUMMARY ->
      ReactionTrainer.phase (ReactionTrainer.state m') = ReactionTrainer.SUMMARY
      /\ ReactionTrainer.session m' = ReactionTrainer.session m
      /\ ReactionTrainer.summary_lines m' = ReactionTrainer.summary_lines m)
  /\ (forall m w m' w',
        XboxGamepadTrainer.loop fs m w = Ok (m', w') ->
        XboxGamepadTrainer.phase m = XboxGamepadTrainer.summary ->
        XboxGamepadTrainer.phase m' = XboxGamepadTrainer.summary
        /\ XboxGamepadTrainer.stats m' = XboxGamepadTrainer.stats m
        /\ XboxGamepadTrainer.summary_lines m' = XboxGamepadTrainer.summary_lines m)
  /\ (forall m w m' w',
        XboxGamepadTrainerV2.loop fs m w = Ok (m', w') ->
        XboxGamepadTrainerV2.phase m = XboxGamepadTrainerV2.summary ->
        XboxGamepadTrainerV2.phase m' = XboxGamepadTrainerV2.summary
        /\ XboxGamepadTrainerV2.stats m' = XboxGamepadTrainerV2.stats m
        /\ XboxGamepadTrainerV2.summary_lines m' = XboxGamepadTrainerV2.summary_lines m
        /\ XboxGamepadTrainerV2.results_file m' = XboxGamepadTrainerV2.results_file m).
Proof.
  split; [|split]; intros m w m' w' Hloop Hph.
  - eapply (rt_loop_ind
              (fun m' => ReactionTrainer.phase (ReactionTrainer.state m')
                         = ReactionTrainer.SUMMARY
                         /\ ReactionTrainer.session m' = ReactionTrainer.session m
                         /\ ReactionTrainer.summary_lines m'
                            = ReactionTrainer.summary_lines m));
      [| |by repeat split|exact Hloop].
    + intros now e m1 w1 m2 b w2 (H1 & H2 & H3) Hev.
      apply rt_event_cases in Hev as [[Hne _]|(Hl & Hs & _)]; [done|].
      destruct (Hs H1) as [? ?]. repeat split; congruence.
    + intros now m1 w1 m2 w2 (H1 & H2 & H3) Hp.
      apply rt_progress_cases in Hp as (Hl & Hs & _ & Hiff).
      repeat split; [by apply Hiff|congruence..].
  - eapply (v1_loop_ind
              (fun m' => XboxGamepadTrainer.phase m' = XboxGamepadTrainer.summary
                         /\ XboxGamepadTrainer.stats m' = XboxGamepadTrainer.stats m
                         /\ XboxGamepadTrainer.summary_lines m'
                            = XboxGamepadTrainer.summary_lines m));
      [| |by repeat split|exact Hloop].
    + intros now e m1 w1 m2 b w2 (H1 & H2 & H3) Hev.
      apply v1_event_cases in Hev as [[Hne _]|(Hl & Hs & _)]; [done|].
      destruct (Hs H1) as [? ?]. repeat split; congruence.
    + intros now m1 w1 m2 w2 (H1 & H2 & H3) Hp.
      apply v1_progress_cases in Hp as (Hl & Hs & _ & Hiff).
      repeat split; [by apply Hiff|congruence..].
  - eapply (v2_loop_ind
              (fun m' => XboxGamepadTrainerV2.phase m' = XboxGamepadTrainerV2.summary
                         /\ XboxGamepadTrainerV2.stats m' = XboxGamepadTrainerV2.stats m
                         /\ XboxGamepadTrainerV2.summary_lines m'
                            = XboxGamepadTrainerV2.summary_lines m
                         /\ XboxGamepadTrainerV2.results_file m'
                            = XboxGamepadTrainerV2.results_file m));
      [| | |by repeat split|exact Hloop].
    + intros now e m1 w1 m2 w2 (H1 & H2 & H3 & H4) Hev.
      apply v2_event_cases in Hev as [[Hne _]|(Hl & Hf & Hs & _)]; [done|].
      destruct (Hs H1) as [? ?]. repeat split; congruence.
    + intros now axes ax m1 w1 m2 w2 _ Hne (H1 & _). done.
    + intros now m1 w1 m2 w2 (H1 & H2 & H3 & H4) Hp.
      apply v2_progress_cases in Hp as (Hl & Hf & Hs & _ & Hiff).
      repeat split; [by apply Hiff|congruence..].
Qed.

(** X5. At the end of every run of a program, the report on display is
    the report of the session as it stands: nothing is on display before
    the player stops the session, and afterwards the lines shown are those
    that the report function gives for the final session.  The v2 trainer
    has appended to the results file exactly one block, that same report,
    if the session was stopped, and nothing otherwise. *)
Theorem report_is_of_final_session (fs : list frame_input) (w : World) :
  (forall m w',
      ReactionTrainer.main fs w = Ok (m, w') ->
      (ReactionTrainer.phase (ReactionTrainer.state m) <> ReactionTrainer.SUMMARY
       /\ ReactionTrainer.summary_lines m = [])
      \/ (ReactionTrainer.phase (ReactionTrainer.state m) = ReactionTrainer.SUMMARY
          /\ Session.summary_lines ReactionTrainer.TARGET_BUTTONS (ReactionTrainer.session m)
             = Ok (ReactionTrainer.summary_lines m)))
  /\ (forall m w',
        XboxGamepadTrainer.main fs w = Ok (m, w') ->
        (XboxGamepadTrainer.phase m <> XboxGamepadTrainer.summary
         /\ XboxGamepadTrainer.summary_lines m = [])
        \/ (XboxGamepadTrainer.phase m = XboxGamepadTrainer.summary
            /\ XboxGamepadTrainer.summary_text (XboxGamepadTrainer.stats m)
               = Ok (XboxGamepadTrainer.summary_lines m)))
  /\ (forall m w',
        XboxGamepadTrainerV2.main fs w = Ok (m, w') ->
        (XboxGamepadTrainerV2.phase m <> XboxGamepadTrainerV2.summary
         /\ XboxGamepadTrainerV2.summary_lines m = []
         /\ XboxGamepadTrainerV2.results_file m = [])
        \/ (XboxGamepadTrainerV2.phase m = XboxGamepadTrainerV2.summary
            /\ XboxGamepadTrainerV2.summary_text (XboxGamepadTrainerV2.stats m)
               = Ok (XboxGamepadTrainerV2.summary_lines m)
            /\ XboxGamepadTrainerV2.results_file m
               = [XboxGamepadTrainerV2.summary_lines m])).
Proof.
  split; [|split]; intros m w' Hmain.
  - unfold ReactionTrainer.main in Hmain.
    apply bind_Ok_inv in Hmain as (m0 & w0 & Hinit & Hloop).
    eapply (rt_loop_ind
              (fun m =>
                 (ReactionTrainer.phase (ReactionTrainer.state m) <> ReactionTrainer.SUMMARY
                  /\ ReactionTrainer.summary_lines m = [])
                 \/ (ReactionTrainer.phase (ReactionTrainer.state m) = ReactionTrainer.SUMMARY
                     /\ Session.summary_lines ReactionTrainer.TARGET_BUTTONS
                          (ReactionTrainer.session m)
                        = Ok (ReactionTrainer.summary_lines m))));
      [| | |exact Hloop].
    + intros now e m1 w1 m2 b w2 HJ Hev.
      apply rt_event_cases in Hev as [[Hne Hstop]|(Hl & Hs & Hn)].
      * right. unfold ReactionTrainer.stop in Hstop. minv. by simplify_eq.
      * destruct HJ as [[H1 H2]|[H1 H2]].
        -- left. split; [by apply Hn|congruence].
        -- right. destruct (Hs H1) as [? ?]. split; [done|congruence].
    + intros now m1 w1 m2 w2 HJ Hp.
      apply rt_progress_cases in Hp as (Hl & Hs & _ & Hiff).
      destruct HJ as [[H1 H2]|[H1 H2]].
      * left. split; [by rewrite Hiff|congruence].
      * right. split; [by apply Hiff|congruence].
    + left. unfold ReactionTrainer.init, ReactionTrainer.schedule_ready,
        ReactionTrainer.rand_delay_s in Hinit. minv. by simplify_eq.
  - unfold XboxGamepadTrainer.main in Hmain.
    apply bind_Ok_inv in Hmain as (m0 & w0 & Hinit & Hloop).
    eapply (v1_loop_ind
              (fun m =>
                 (XboxGamepadTrainer.phase m <> XboxGamepadTrainer.summary
                  /\ XboxGamepadTrainer.summary_lines m = [])
                 \/ (XboxGamepadTrainer.phase m = XboxGamepadTrainer.summary
                     /\ XboxGamepadTrainer.summary_text (XboxGamepadTrainer.stats m)
                        = Ok (XboxGamepadTrainer.summary_lines m))));
      [| | |exact Hloop].
    + intros now e m1 w1 m2 b w2 HJ Hev.
      apply v1_event_cases in Hev as [[Hne Hstop]|(Hl & Hs & Hn)].
      * right. unfold XboxGamepadTrainer.stop in Hstop. minv. by simplify_eq.
      * destruct HJ as [[H1 H2]|[H1 H2]].
        -- left. split; [by apply Hn|congruence].
        -- right. destruct (Hs H1) as [? ?]. split; [done|congruence].
    + intros now m1 w1 m2 w2 HJ Hp.
      apply v1_progress_cases in Hp as (Hl & Hs & _ & Hiff).
      destruct HJ as [[H1 H2]|[H1 H2]].
      * left. split; [by rewrite Hiff|congruence].
      * right. split; [by apply Hiff|congruence].
    + left. unfold XboxGamepadTrainer.init in Hinit. minv. by simplify_eq.
  - unfold XboxGamepadTrainerV2.main in Hmain.
    apply bind_Ok_inv in Hmain as (m0 & w0 & Hinit & Hloop).
    eapply (v2_loop_ind
              (fun m =>
                 (XboxGamepadTrainerV2.phase m <> XboxGamepadTrainerV2.summary
                  /\ XboxGamepadTrainerV2.summary_lines m = []
                  /\ XboxGamepadTrainerV2.results_file m = [])
                 \/ (XboxGamepadTrainerV2.phase m = XboxGamepadTrainerV2.summary
                     /\ XboxGamepadTrainerV2.summary_text (XboxGamepadTrainerV2.stats m)
                        = Ok (XboxGamepadTrainerV2.summary_lines m)
                     /\ XboxGamepadTrainerV2.results_file m
                        = [XboxGamepadTrainerV2.summary_lines m])));
      [| | | |exact Hloop].
    + intros now e m1 w1 m2 w2 HJ Hev.
      apply v2_event_cases in Hev as [[Hne Hstop]|(Hl & Hf & Hs & Hn)].
      * right. destruct HJ as [(_ & _ & Hfile)|[H1 _]]; [|done].
        unfold XboxGamepadTrainerV2.start_summary in Hstop. minv. simplify_eq. cbn.
        rewrite Hfile. done.
      * destruct HJ as [(H1 & H2 & H3)|(H1 & H2 & H3)].
        -- left. split; [by apply Hn|]. split; congruence.
        -- right. destruct (Hs H1) as [? ?]. split; [done|]. split; congruence.
    + intros now axes ax m1 w1 m2 w2 Hax Hne HJ Hpoll.
      destruct HJ as [(H1 & H2 & H3)|(H1 & _)]; [|done].
      left. split; [by eapply v2_poll_axis_phase|].
      apply v2_poll_cases in Hpoll as (Hl & Hf & _). split; congruence.
    + intros now m1 w1 m2 w2 HJ Hp.
      apply v2_progress_cases in Hp as (Hl & Hf & Hs & _ & Hiff).
      destruct HJ as [(H1 & H2 & H3)|(H1 & H2 & H3)].
      * left. split; [by rewrite Hiff|]. split; congruence.
      * right. split; [by apply Hiff|]. split; congruence.
    + left. apply v2_init_inv in Hinit as Hi. destruct Hi as (Hd & _).
      split; [congruence|].
      unfold XboxGamepadTrainerV2.init in Hinit. minv. destruct a2 as [b bag1].
      minv. by simplify_eq.
Qed.
End SummaryPhaseV2.

Lemma summary_is_final_witness :
  exists m w m' w',
    XboxGamepadTrainerV2.main [Pygame.mkFrame [Pygame.KEYDOWN Pygame.K_SPACE] []]
      Examples.world_a = Ok (m, w)
    /\ XboxGamepadTrainerV2.phase m = XboxGamepadTrainerV2.summary
    /\ XboxGamepadTrainerV2.loop
         [Pygame.mkFrame [Pygame.JOYBUTTONDOWN 0 0] Examples.both_pulled] m w
       = Ok (m', w')
    /\ XboxGamepadTrainerV2.phase m' = XboxGamepadTrainerV2.summary
    /\ XboxGamepadTrainerV2.stats m' = XboxGamepadTrainerV2.stats m
    /\ XboxGamepadTrainerV2.summary_lines m' = XboxGamepadTrainerV2.summary_lines m
    /\ XboxGamepadTrainerV2.results_file m' = XboxGamepadTrainerV2.results_file m.
Proof.
  eexists _, _, _, _.
  split; [vm_compute; reflexivity|]. split; [reflexivity|].
  match goal with
  | |- ?A /\ _ => assert (Hloop : A) by (vm_compute; reflexivity)
  end.
  split; [exact Hloop|].
  destruct (summary_is_final
              [Pygame.mkFrame [Pygame.JOYBUTTONDOWN 0 0] Examples.both_pulled])
    as (_ & _ & Hv2).
  exact (Hv2 _ _ _ _ Hloop eq_refl).
Defined.

Lemma report_is_of_final_session_witness :
  exists m w',
    XboxGamepadTrainerV2.main [Pygame.mkFrame [Pygame.KEYDOWN Pygame.K_SPACE] []]
      Examples.world_a = Ok (m, w')
    /\ XboxGamepadTrainerV2.phase m = XboxGamepadTrainerV2.summary
    /\ XboxGamepadTrainerV2.summary_text (XboxGamepadTrainerV2.stats m)
       = Ok (XboxGamepadTrainerV2.summary_lines m)
    /\ XboxGamepadTrainerV2.results_file m = [XboxGamepadTrainerV2.summary_lines m].
Proof.
  eexists _, _.
  match goal with
  | |- ?A /\ _ => assert (Hmain : A) by (vm_compute; reflexivity)
  end.
  split; [exact Hmain|].
  destruct (report_is_of_final_session
              [Pygame.mkFrame [Pygame.KEYDOWN Pygame.K_SPACE] []] Examples.world_a)
    as (_ & _ & Hv2).
  destruct (Hv2 _ _ Hmain) as [(Hne & _)|Hsum]; [by destruct Hne|exact Hsum].
Defined.

(** ** What the ledger holds *)

Section LedgerInvariants.
Import Pygame.

Lemma next_cases (self self' : ShuffleBag.t) (a : label) (w w' : World) :
  ShuffleBag.next self w = Ok ((a, self'), w') ->
  ShuffleBag._items self' = ShuffleBag._items self
  /\ (ShuffleBag._bag self = ShuffleBag._bag self' ++ [a]
      \/ (ShuffleBag._bag self = []
          /\ Permutation (ShuffleBag._bag self' ++ [a]) (ShuffleBag._items self))).
Proof.
  destruct self as [items b]. destruct b as [|c b _] using rev_ind.
  - unfold ShuffleBag.next, bind. cbn [ShuffleBag._bag].
    destruct (refill_ok (ShuffleBag.mk items []) w) as (b & w1 & Hr & Hp).
    rewrite Hr. unfold ret, lift, pop. cbn [ShuffleBag._bag ShuffleBag._items] in *.
    destruct b as [|c b _] using rev_ind; [done|].
    rewrite last_snoc, removelast_last. intros [= <- <- <-]. cbn. by split; [|right].
  - rewrite next_nonempty. intros [= <- <- <-]. cbn. by split; [|left].
Qed.

Lemma v2_button_label (idx : nat) (lbl : label) :
  dict_lookup XboxGamepadTrainerV2.btn_index_to_label idx = Some lbl ->
  lbl ∈ XboxGamepadTrainerV2.ALL_TARGETS
  /\ lbl ∈ ["A"; "B"; "X"; "Y"; "LB"; "RB"].
Proof.
  intros H.
  do 6 (destruct idx as [|idx];
        [vm_compute in H; injection H as <-;
         unfold XboxGamepadTrainerV2.ALL_TARGETS; rewrite !elem_of_cons; tauto|]).
  vm_compute in H. discriminate H.
Qed.

Lemma v2_trigger_label (ax : nat * label) :
  ax ∈ XboxGamepadTrainerV2.TRIGGER_AXES -> snd ax ∈ XboxGamepadTrainerV2.ALL_TARGETS.
Proof.
  unfold XboxGamepadTrainerV2.TRIGGER_AXES, XboxGamepadTrainerV2.ALL_TARGETS.
  rewrite !elem_of_cons, elem_of_nil. intros [->|[->|[]]]; cbn [snd]; tauto.
Qed.

(** What [record_press] keeps: the onset, when known, is not after the
    clock reading of the turn; the bag and the target are distinct labels
    of the cycle; the ledger is well formed. *)
Lemma v2_record_press_wf (lbl : label) (now : Q) (m m' : XboxGamepadTrainerV2.Machine)
      (w w' : World) :
  XboxGamepadTrainerV2.record_press lbl now m w = Ok (m', w') ->
  lbl ∈ XboxGamepadTrainerV2.ALL_TARGETS ->
  ShuffleBag._items (XboxGamepadTrainerV2.bag m) = XboxGamepadTrainerV2.ALL_TARGETS ->
  (forall t, XboxGamepadTrainerV2.prompt_shown_t m = Some t -> (t <= now)%Q) ->
  (exists used,
      Permutation (ShuffleBag._bag (XboxGamepadTrainerV2.bag m)
                     ++ XboxGamepadTrainerV2.target_btn m :: used)
                  XboxGamepadTrainerV2.ALL_TARGETS) ->
  Forall (Ledger.attempt_ok XboxGamepadTrainerV2.ALL_TARGETS)
         (SessionStats.attempts (XboxGamepadTrainerV2.stats m)) ->
  (forall t, XboxGamepadTrainerV2.prompt_shown_t m' = Some t -> (t <= now)%Q)
  /\ (exists used,
         Permutation (ShuffleBag._bag (XboxGamepadTrainerV2.bag m')
                        ++ XboxGamepadTrainerV2.target_btn m' :: used)
                     XboxGamepadTrainerV2.ALL_TARGETS)
  /\ Forall (Ledger.attempt_ok XboxGamepadTrainerV2.ALL_TARGETS)
            (SessionStats.attempts (XboxGamepadTrainerV2.stats m')).
Proof.
  intros H Hlbl Hitems Ht (used & Hperm) Hled.
  assert (Htarget : XboxGamepadTrainerV2.target_btn m ∈ XboxGamepadTrainerV2.ALL_TARGETS).
  { rewrite <- Hperm. rewrite elem_of_app, elem_of_cons. tauto. }
  assert (Hnew : forall c,
             c = bool_decide (lbl = XboxGamepadTrainerV2.target_btn m) ->
             Forall (Ledger.attempt_ok XboxGamepadTrainerV2.ALL_TARGETS)
                    (SessionStats.attempts (XboxGamepadTrainerV2.stats m)
                       ++ [SessionStats.mkAttempt (XboxGamepadTrainerV2.target_btn m)
                             (Some lbl)
                             (if XboxGamepadTrainerV2.truthy
                                   (XboxGamepadTrainerV2.prompt_shown_t m)
                              then option_map (fun t => now - t)%Q
                                     (XboxGamepadTrainerV2.prompt_shown_t m)
                              else None) c])).
  { intros c ->. apply Forall_app. split; [done|]. apply Forall_singleton.
    split; [done|]. split; [by exists lbl|]. cbn. intros r Hr.
    destruct (XboxGamepadTrainerV2.truthy _); [|done].
    destruct (XboxGamepadTrainerV2.prompt_shown_t m) as [t|]; [|done].
    injection Hr as <-. specialize (Ht t eq_refl). lra. }
  unfold XboxGamepadTrainerV2.record_press in H. cbv zeta in H.
  destruct (bool_decide (lbl = XboxGamepadTrainerV2.target_btn m)) eqn:Hc.
  - minv. destruct a0 as [b bag']. minv. simplify_eq. cbn.
    split; [done|]. split; [|by apply Hnew].
    apply next_cases in Hc1 as [Hit [Hb|[Hb Hp]]].
    + exists (XboxGamepadTrainerV2.target_btn m :: used).
      rewrite <- Hperm, Hb, <- app_assoc. done.
    + exists []. by rewrite <- Hitems.
  - minv. simplify_eq. cbn. split; [done|]. split; [by exists used|by apply Hnew].
Qed.

Lemma v2_reachable_wf (now : Q) (m : XboxGamepadTrainerV2.Machine) (w : World) :
  V2.reachable now m w ->
  (forall t, XboxGamepadTrainerV2.prompt_shown_t m = Some t -> (t <= now)%Q)
  /\ (exists used,
         Permutation (ShuffleBag._bag (XboxGamepadTrainerV2.bag m)
                        ++ XboxGamepadTrainerV2.target_btn m :: used)
                     XboxGamepadTrainerV2.ALL_TARGETS)
  /\ Forall (Ledger.attempt_ok XboxGamepadTrainerV2.ALL_TARGETS)
            (SessionStats.attempts (XboxGamepadTrainerV2.stats m)).
Proof.
  induction 1 as [w0 m w now w' Hinit Hnow
                 |now m w e m' w' Hreach IH Hev
                 |now m w axes ax m' w' Hreach IH Hax Hpoll
                 |now m w m1 w1 now' w2 Hreach IH Hprog Hnow].
  - unfold XboxGamepadTrainerV2.init in Hinit. minv. destruct a2 as [b bag1].
    minv. simplify_eq. cbn. split; [done|]. split; [|constructor].
    unfold ShuffleBag.__init__ in Hc1.
    match type of Hc1 with
    | ShuffleBag._refill _ ?wx = _ =>
        destruct (refill_ok (ShuffleBag.mk XboxGamepadTrainerV2.ALL_TARGETS []) wx)
          as (b0 & w1' & Hr & Hp)
    end.
    rewrite Hr in Hc1. injection Hc1 as <- <-.
    apply next_cases in Hc2 as [_ [Hb|[Hb _]]]; cbn [ShuffleBag._bag] in Hb.
    + exists []. by rewrite <- Hb.
    + subst b0. apply Permutation_nil_l in Hp. discriminate Hp.
  - destruct (v2_reachable_inv _ _ _ Hreach) as (_ & _ & _ & Hitems & _).
    destruct IH as (Ht & Hperm & Hled).
    destruct e as [|[| |]|joy idx|]; cbn [XboxGamepadTrainerV2.handle_event] in Hev.
    + minv. by simplify_eq.
    + destruct (negb _); [|minv; by simplify_eq].
      unfold XboxGamepadTrainerV2.start_summary in Hev. minv. by simplify_eq.
    + minv. by simplify_eq.
    + minv. by simplify_eq.
    + destruct (bool_decide (_ = XboxGamepadTrainerV2.prompt)); [|minv; by simplify_eq].
      destruct (bool_decide (idx = 7)).
      { unfold XboxGamepadTrainerV2.start_summary in Hev. minv. by simplify_eq. }
      destruct (dict_lookup XboxGamepadTrainerV2.btn_index_to_label idx) as [lbl|] eqn:Hl;
        [|minv; by simplify_eq].
      destruct (XboxGamepadTrainerV2.nonempty lbl); [|minv; by simplify_eq].
      eapply v2_record_press_wf; [exact Hev|by apply v2_button_label in Hl as [? _]|done..].
    + minv. by simplify_eq.
  - destruct (v2_reachable_inv _ _ _ Hreach) as (_ & _ & _ & Hitems & _).
    destruct IH as (Ht & Hperm & Hled).
    apply v2_trigger_label in Hax. destruct ax as [i name]. cbn [snd] in Hax.
    unfold XboxGamepadTrainerV2.poll_axis in Hpoll.
    destruct (Nat.leb (length axes) i); [minv; by simplify_eq|].
    apply bind_Ok_inv in Hpoll as (v & w3 & _ & Hpoll).
    apply bind_Ok_inv in Hpoll as (fire & w4 & _ & Hpoll).
    apply bind_Ok_inv in Hpoll as (m2 & w5 & Hpress & Hpoll).
    apply ret_Ok_inv in Hpoll as [<- <-].
    assert (Hm2 : (forall t, XboxGamepadTrainerV2.prompt_shown_t m2 = Some t -> (t <= now)%Q)
                  /\ (exists used,
                         Permutation (ShuffleBag._bag (XboxGamepadTrainerV2.bag m2)
                                        ++ XboxGamepadTrainerV2.target_btn m2 :: used)
                                     XboxGamepadTrainerV2.ALL_TARGETS)
                  /\ Forall (Ledger.attempt_ok XboxGamepadTrainerV2.ALL_TARGETS)
                            (SessionStats.attempts (XboxGamepadTrainerV2.stats m2))).
    { destruct fire; [|minv; by simplify_eq].
      eapply v2_record_press_wf; [exact Hpress|done..]. }
    by destruct (Qltb v XboxGamepadTrainerV2.TRIGGER_RELEASE).
  - destruct (v2_reachable_inv _ _ _ Hreach) as ([_ Hclock] & _).
    destruct IH as (Ht & Hperm & Hled).
    unfold XboxGamepadTrainerV2.progress in Hprog.
    destruct (_ && _).
    + apply bind_Ok_inv in Hprog as (t & w3 & Hr & Hprog).
      apply ret_Ok_inv in Hprog as [<- <-]. cbn. split; [|done].
      intros t' [= <-]. minv. subst. apply seconds_le. lia.
    + minv. simplify_eq. split; [|done]. intros t Hsome.
      specialize (Ht t Hsome).
      assert (seconds (clock_ns w1) <= seconds (clock_ns w2))%Q
        by (apply seconds_le; lia).
      lra.
Qed.
End LedgerInvariants.

Section LedgerInvariantsFace.
Import Pygame.

Lemma face_label (idx : nat) (lbl : label) :
  dict_lookup [(0, "A"); (1, "B"); (2, "X"); (3, "Y")] idx = Some lbl ->
  lbl ∈ ["A"; "B"; "X"; "Y"].
Proof.
  intros H.
  do 4 (destruct idx as [|idx];
        [vm_compute in H; injection H as <-; rewrite !elem_of_cons; tauto|]).
  vm_compute in H. discriminate H.
Qed.

Lemma v1_reachable_wf (now : Q) (m : XboxGamepadTrainer.Machine) (w : World) :
  V1.reachable now m w ->
  XboxGamepadTrainer.target_btn m ∈ XboxGamepadTrainer.FACE_BUTTONS
  /\ Forall (fun a => Ledger.attempt_ok XboxGamepadTrainer.FACE_BUTTONS a
                      /\ Ledger.timed a)
            (SessionStats.attempts (XboxGamepadTrainer.stats m)).
Proof.
  induction 1 as [w0 m w now w' Hinit Hnow
                 |now m w e m' brk w' Hreach IH Hev
                 |now m w m1 w1 now' w2 Hreach IH Hprog Hnow].
  - unfold XboxGamepadTrainer.init in Hinit. minv. simplify_eq. cbn.
    split; [done|constructor].
  - destruct (v1_reachable_inv _ _ _ Hreach) as [_ Hgo]. destruct IH as [Ht Hled].
    destruct e as [|[| |]|joy idx|]; cbn [XboxGamepadTrainer.handle_event] in Hev.
    + minv. by simplify_eq.
    + destruct (negb _); minv; simplify_eq; [|done].
      unfold XboxGamepadTrainer.stop in Hc. minv. by simplify_eq.
    + minv. by simplify_eq.
    + minv. by simplify_eq.
    + destruct (bool_decide (joy = js_get_id)); [|minv; by simplify_eq].
      destruct (_ && _).
      { minv. simplify_eq. unfold XboxGamepadTrainer.stop in Hc. minv. by simplify_eq. }
      destruct (bool_decide_reflect
                  (XboxGamepadTrainer.phase m = XboxGamepadTrainer.prompt)) as [Hp|Hp];
        [|minv; by simplify_eq].
      destruct (Hgo Hp) as (t & Hshown & Hle).
      apply bind_Ok_inv in Hev as (m1 & w1 & Hb & Hev).
      apply ret_Ok_inv in Hev as [[= <- <-] <-].
      unfold XboxGamepadTrainer.on_prompt_button in Hb.
      destruct (dict_lookup XboxGamepadTrainer.DEFAULT_XBOX_FACE idx) as [pressed|] eqn:Hl;
        [|minv; by simplify_eq].
      apply face_label in Hl. rewrite Hshown in Hb. cbv zeta in Hb.
      assert (Hnew : forall c,
                 c = bool_decide (pressed = XboxGamepadTrainer.target_btn m) ->
                 Forall (fun a => Ledger.attempt_ok XboxGamepadTrainer.FACE_BUTTONS a
                                  /\ Ledger.timed a)
                        (SessionStats.attempts (XboxGamepadTrainer.stats m)
                           ++ [SessionStats.mkAttempt (XboxGamepadTrainer.target_btn m)
                                 (Some pressed) (Some (now - t)%Q) c])).
      { intros c ->. apply Forall_app. split; [done|]. apply Forall_singleton.
        split; [|by eexists]. split; [done|]. split; [by exists pressed|].
        cbn. intros r [= <-]. lra. }
      destruct (bool_decide (pressed = _)) eqn:Hc.
      * minv. simplify_eq. cbn. split; [done|by apply Hnew].
      * minv. simplify_eq. cbn. split; [done|by apply Hnew].
    + minv. by simplify_eq.
  - unfold XboxGamepadTrainer.progress in Hprog.
    destruct (_ && _); minv; by simplify_eq.
Qed.

Lemma rt_reachable_wf (now : Q) (m : ReactionTrainer.Machine) (w : World) :
  RT.reachable now m w ->
  ReactionTrainer.target (ReactionTrainer.state m) ∈ ReactionTrainer.TARGET_BUTTONS
  /\ Forall (Ledger.trial_ok ReactionTrainer.TARGET_BUTTONS)
            (Session.trials (ReactionTrainer.session m)).
Proof.
  induction 1 as [w0 m w now w' Hinit Hnow
                 |now m w e m' brk w' Hreach IH Hev
                 |now m w m1 w1 now' w2 Hreach IH Hprog Hnow].
  - unfold ReactionTrainer.init, ReactionTrainer.schedule_ready,
      ReactionTrainer.rand_delay_s in Hinit. minv. simplify_eq. cbn.
    split; [done|constructor].
  - destruct (rt_reachable_inv _ _ _ Hreach) as [_ Hgo]. destruct IH as [Ht Hled].
    destruct e as [|[| |]|joy idx|]; cbn [ReactionTrainer.handle_event] in Hev.
    + minv. by simplify_eq.
    + destruct (negb _); minv; simplify_eq; [|done].
      unfold ReactionTrainer.stop in Hc. minv. by simplify_eq.
    + minv. by simplify_eq.
    + minv. by simplify_eq.
    + destruct (bool_decide (joy = js_get_id)); [|minv; by simplify_eq].
      apply bind_Ok_inv in Hev as (m1 & w1 & Hb & Hev).
      apply ret_Ok_inv in Hev as [[= <- <-] <-].
      unfold ReactionTrainer.on_button in Hb.
      destruct (_ && _).
      { unfold ReactionTrainer.stop in Hb. minv. by simplify_eq. }
      unfold ReactionTrainer.set_feedback, ReactionTrainer.schedule_ready,
        ReactionTrainer.rand_delay_s in Hb.
      destruct (dict_lookup ReactionTrainer.DEFAULT_XBOX_FACE idx) as [pressed|];
        [|minv; by simplify_eq].
      destruct (ReactionTrainer.phase (ReactionTrainer.state m)) eqn:Hph.
      * minv. by simplify_eq.
      * destruct (Hgo eq_refl) as (t & Hshown & Hle).
        destruct (negb _); [minv; by simplify_eq|].
        rewrite Hshown in Hb. minv. simplify_eq. cbn. split; [done|].
        apply Forall_app. split; [done|]. apply Forall_singleton.
        split; [done|]. cbn. lra.
      * minv. by simplify_eq.
    + minv. by simplify_eq.
  - unfold ReactionTrainer.progress, ReactionTrainer.show_go in Hprog.
    destruct (_ && _); minv; by simplify_eq.
Qed.

(** X6. The ledgers are well formed in every state the programs reach.
    reaction-trainer.py: every trial is on a configured target and its
    reaction time is not negative.  xbox-gamepad-trainer.py: every attempt
    has a target and a pressed button among A, B, X, Y, is marked correct
    exactly when the two are the same, and has a reaction time, which is
    not negative.  xbox-gamepad-trainer-v2.py: the same over the eight
    targets, but for the reaction time, which may be missing and is not
    negative when it is there. *)
Theorem ledgers_well_formed :
  (forall now m w,
      RT.reachable now m w ->
      Forall (Ledger.trial_ok ReactionTrainer.TARGET_BUTTONS)
             (Session.trials (ReactionTrainer.session m)))
  /\ (forall now m w,
        V1.reachable now m w ->
        Forall (fun a => Ledger.attempt_ok XboxGamepadTrainer.FACE_BUTTONS a
                         /\ Ledger.timed a)
               (SessionStats.attempts (XboxGamepadTrainer.stats m)))
  /\ (forall now m w,
        V2.reachable now m w ->
        Forall (Ledger.attempt_ok XboxGamepadTrainerV2.ALL_TARGETS)
               (SessionStats.attempts (XboxGamepadTrainerV2.stats m))).
Proof.
  split; [|split]; intros now m w Hreach.
  - by apply rt_reachable_wf in Hreach as [_ ?].
  - by apply v1_reachable_wf in Hreach as [_ ?].
  - by apply v2_reachable_wf in Hreach as (_ & _ & ?).
Qed.
End LedgerInvariantsFace.

(** A state the v2 trainer reaches with one attempt in its ledger: the
    first target, ["A"], answered with the A button. *)
Lemma example_answered_a :
  exists now m w,
    V2.reachable now m w
    /\ SessionStats.attempts (XboxGamepadTrainerV2.stats m) <> [].
Proof.
  assert (H : exists m w,
             XboxGamepadTrainerV2.main
               [Pygame.mkFrame [] []; Pygame.mkFrame [Pygame.JOYBUTTONDOWN 0 0] []]
               Examples.world_a = Ok (m, w)
             /\ SessionStats.attempts (XboxGamepadTrainerV2.stats m) <> []).
  { eexists _, _. split; [vm_compute; reflexivity|done]. }
  destruct H as (m & w & Hmain & Hne).
  eexists _, m, _. split; [|exact Hne].
  eapply v2_main_reachable; [exact Hmain|reflexivity].
Defined.

Lemma ledgers_well_formed_witness :
  exists now m w,
    V2.reachable now m w
    /\ SessionStats.attempts (XboxGamepadTrainerV2.stats m) <> []
    /\ Forall (Ledger.attempt_ok XboxGamepadTrainerV2.ALL_TARGETS)
              (SessionStats.attempts (XboxGamepadTrainerV2.stats m)).
Proof.
  destruct example_answered_a as (now & m & w & Hreach & Hne).
  destruct ledgers_well_formed as (_ & _ & Hv2).
  exists now, m, w. split; [done|]. split; [done|]. by eapply Hv2.
Defined.

Section Cycle.
Import Pygame.

Lemma all_targets_nodup : NoDup XboxGamepadTrainerV2.ALL_TARGETS.
Proof.
  apply (bool_decide_unpack (NoDup XboxGamepadTrainerV2.ALL_TARGETS)).
  vm_compute. exact I.
Qed.

(** X7. The target and the bag of the v2 trainer, in every state it
    reaches: the target is one of the eight labels and is not in the bag,
    the bag holds distinct labels of the eight, at most seven of them.  So
    a correct answer given while the bag is not empty brings a target that
    differs from the one just answered, and takes it out of the bag. *)
Theorem next_target_differs (now : Q) (m : XboxGamepadTrainerV2.Machine) (w : World) :
  V2.reachable now m w ->
  XboxGamepadTrainerV2.target_btn m ∈ XboxGamepadTrainerV2.ALL_TARGETS
  /\ (XboxGamepadTrainerV2.target_btn m ∉ ShuffleBag._bag (XboxGamepadTrainerV2.bag m))
  /\ NoDup (ShuffleBag._bag (XboxGamepadTrainerV2.bag m))
  /\ (forall x, x ∈ ShuffleBag._bag (XboxGamepadTrainerV2.bag m) ->
                x ∈ XboxGamepadTrainerV2.ALL_TARGETS)
  /\ ShuffleBag.remaining (XboxGamepadTrainerV2.bag m) <= 7
  /\ forall t w0 m' w',
      ShuffleBag._bag (XboxGamepadTrainerV2.bag m) <> [] ->
      XboxGamepadTrainerV2.record_press (XboxGamepadTrainerV2.target_btn m) t m w0
      = Ok (m', w') ->
      XboxGamepadTrainerV2.target_btn m' <> XboxGamepadTrainerV2.target_btn m
      /\ ShuffleBag._bag (XboxGamepadTrainerV2.bag m)
         = ShuffleBag._bag (XboxGamepadTrainerV2.bag m')
             ++ [XboxGamepadTrainerV2.target_btn m'].
Proof.
  intros (_ & (used & Hperm) & _)%v2_reachable_wf.
  assert (Hnd : NoDup (ShuffleBag._bag (XboxGamepadTrainerV2.bag m)
                         ++ XboxGamepadTrainerV2.target_btn m :: used))
    by (rewrite Hperm; apply all_targets_nodup).
  apply NoDup_app in Hnd as (Hbag & Hdisj & Hrest).
  assert (Hnotin : XboxGamepadTrainerV2.target_btn m
                   ∉ ShuffleBag._bag (XboxGamepadTrainerV2.bag m)).
  { intros Hin. apply (Hdisj _ Hin). apply list_elem_of_here. }
  split; [rewrite <- Hperm, elem_of_app, elem_of_cons; tauto|].
  split; [done|]. split; [done|].
  split; [intros x Hx; rewrite <- Hperm, elem_of_app; tauto|].
  split.
  { apply Permutation_length in Hperm. rewrite length_app in Hperm.
    cbn in Hperm. unfold ShuffleBag.remaining. lia. }
  intros t w0 m' w' Hne H.
  unfold XboxGamepadTrainerV2.record_press in H. cbv zeta in H.
  rewrite bool_decide_eq_true_2 in H by done.
  minv. destruct a0 as [b bag']. minv. simplify_eq. cbn.
  apply next_cases in Hc0 as [_ [Hb|[Hb _]]]; [|done].
  split; [|done]. intros ->. apply Hnotin. rewrite Hb, elem_of_app, list_elem_of_singleton.
  tauto.
Qed.
End Cycle.

Lemma next_target_differs_witness :
  exists now m w,
    V2.reachable now m w
    /\ (XboxGamepadTrainerV2.target_btn m ∉ ShuffleBag._bag (XboxGamepadTrainerV2.bag m))
    /\ ShuffleBag.remaining (XboxGamepadTrainerV2.bag m) <= 7.
Proof.
  destruct example_answered_a as (now & m & w & Hreach & _).
  destruct (next_target_differs now m w Hreach) as (_ & Hnotin & _ & _ & Hrem & _).
  by exists now, m, w.
Defined.

Section Drawing.
Import Pygame Display.

Lemma attempts_hud_ok (remaining : option nat) (stats : SessionStats.t) (now : Q)
      (fb : feedback) (t : Q) :
  exists hud, attempts_hud remaining stats now fb t = Ok hud.
Proof.
  unfold attempts_hud. cbv zeta.
  destruct (SessionStats.attempts stats) as [|a l]; [by eexists|].
  cbn [length]. unfold truediv.
  change (inject_Z (Z.of_nat (S (length l)))) with (Qlen (a :: l)).
  rewrite Qlen_nonzero by done. by eexists.
Qed.

(** X8. The drawing of a turn never raises in the gamepad trainers: in
    every state they reach, the target on display has an entry in
    [BUTTON_COLORS], and the accuracy of the head-up display is computed
    without a division by zero. *)
Theorem draw_never_raises :
  (forall now m w t,
      V1.reachable now m w -> exists s, XboxGamepadTrainerDisplay.draw t m = Ok s)
  /\ (forall now m w t,
        V2.reachable now m w -> exists s, XboxGamepadTrainerV2Display.draw t m = Ok s).
Proof.
  split; intros now m w t Hreach.
  - apply v1_reachable_wf in Hreach as [Htarget _].
    unfold XboxGamepadTrainerDisplay.draw.
    destruct (attempts_hud_ok None (XboxGamepadTrainer.stats m) t
                (XboxGamepadTrainer.last_feedback m) (XboxGamepadTrainer.last_feedback_t m))
      as [hud Hhud].
    rewrite Hhud.
    destruct (XboxGamepadTrainer.phase m); [by eexists| |by eexists].
    destruct (dict_lookup_key XboxGamepadTrainerDisplay.BUTTON_COLORS
                (XboxGamepadTrainer.target_btn m) Htarget) as [c Hc].
    unfold dict_getitem. rewrite Hc. by eexists.
  - apply v2_reachable_wf in Hreach as (_ & (used & Hperm) & _).
    assert (Htarget : XboxGamepadTrainerV2.target_btn m
                      ∈ XboxGamepadTrainerV2.ALL_TARGETS)
      by (rewrite <- Hperm, elem_of_app, elem_of_cons; tauto).
    unfold XboxGamepadTrainerV2Display.draw.
    destruct (attempts_hud_ok
                (Some (ShuffleBag.remaining (XboxGamepadTrainerV2.bag m)))
                (XboxGamepadTrainerV2.stats m) t
                (XboxGamepadTrainerV2.last_feedback m)
                (XboxGamepadTrainerV2.last_feedback_t m)) as [hud Hhud].
    rewrite Hhud.
    destruct (XboxGamepadTrainerV2.phase m); [by eexists| |by eexists].
    destruct (dict_lookup_key XboxGamepadTrainerV2Display.BUTTON_COLORS
                (XboxGamepadTrainerV2.target_btn m) Htarget) as [c Hc].
    unfold dict_getitem. rewrite Hc. by eexists.
Qed.
End Drawing.

Lemma draw_never_raises_witness :
  exists now m w s,
    V2.reachable now m w
    /\ XboxGamepadTrainerV2.phase m = XboxGamepadTrainerV2.prompt
    /\ XboxGamepadTrainerV2Display.draw now m = Ok s.
Proof.
  destruct example_prompt_a as (now & m & w & Hreach & Hph & _).
  destruct draw_never_raises as (_ & Hv2).
  destruct (Hv2 now m w now Hreach) as [s Hs].
  by exists now, m, w, s.
Defined.

(** ** The aggregates of the report *)

Section Aggregates.

Lemma foldl_min_spec (r : list Q) : forall x : Q,
  let f := foldl (fun m y => if Qltb y m then y else m) x r in
  f ∈ x :: r /\ (f <= x)%Q /\ forall y, y ∈ r -> (f <= y)%Q.
Proof.
  induction r as [|z r IH]; intros x; cbn.
  - split; [apply list_elem_of_here|]. split; [apply Qle_refl|].
    by intros y ?%elem_of_nil.
  - destruct (Qltb z x) eqn:E.
    + apply Qltb_true in E. destruct (IH z) as (Hin & Hle & Hall).
      split; [by apply list_elem_of_further|]. split; [lra|].
      intros y [->|Hy]%elem_of_cons; [done|by apply Hall].
    + apply Qltb_false in E. destruct (IH x) as (Hin & Hle & Hall).
      split.
      { apply elem_of_cons in Hin as [->|Hin]; [apply list_elem_of_here|].
        by do 2 apply list_elem_of_further. }
      split; [done|]. intros y [->|Hy]%elem_of_cons; [lra|by apply Hall].
Qed.

Lemma foldl_max_spec (r : list Q) : forall x : Q,
  let f := foldl (fun m y => if Qltb m y then y else m) x r in
  f ∈ x :: r /\ (x <= f)%Q /\ forall y, y ∈ r -> (y <= f)%Q.
Proof.
  induction r as [|z r IH]; intros x; cbn.
  - split; [apply list_elem_of_here|]. split; [apply Qle_refl|].
    by intros y ?%elem_of_nil.
  - destruct (Qltb x z) eqn:E.
    + apply Qltb_true in E. destruct (IH z) as (Hin & Hle & Hall).
      split; [by apply list_elem_of_further|]. split; [lra|].
      intros y [->|Hy]%elem_of_cons; [done|by apply Hall].
    + apply Qltb_false in E. destruct (IH x) as (Hin & Hle & Hall).
      split.
      { apply elem_of_cons in Hin as [->|Hin]; [apply list_elem_of_here|].
        by do 2 apply list_elem_of_further. }
      split; [done|]. intros y [->|Hy]%elem_of_cons; [lra|by apply Hall].
Qed.

Lemma min_spec (data : list Q) (f : Q) :
  Builtins.min data = Ok f -> f ∈ data /\ forall y, y ∈ data -> (f <= y)%Q.
Proof.
  destruct data as [|x r]; [done|]. cbn. intros [= <-].
  destruct (foldl_min_spec r x) as (Hin & Hle & Hall).
  split; [done|]. intros y [->|Hy]%elem_of_cons; [done|by apply Hall].
Qed.

Lemma max_spec (data : list Q) (s : Q) :
  Builtins.max data = Ok s -> s ∈ data /\ forall y, y ∈ data -> (y <= s)%Q.
Proof.
  destruct data as [|x r]; [done|]. cbn. intros [= <-].
  destruct (foldl_max_spec r x) as (Hin & Hle & Hall).
  split; [done|]. intros y [->|Hy]%elem_of_cons; [done|by apply Hall].
Qed.

Lemma Qlen_cons {A} (x : A) (l : list A) : (Qlen (x :: l) == Qlen l + 1)%Q.
Proof.
  unfold Qlen. cbn [length]. rewrite Nat2Z.inj_succ, <- Z.add_1_r, inject_Z_plus.
  reflexivity.
Qed.

Lemma Qlen_pos {A} (l : list A) : l <> [] -> (0 < Qlen l)%Q.
Proof.
  destruct l as [|x l]; [done|]. intros _. unfold Qlen, Qlt. cbn. lia.
Qed.

Lemma sum_bounds (lo hi : Q) (data : list Q) :
  (forall y, y ∈ data -> (lo <= y)%Q /\ (y <= hi)%Q) ->
  (lo * Qlen data <= Builtins.sum data)%Q /\ (Builtins.sum data <= hi * Qlen data)%Q.
Proof.
  induction data as [|x l IH]; intros Hall.
  - change (Qlen (@nil Q)) with 0%Q. change (Builtins.sum []) with 0%Q. split; lra.
  - destruct IH as [IH1 IH2].
    { intros y Hy. apply Hall. by apply list_elem_of_further. }
    destruct (Hall x (list_elem_of_here _ _)) as [Hx1 Hx2].
    rewrite Qlen_cons. cbn [Builtins.sum foldr]. fold (Builtins.sum l). split; lra.
Qed.

Lemma mean_bounds (lo hi : Q) (data : list Q) (a : Q) :
  (forall y, y ∈ data -> (lo <= y)%Q /\ (y <= hi)%Q) ->
  mean data = Ok a -> (lo <= a)%Q /\ (a <= hi)%Q.
Proof.
  intros Hall Hm. destruct data as [|x l] eqn:E; [done|]. rewrite <- E in *.
  assert (Hne : data <> []) by (by rewrite E).
  rewrite (mean_ok _ Hne) in Hm. injection Hm as <-.
  destruct (sum_bounds lo hi data Hall) as [H1 H2].
  pose proof (Qlen_pos data Hne) as Hpos.
  split; [by apply Qle_shift_div_l|by apply Qle_shift_div_r].
Qed.

Lemma getitem_elem {A} (l : list A) (i : nat) (a : A) :
  getitem l i = Ok a -> a ∈ l.
Proof.
  unfold getitem. destruct (l !! i) as [b|] eqn:E; [|done].
  intros [= <-]. by eapply list_elem_of_lookup_2.
Qed.

Lemma median_bounds (lo hi : Q) (data : list Q) (d : Q) :
  (forall y, y ∈ data -> (lo <= y)%Q /\ (y <= hi)%Q) ->
  median data = Ok d -> (lo <= d)%Q /\ (d <= hi)%Q.
Proof.
  intros Hall. unfold median. cbv zeta.
  assert (Hs : forall y, y ∈ sorted data -> (lo <= y)%Q /\ (y <= hi)%Q).
  { intros y Hy. apply Hall. unfold sorted in Hy. by rewrite sorted_by_perm in Hy. }
  destruct (length (sorted data)) as [|n]; [done|].
  destruct (Nat.eqb (S n mod 2) 1).
  - intros Hg. apply getitem_elem in Hg. by apply Hs.
  - destruct (getitem (sorted data) (S n / 2 - 1)) as [x|] eqn:Hx; [|done].
    destruct (getitem (sorted data) (S n / 2)) as [y|] eqn:Hy; [|done].
    cbn [rbind]. unfold truediv. change (Qeq_bool 2 0) with false. cbv iota.
    intros [= <-].
    apply getitem_elem, Hs in Hx. apply getitem_elem, Hs in Hy.
    split; [apply Qle_shift_div_l; lra|apply Qle_shift_div_r; lra].
Qed.

(** The four aggregates of a list of reaction times *)
Lemma aggregates_bounds (data : list Q) (a d f s : Q) :
  mean data = Ok a -> median data = Ok d ->
  Builtins.min data = Ok f -> Builtins.max data = Ok s ->
  f ∈ data /\ s ∈ data
  /\ (f <= a)%Q /\ (a <= s)%Q /\ (f <= d)%Q /\ (d <= s)%Q.
Proof.
  intros Ha Hd [Hf Hmin]%min_spec [Hs Hmax]%max_spec.
  assert (Hall : forall y, y ∈ data -> (f <= y)%Q /\ (y <= s)%Q)
    by (intros y Hy; split; [by apply Hmin|by apply Hmax]).
  destruct (mean_bounds f s data a Hall Ha).
  destruct (median_bounds f s data d Hall Hd).
  done.
Qed.
End Aggregates.

Section ReportAggregates.

Lemma filter_nil_elem {A} (f : A -> bool) (l : list A) (x : A) :
  List.filter f l = [] -> x ∈ l -> f x = false.
Proof.
  induction l as [|y l IH]; cbn; [by intros _ ?%elem_of_nil|].
  destruct (f y) eqn:E; [done|].
  intros Hf [->|Hx]%elem_of_cons; [done|by apply IH].
Qed.

Lemma mapM_elem {A B} (f : A -> result B) (l : list A) : forall (bs : list B) (b : B),
  mapM f l = Ok bs -> b ∈ bs -> exists a, a ∈ l /\ f a = Ok b.
Proof.
  induction l as [|a l IH]; intros bs b; cbn [mapM].
  - intros [= <-] ?%elem_of_nil. done.
  - destruct (f a) as [b0|] eqn:Ha; [|done]. cbn [rbind].
    destruct (mapM f l) as [bs0|] eqn:Hl; [|done]. cbn [rbind].
    intros [= <-] [->|Hb]%elem_of_cons.
    + exists a. split; [apply list_elem_of_here|done].
    + destruct (IH bs0 b eq_refl Hb) as (a' & Ha' & Hf).
      exists a'. split; [by apply list_elem_of_further|done].
Qed.

(** The cases of a membership in a list given by its elements and blocks *)
Ltac mem_cases H :=
  repeat first [ apply elem_of_nil in H; destruct H
               | apply elem_of_cons in H as [H|H]
               | apply elem_of_app in H as [H|H] ].

(** A mean, median, fastest or slowest line of the report of the gamepad
    trainers is one of the four lines of its reaction block. *)
Lemma aggregate_line (buttons : list label) (self : SessionStats.t) (lines : list line)
      (x : line) :
  SessionStats.summary_text buttons self = Ok lines ->
  x ∈ lines -> is_latency_aggregate x = true ->
  exists m md lo hi,
    mean (SessionStats._correct_reactions self) = Ok m
    /\ median (SessionStats._correct_reactions self) = Ok md
    /\ Builtins.min (SessionStats._correct_reactions self) = Ok lo
    /\ Builtins.max (SessionStats._correct_reactions self) = Ok hi
    /\ x ∈ [Mean (ms m); Median (ms md); Fastest (ms lo); Slowest (ms hi)].
Proof.
  intros H Hx Hagg.
  destruct (summary_text_blocks buttons self) as (acc & rl & pb & Heq & _ & Hrl & Hpb).
  rewrite Heq in H. injection H as <-.
  apply button_lines_projections in Hpb as (_ & _ & _ & _ & Hpb).
  destruct (mistake_lines_projections self) as (_ & _ & _ & _ & Hml).
  mem_cases Hx; try (subst x; discriminate Hagg).
  - unfold reaction_block in Hrl. cbv zeta in Hrl.
    destruct (SessionStats._correct_reactions self) as [|r rs].
    + subst rl. mem_cases Hx; subst x; discriminate Hagg.
    + destruct Hrl as (m & md & lo & hi & Hm & Hmd & Hlo & Hhi & ->).
      exists m, md, lo, hi. repeat split; try done.
      mem_cases Hx; try (subst x; discriminate Hagg);
        subst x; rewrite !elem_of_cons; tauto.
  - apply (filter_nil_elem _ _ _ Hpb) in Hx. congruence.
  - apply (filter_nil_elem _ _ _ Hml) in Hx. congruence.
Qed.

(** The same for the report of reaction-trainer.py. *)
Lemma rt_aggregate_line (TB : list label) (self : Session.t) (lines : list line)
      (x : line) :
  Session.summary_lines TB self = Ok lines ->
  x ∈ lines -> is_latency_aggregate x = true ->
  exists m md lo hi,
    mean (Session.reaction_times self) = Ok m
    /\ median (Session.reaction_times self) = Ok md
    /\ Builtins.min (Session.reaction_times self) = Ok lo
    /\ Builtins.max (Session.reaction_times self) = Ok hi
    /\ x ∈ [Mean (ms m); Median (ms md); Fastest (ms lo); Slowest (ms hi)].
Proof.
  intros H Hx Hagg.
  unfold Session.summary_lines, Session.reaction_lines in H. cbv zeta in H.
  destruct (length (Session.reaction_times self)).
  { cbn in H. injection H as <-. mem_cases Hx; subst x; discriminate Hagg. }
  destruct (mean (Session.reaction_times self)) as [m|]; [|done].
  destruct (median (Session.reaction_times self)) as [md|]; [|done].
  destruct (Builtins.min (Session.reaction_times self)) as [lo|]; [|done].
  destruct (Builtins.max (Session.reaction_times self)) as [hi|]; [|done].
  cbn [rbind] in H. exists m, md, lo, hi. repeat split; try done.
  destruct (Nat.ltb 1 (length TB)).
  - destruct (mapM _ TB) as [pb|] eqn:Hpb; [|done]. cbn [rbind] in H.
    injection H as <-.
    mem_cases Hx; try (subst x; discriminate Hagg);
      try (subst x; rewrite !elem_of_cons; tauto).
    destruct (mapM_elem _ _ _ _ Hpb Hx) as (b & _ & Hb).
    unfold Session.button_line in Hb. cbv zeta in Hb.
    destruct (dict_get _ b []); [by injection Hb as <-|].
    destruct (mean _); [|done]. destruct (median _); [|done].
    cbn [rbind] in Hb. by injection Hb as <-.
  - cbn [rbind] in H. injection H as <-.
    mem_cases Hx; try (subst x; discriminate Hagg);
      subst x; rewrite !elem_of_cons; tauto.
Qed.

Lemma aggregate_lines_ordered (data : list Q) (m md lo hi : Q) (lines : list line)
      (f s : Q) :
  mean data = Ok m -> median data = Ok md ->
  Builtins.min data = Ok lo -> Builtins.max data = Ok hi ->
  (forall x, x ∈ lines -> is_latency_aggregate x = true ->
             x ∈ [Mean (ms m); Median (ms md); Fastest (ms lo); Slowest (ms hi)]) ->
  Fastest f ∈ lines -> Slowest s ∈ lines ->
  (exists lo hi, lo ∈ data /\ hi ∈ data /\ f = ms lo /\ s = ms hi)
  /\ (forall a, Mean a ∈ lines -> (f <= a)%Q /\ (a <= s)%Q)
  /\ (forall d, Median d ∈ lines -> (f <= d)%Q /\ (d <= s)%Q).
Proof.
  intros Hm Hmd Hlo Hhi Hagg Hf Hs.
  destruct (aggregates_bounds data m md lo hi Hm Hmd Hlo Hhi)
    as (Hlo_in & Hhi_in & H1 & H2 & H3 & H4).
  assert (Hcase : forall x, x ∈ lines -> is_latency_aggregate x = true ->
                            x = Mean (ms m) \/ x = Median (ms md)
                            \/ x = Fastest (ms lo) \/ x = Slowest (ms hi)).
  { intros x Hx Hxa. specialize (Hagg x Hx Hxa).
    rewrite !elem_of_cons, elem_of_nil in Hagg. tauto. }
  destruct (Hcase _ Hf eq_refl) as [?|[?|[[= ->]|?]]]; try discriminate.
  destruct (Hcase _ Hs eq_refl) as [?|[?|[?|[= ->]]]]; try discriminate.
  split; [by exists lo, hi|]. unfold ms. split.
  - intros a Ha. destruct (Hcase _ Ha eq_refl) as [[= ->]|[?|[?|?]]]; try discriminate.
    unfold ms. split; lra.
  - intros d Hd. destruct (Hcase _ Hd eq_refl) as [?|[[= ->]|[?|?]]]; try discriminate.
    unfold ms. split; lra.
Qed.

(** X9. The aggregates of a report are consistent with each other.  In
    every report of the three programs, the fastest and the slowest time
    on display are reaction times of the session (of correct attempts, for
    the gamepad trainers), in milliseconds, and the mean and the median on
    display lie between them. *)
Theorem report_aggregates_ordered :
  (forall buttons self lines f s,
      SessionStats.summary_text buttons self = Ok lines ->
      Fastest f ∈ lines -> Slowest s ∈ lines ->
      (exists lo hi,
          lo ∈ SessionStats._correct_reactions self
          /\ hi ∈ SessionStats._correct_reactions self
          /\ f = ms lo /\ s = ms hi)
      /\ (forall a, Mean a ∈ lines -> (f <= a)%Q /\ (a <= s)%Q)
      /\ (forall d, Median d ∈ lines -> (f <= d)%Q /\ (d <= s)%Q))
  /\ (forall TB self lines f s,
        Session.summary_lines TB self = Ok lines ->
        Fastest f ∈ lines -> Slowest s ∈ lines ->
        (exists lo hi,
            lo ∈ Session.reaction_times self /\ hi ∈ Session.reaction_times self
            /\ f = ms lo /\ s = ms hi)
        /\ (forall a, Mean a ∈ lines -> (f <= a)%Q /\ (a <= s)%Q)
        /\ (forall d, Median d ∈ lines -> (f <= d)%Q /\ (d <= s)%Q)).
Proof.
  split.
  - intros buttons self lines f s H Hf Hs.
    destruct (aggregate_line _ _ _ _ H Hf eq_refl) as (m & md & lo & hi & Hm & Hmd & Hlo & Hhi & _).
    eapply aggregate_lines_ordered; try done.
    intros x Hx Hxa.
    destruct (aggregate_line _ _ _ _ H Hx Hxa) as (m' & md' & lo' & hi' & Hm' & Hmd' & Hlo' & Hhi' & Hin).
    congruence.
  - intros TB self lines f s H Hf Hs.
    destruct (rt_aggregate_line _ _ _ _ H Hf eq_refl) as (m & md & lo & hi & Hm & Hmd & Hlo & Hhi & _).
    eapply aggregate_lines_ordered; try done.
    intros x Hx Hxa.
    destruct (rt_aggregate_line _ _ _ _ H Hx Hxa) as (m' & md' & lo' & hi' & Hm' & Hmd' & Hlo' & Hhi' & Hin).
    congruence.
Qed.
End ReportAggregates.

Lemma report_aggregates_ordered_witness :
  exists lines f s,
    SessionStats.summary_text XboxGamepadTrainer.FACE_BUTTONS
      (SessionStats.mk
         [SessionStats.mkAttempt "A" (Some "A") (Some (1 # 2)%Q) true;
          SessionStats.mkAttempt "B" (Some "X") (Some (1 # 3)%Q) false;
          SessionStats.mkAttempt "B" (Some "B") (Some (1 # 4)%Q) true])
    = Ok lines
    /\ Fastest f ∈ lines /\ Slowest s ∈ lines
    /\ (forall a, Mean a ∈ lines -> (f <= a)%Q /\ (a <= s)%Q)
    /\ (forall d, Median d ∈ lines -> (f <= d)%Q /\ (d <= s)%Q).
Proof.
  eexists _, _, _.
  match goal with
  | |- ?A /\ _ => assert (Hsum : A) by (vm_compute; reflexivity)
  end.
  split; [exact Hsum|].
  match goal with
  | |- ?A /\ _ =>
      assert (Hf : A) by (do 10 apply list_elem_of_further; apply list_elem_of_here)
  end.
  split; [exact Hf|].
  match goal with
  | |- ?A /\ _ =>
      assert (Hs : A) by (do 11 apply list_elem_of_further; apply list_elem_of_here)
  end.
  split; [exact Hs|].
  destruct report_aggregates_ordered as [Hgamepad _].
  destruct (Hgamepad _ _ _ _ _ Hsum Hf Hs) as (_ & Hmean & Hmedian).
  split; [exact Hmean|exact Hmedian].
Defined.

(** ** The counts of the report *)

Section Counts.
Import Display.

Lemma accuracy_range (c n : nat) :
  c <= n -> 0 < n ->
  let a := (inject_Z (Z.of_nat c) / inject_Z (Z.of_nat n) * 100)%Q in
  (0 <= a)%Q /\ (a <= 100)%Q /\ ((a == 100)%Q <-> c = n) /\ ((a == 0)%Q <-> c = 0).
Proof.
  intros Hc Hn a.
  assert (HN : (0 < inject_Z (Z.of_nat n))%Q).
  { unfold Qlt. cbn. lia. }
  assert (HC : (0 <= inject_Z (Z.of_nat c))%Q).
  { unfold Qle. cbn. lia. }
  assert (HCN : (inject_Z (Z.of_nat c) <= inject_Z (Z.of_nat n))%Q).
  { rewrite <- Zle_Qle. lia. }
  assert (Hq : (inject_Z (Z.of_nat c)
                == inject_Z (Z.of_nat c) / inject_Z (Z.of_nat n)
                   * inject_Z (Z.of_nat n))%Q).
  { field. intros H0. rewrite H0 in HN. by apply Qlt_irrefl in HN. }
  assert (Hq0 : (0 <= inject_Z (Z.of_nat c) / inject_Z (Z.of_nat n))%Q).
  { apply Qle_shift_div_l; [done|]. lra. }
  assert (Hq1 : (inject_Z (Z.of_nat c) / inject_Z (Z.of_nat n) <= 1)%Q).
  { apply Qle_shift_div_r; [done|]. lra. }
  assert (Hinj : forall x y : nat,
             (inject_Z (Z.of_nat x) == inject_Z (Z.of_nat y))%Q -> x = y).
  { intros x y H. unfold Qeq in H. cbn in H. lia. }
  unfold a. split; [lra|]. split; [lra|]. split; split.
  - intros H. apply Hinj.
    assert (H1 : (inject_Z (Z.of_nat c) / inject_Z (Z.of_nat n) == 1)%Q) by lra.
    rewrite Hq, H1. lra.
  - intros ->.
    assert (H1 : (inject_Z (Z.of_nat n) / inject_Z (Z.of_nat n) == 1)%Q).
    { field. intros H0. rewrite H0 in HN. by apply Qlt_irrefl in HN. }
    rewrite H1. lra.
  - intros H. apply (Hinj c 0).
    assert (H1 : (inject_Z (Z.of_nat c) / inject_Z (Z.of_nat n) == 0)%Q) by lra.
    change (inject_Z (Z.of_nat 0)) with 0%Q. rewrite Hq, H1. ring.
  - intros ->. change (inject_Z (Z.of_nat 0)) with 0%Q.
    assert (H1 : (0 / inject_Z (Z.of_nat n) == 0)%Q).
    { field. intros H0. rewrite H0 in HN. by apply Qlt_irrefl in HN. }
    rewrite H1. lra.
Qed.

(** X10. The counts at the head of the report of the gamepad trainers are
    consistent: the correct attempts are among the attempts, the incorrect
    count is their difference (so it is not negative), the accuracy lies
    between 0 and 100, is 100 exactly when there are attempts and all are
    correct, and is 0 exactly when none is correct.  The head-up display
    shows the same three figures during play. *)
Theorem report_counts_consistent (buttons : list label) (self : SessionStats.t) :
  exists lines n c a,
    SessionStats.summary_text buttons self = Ok lines
    /\ take 6 lines = [Text "SESSION SUMMARY"; Rule; TotalAttempts n; CorrectCount c;
                       IncorrectCount (Z.of_nat (n - c)); Accuracy a]
    /\ n = length (SessionStats.attempts self)
    /\ c <= n
    /\ (0 <= a)%Q /\ (a <= 100)%Q
    /\ ((a == 100)%Q <-> 0 < n /\ c = n)
    /\ ((a == 0)%Q <-> c = 0)
    /\ forall remaining now fb t,
        exists hud,
          attempts_hud remaining self now fb t = Ok hud
          /\ ah_total hud = n /\ ah_correct hud = c /\ ah_accuracy hud = a.
Proof.
  destruct (summary_text_blocks buttons self) as (acc & rl & pb & Hs & Hacc & _).
  set (n := length (SessionStats.attempts self)) in *.
  set (c := length (List.filter SessionStats.correct (SessionStats.attempts self))) in *.
  assert (Hcn : c <= n) by apply filter_length_le.
  rewrite <- Nat2Z.inj_sub in Hs by done.
  eexists _, n, c, acc. split; [exact Hs|].
  split; [reflexivity|].
  split; [done|]. split; [done|].
  assert (Hhud : forall remaining now fb t,
             exists hud,
               attempts_hud remaining self now fb t = Ok hud
               /\ ah_total hud = n /\ ah_correct hud = c /\ ah_accuracy hud = acc).
  { intros remaining now fb t. unfold attempts_hud. cbv zeta.
    unfold SessionStats.accuracy in Hacc. cbv zeta in Hacc. rewrite Hacc.
    cbn [rbind]. by eexists. }
  rewrite accuracy_ok in Hacc. injection Hacc as Hacc.
  destruct (SessionStats.attempts self) as [|a0 l] eqn:E.
  - subst acc. cbn in c, n. subst c n.
    split; [lra|]. split; [lra|]. split; [|split; [done|exact Hhud]].
    split; [intros H; unfold Qeq in H; cbn in H; lia|intros [? _]; lia].
  - assert (Hn : 0 < n) by (unfold n; cbn; lia).
    destruct (accuracy_range c n Hcn Hn) as (H0 & H100 & Heq100 & Heq0).
    unfold Qlen in Hacc. fold c in Hacc. change (length (a0 :: l)) with n in Hacc.
    subst acc. split; [done|]. split; [done|]. split; [|split; [done|exact Hhud]].
    split; [intros H; split; [done|by apply Heq100]|intros [_ H]; by apply Heq100].
Qed.
End Counts.

(** ** The tally of the mistakes *)

Section TallySum.

Lemma list_sum_perm (l k : list nat) : Permutation l k -> list_sum l = list_sum k.
Proof. unfold list_sum. induction 1; cbn [fold_right]; lia. Qed.

Lemma dict_incr_sum {K} `{EqDecision K} (conf : dict K nat) (k : K) :
  list_sum (map snd (dict_set conf k (dict_get conf k 0 + 1)))
  = list_sum (map snd conf) + 1.
Proof.
  unfold list_sum. induction conf as [|[k0 v0] r IH]; [done|].
  cbn [dict_set dict_get].
  destruct (decide (k = k0)) as [->|Hne]; cbn [map snd fold_right]; [lia|].
  rewrite IH. lia.
Qed.

Lemma dict_incr_positive {K} `{EqDecision K} (conf : dict K nat) (k : K) :
  Forall (fun kv => 1 <= snd kv) conf ->
  Forall (fun kv => 1 <= snd kv) (dict_set conf k (dict_get conf k 0 + 1)).
Proof.
  induction conf as [|[k0 v0] r IH]; cbn; intros Hall.
  - repeat constructor.
  - apply Forall_cons in Hall as [H0 Hall].
    destruct (decide (k = k0)) as [->|Hne].
    + constructor; [cbn; lia|done].
    + constructor; [done|by apply IH].
Qed.

Lemma dict_incr_nodup {K} `{EqDecision K} {V} (conf : dict K V) (k : K) (v : V) :
  NoDup (map fst conf) -> NoDup (map fst (dict_set conf k v)).
Proof.
  intros Hnd. rewrite keys_dict_set. case_decide as Hk; [done|].
  apply NoDup_app. repeat split; [done| |apply NoDup_singleton].
  intros y Hy Hy'. apply list_elem_of_singleton in Hy'. by subst.
Qed.

Lemma tally_sum (self : SessionStats.t) :
  NoDup (map fst (SessionStats.tally self))
  /\ Forall (fun kv => 1 <= snd kv) (SessionStats.tally self)
  /\ list_sum (map snd (SessionStats.tally self)) = length (SessionStats.mistakes self).
Proof.
  unfold SessionStats.tally, SessionStats.mistakes.
  assert (H : forall (l : list SessionStats.Attempt) (conf : dict (label * label) nat),
             NoDup (map fst conf) -> Forall (fun kv => 1 <= snd kv) conf ->
             let conf' :=
               foldl (fun conf a =>
                        match SessionStats.correct a, SessionStats.pressed a with
                        | false, Some p =>
                            dict_set conf (SessionStats.target a, p)
                                     (dict_get conf (SessionStats.target a, p) 0 + 1)
                        | _, _ => conf
                        end) conf l in
             NoDup (map fst conf') /\ Forall (fun kv => 1 <= snd kv) conf'
             /\ list_sum (map snd conf')
                = list_sum (map snd conf)
                  + length (omap (fun a =>
                                    match SessionStats.correct a, SessionStats.pressed a with
                                    | false, Some p => Some (SessionStats.target a, p)
                                    | _, _ => None
                                    end) l)).
  { induction l as [|a l IH]; intros conf Hnd Hpos; cbn [foldl omap list_omap].
    - cbn. split; [done|]. split; [done|lia].
    - destruct (SessionStats.correct a), (SessionStats.pressed a) as [p|];
        try (by apply IH).
      destruct (IH (dict_set conf (SessionStats.target a, p)
                             (dict_get conf (SessionStats.target a, p) 0 + 1)))
        as (H1 & H2 & H3);
        [by apply dict_incr_nodup|by apply dict_incr_positive|].
      split; [done|]. split; [done|]. rewrite H3, dict_incr_sum. cbn [length]. lia. }
  destruct (H (SessionStats.attempts self) []) as (H1 & H2 & H3);
    [constructor|constructor|].
  split; [done|]. split; [done|]. rewrite H3. done.
Qed.

Lemma list_sum_positive {A} (f : A -> nat) (l : list A) :
  Forall (fun x => 1 <= f x) l -> length l <= list_sum (map f l).
Proof. unfold list_sum. induction 1; cbn [map fold_right length]; lia. Qed.

(** X11. The tally of the mistakes accounts for every mistake once: its
    keys are distinct, every count is at least 1, and the counts add up to
    the number of incorrect attempts with a known pressed label.  The
    mistakes table of the report never shows more than that, and shows all
    of it exactly when there are at most eight distinct (target, pressed)
    pairs. *)
Theorem mistakes_add_up (buttons : list label) (self : SessionStats.t) :
  NoDup (map fst (SessionStats.tally self))
  /\ Forall (fun kv => 1 <= snd kv) (SessionStats.tally self)
  /\ list_sum (map snd (SessionStats.tally self)) = length (SessionStats.mistakes self)
  /\ exists lines,
      SessionStats.summary_text buttons self = Ok lines
      /\ list_sum (map snd (confusion lines)) <= length (SessionStats.mistakes self)
      /\ (list_sum (map snd (confusion lines)) = length (SessionStats.mistakes self)
          <-> length (SessionStats.tally self) <= 8).
Proof.
  destruct (tally_sum self) as (Hnd & Hpos & Hsum).
  split; [done|]. split; [done|]. split; [done|].
  destruct (summary_text_blocks buttons self) as (acc & rl & pb & Hs & _ & Hrl & Hpb).
  destruct (button_lines_projections self buttons pb Hpb) as (_ & _ & Hp3 & _ & _).
  destruct (mistake_lines_projections self) as (Hm1 & _).
  destruct (reaction_block_projections self rl Hrl) as (Hr1 & _).
  eexists. split; [exact Hs|].
  set (full := sorted_key_reverse snd (SessionStats.tally self)) in *.
  match goal with
  | |- context [confusion ?L] =>
      assert (Hconf : confusion L = take 8 full)
  end.
  { unfold confusion in *. rewrite !omap_app, Hr1, Hp3, Hm1. cbn.
    by rewrite app_nil_r. }
  rewrite Hconf.
  assert (Hperm : Permutation full (SessionStats.tally self)) by apply sorted_by_perm.
  assert (Hfull : list_sum (map snd full) = length (SessionStats.mistakes self)).
  { rewrite <- Hsum. apply list_sum_perm. by apply Permutation_map. }
  assert (Hsplit : list_sum (map snd (take 8 full)) + list_sum (map snd (drop 8 full))
                   = length (SessionStats.mistakes self)).
  { rewrite <- Hfull. rewrite <- (take_drop 8 full) at 3.
    by rewrite map_app, list_sum_app. }
  assert (Hdrop : length (drop 8 full) <= list_sum (map snd (drop 8 full))).
  { apply list_sum_positive, Forall_drop. by rewrite Hperm. }
  rewrite length_drop in Hdrop.
  rewrite <- (Permutation_length Hperm).
  split; [lia|]. split; [lia|].
  intros Hle. rewrite take_ge by lia. done.
Qed.
End TallySum.

(** ** The results screen *)

Section ResultsScreen.
Import Display.

Lemma reaction_block_length (self : SessionStats.t) (rl : list line) :
  reaction_block self rl ->
  length rl = match SessionStats._correct_reactions self with [] => 2 | _ => 6 end.
Proof.
  unfold reaction_block. destruct (SessionStats._correct_reactions self).
  - by intros ->.
  - by intros (? & ? & ? & ? & _ & _ & _ & _ & ->).
Qed.

Lemma tally_nil (self : SessionStats.t) :
  SessionStats.tally self = [] <-> SessionStats.mistakes self = [].
Proof.
  destruct (tally_sum self) as (_ & Hpos & Hsum). split.
  - intros H. rewrite H in Hsum. cbn in Hsum. by destruct (SessionStats.mistakes self).
  - intros H. rewrite H in Hsum. cbn in Hsum.
    apply (list_sum_positive snd) in Hpos. rewrite Hsum in Hpos.
    destruct (SessionStats.tally self); [done|cbn in Hpos; lia].
Qed.

Lemma mistake_lines_length (self : SessionStats.t) :
  length (SessionStats.mistake_lines self)
  = match SessionStats.tally self with
    | [] => 0
    | _ => 2 + Nat.min 8 (length (SessionStats.tally self))
    end.
Proof.
  unfold SessionStats.mistake_lines.
  destruct (SessionStats.tally self) as [|kv conf] eqn:E; [done|].
  rewrite length_app, length_map, length_take.
  unfold sorted_key_reverse. rewrite length_sorted_by. done.
Qed.

(** The report of the gamepad trainers, cut after the per-button lines of
    the first [k] buttons *)
Lemma summary_text_cut (buttons : list label) (self : SessionStats.t) (k : nat) :
  k <= length buttons ->
  exists lines rl pb,
    SessionStats.summary_text buttons self = Ok lines
    /\ reaction_block self rl
    /\ Forall2 (button_block self) buttons pb
    /\ length lines = 6 + length rl + 2 + length buttons
                      + length (SessionStats.mistake_lines self) + 2
    /\ take (6 + length rl + 2 + k) lines
       = take 6 lines ++ rl
           ++ [Blank; Text "Per-button breakdown (correct only):"] ++ take k pb
    /\ confusion (take (6 + length rl + 2 + k) lines) = []
    /\ breakdown (take (6 + length rl + 2 + k) lines)
       = map (fun btn => (btn, SessionStats.button_count self btn)) (take k buttons).
Proof.
  intros Hk.
  destruct (summary_text_blocks buttons self) as (acc & rl & pb & Hs & _ & Hrl & Hpb).
  assert (Hlen : length pb = length buttons) by (symmetry; by eapply Forall2_length).
  match type of Hs with
  | _ = Ok (?c ++ rl ++ (?h ++ pb) ++ ?rest) =>
      set (cl := c) in *; set (hl := h) in *; set (restl := rest) in *
  end.
  assert (Hc6 : length cl = 6) by reflexivity.
  assert (Hh2 : length hl = 2) by reflexivity.
  assert (Htake6 : take 6 (cl ++ rl ++ (hl ++ pb) ++ restl) = cl)
    by (by apply take_app_length').
  assert (Hcut : take (6 + length rl + 2 + k) (cl ++ rl ++ (hl ++ pb) ++ restl)
                 = cl ++ rl ++ hl ++ take k pb).
  { assert (Hsplit : cl ++ rl ++ (hl ++ pb) ++ restl
                     = (cl ++ rl ++ hl ++ take k pb) ++ (drop k pb ++ restl)).
    { rewrite <- (take_drop k pb) at 1. by rewrite <- !app_assoc. }
    rewrite Hsplit. apply take_app_length'.
    rewrite !length_app, length_take, Hc6, Hh2. lia. }
  exists (cl ++ rl ++ (hl ++ pb) ++ restl), rl, pb.
  split; [exact Hs|]. split; [done|]. split; [done|].
  split.
  { rewrite !length_app, Hlen, Hc6, Hh2. unfold restl. rewrite length_app.
    cbn [length]. lia. }
  rewrite Htake6, Hcut. split; [reflexivity|].
  assert (Hpk : Forall2 (button_block self) (take k buttons) (take k pb))
    by (by apply Forall2_take).
  destruct (button_lines_projections self _ _ Hpk) as (Hb1 & _ & Hb3 & _ & _).
  destruct (reaction_block_projections self rl Hrl) as (Hr1 & Hr2).
  unfold confusion, breakdown in *. rewrite !omap_app, Hr1, Hr2, Hb1, Hb3.
  done.
Qed.

(** X12. What the results screen shows of the report (its first 18 lines).
    reaction-trainer.py, as configured: the whole report, without a note.
    xbox-gamepad-trainer.py: the whole report only for a session without a
    timed correct attempt and without a mistake; otherwise the note gives
    the number of lines, and after a timed correct attempt no line of the
    mistakes table is on the screen.  xbox-gamepad-trainer-v2.py: 18 lines
    of a report of at least 20, never a line of the mistakes table; the
    per-button lines on the screen are those of all eight targets when
    there is no timed correct attempt, and of A, B, X, Y only when there is
    one. *)
Theorem results_screen :
  (forall self,
      exists lines,
        Session.summary_lines ReactionTrainer.TARGET_BUTTONS self = Ok lines
        /\ first_lines lines = lines /\ more_lines_note lines = None)
  /\ (forall self,
        exists lines,
          XboxGamepadTrainer.summary_text self = Ok lines
          /\ (more_lines_note lines = None
              <-> SessionStats._correct_reactions self = []
                  /\ SessionStats.mistakes self = [])
          /\ (more_lines_note lines <> None ->
              more_lines_note lines = Some (length lines))
          /\ (SessionStats._correct_reactions self <> [] ->
              confusion (first_lines lines) = []))
  /\ (forall self,
        exists lines,
          XboxGamepadTrainerV2.summary_text self = Ok lines
          /\ length (first_lines lines) = 18 /\ 20 <= length lines
          /\ confusion (first_lines lines) = []
          /\ map fst (breakdown (first_lines lines))
             = match SessionStats._correct_reactions self with
               | [] => XboxGamepadTrainerV2.ALL_TARGETS
               | _ => ["A"; "B"; "X"; "Y"]
               end).
Proof.
  split; [|split]; intros self.
  - unfold Session.summary_lines, Session.reaction_lines, Session.reaction_times.
    cbv zeta. rewrite length_map.
    destruct (Session.trials self) as [|tr trs] eqn:Etr.
    + eexists. split; [reflexivity|]. split; reflexivity.
    + cbn [length].
      assert (Hne : map Session.reaction_s (tr :: trs) <> []) by done.
      destruct (median_ok _ Hne) as [md Hmd].
      destruct (min_ok _ Hne) as [lo Hlo].
      destruct (max_ok _ Hne) as [hi Hhi].
      rewrite (mean_ok _ Hne), Hmd, Hlo, Hhi. cbn [rbind].
      change (Nat.ltb 1 (length ReactionTrainer.TARGET_BUTTONS)) with false. cbv iota.
      cbn [rbind]. eexists. split; [reflexivity|]. split; reflexivity.
  - unfold XboxGamepadTrainer.summary_text.
    destruct (summary_text_cut XboxGamepadTrainer.FACE_BUTTONS self 4)
      as (lines & rl & pb & Hs & Hrl & _ & Hlen & _ & Hconf & _); [done|].
    exists lines. split; [exact Hs|].
    apply reaction_block_length in Hrl.
    rewrite mistake_lines_length in Hlen.
    change (length XboxGamepadTrainer.FACE_BUTTONS) with 4 in Hlen.
    unfold more_lines_note, first_lines.
    pose proof (tally_nil self) as Hnil.
    split; [|split].
    + destruct (Nat.ltb_spec 18 (length lines)) as [Hlt|Hge]; split; try done.
      * intros [Hc Hm]. rewrite Hc in Hrl. apply Hnil in Hm. rewrite Hm in Hlen. lia.
      * intros _.
        destruct (SessionStats._correct_reactions self); [|lia].
        split; [done|]. apply Hnil.
        destruct (SessionStats.tally self) as [|kv conf]; [done|].
        cbn [length] in Hlen. lia.
    + destruct (Nat.ltb 18 (length lines)); done.
    + intros Hne. rewrite Hrl in Hconf.
      destruct (SessionStats._correct_reactions self); [done|]. exact Hconf.
  - unfold XboxGamepadTrainerV2.summary_text.
    destruct (SessionStats._correct_reactions self) as [|r rs] eqn:Hc.
    + destruct (summary_text_cut XboxGamepadTrainerV2.ALL_TARGETS self 8)
        as (lines & rl & pb & Hs & Hrl & _ & Hlen & _ & Hconf & Hbr); [done|].
      exists lines. split; [exact Hs|].
      apply reaction_block_length in Hrl. rewrite Hc in Hrl. rewrite Hrl in *.
      change (length XboxGamepadTrainerV2.ALL_TARGETS) with 8 in Hlen.
      unfold first_lines. change (6 + 2 + 2 + 8) with 18 in *.
      split; [rewrite length_take; lia|]. split; [lia|]. split; [done|].
      rewrite Hbr. reflexivity.
    + destruct (summary_text_cut XboxGamepadTrainerV2.ALL_TARGETS self 4)
        as (lines & rl & pb & Hs & Hrl & _ & Hlen & _ & Hconf & Hbr);
        [cbn; lia|].
      exists lines. split; [exact Hs|].
      apply reaction_block_length in Hrl. rewrite Hc in Hrl. rewrite Hrl in *.
      change (length XboxGamepadTrainerV2.ALL_TARGETS) with 8 in Hlen.
      unfold first_lines. change (6 + 6 + 2 + 4) with 18 in *.
      split; [rewrite length_take; lia|]. split; [lia|]. split; [done|].
      rewrite Hbr. reflexivity.
Qed.
End ResultsScreen.

(** ** Leaving the program *)

Section Quit.
Import Pygame.

Lemma rt_break_quit (now : Q) (e : event) (m m' : ReactionTrainer.Machine) (w w' : World) :
  ReactionTrainer.handle_event now e m w = Ok ((m', true), w') ->
  ReactionTrainer.running m' = false.
Proof.
  intros H. destruct e as [|[| |]|joy idx|]; cbn [ReactionTrainer.handle_event] in H.
  - minv. by simplify_eq.
  - destruct (negb _); minv; by simplify_eq.
  - minv. by simplify_eq.
  - minv. by simplify_eq.
  - destruct (bool_decide _); minv; by simplify_eq.
  - minv. by simplify_eq.
Qed.

Lemma v1_break_quit (now : Q) (e : event) (m m' : XboxGamepadTrainer.Machine)
      (w w' : World) :
  XboxGamepadTrainer.handle_event now e m w = Ok ((m', true), w') ->
  XboxGamepadTrainer.running m' = false.
Proof.
  intros H. destruct e as [|[| |]|joy idx|]; cbn [XboxGamepadTrainer.handle_event] in H.
  - minv. by simplify_eq.
  - destruct (negb _); minv; by simplify_eq.
  - minv. by simplify_eq.
  - minv. by simplify_eq.
  - destruct (bool_decide _); [|minv; by simplify_eq].
    destruct (_ && _); [minv; by simplify_eq|].
    destruct (bool_decide _); minv; by simplify_eq.
  - minv. by simplify_eq.
Qed.

(** In a loop with [break], the events after a quit event are not looked
    at, and the loop ends with [running] false. *)
Lemma for_events_quit {S} (body : event -> S -> M (S * bool)) (running : S -> bool)
      (e : event) (evs2 : list event) :
  (forall s w, exists s', body e s w = Ok ((s', true), w)) ->
  (forall a s w s' w', body a s w = Ok ((s', true), w') -> running s' = false) ->
  forall evs1 s w,
    for_events body (evs1 ++ e :: evs2) s w = for_events body (evs1 ++ [e]) s w
    /\ forall s' w', for_events body (evs1 ++ [e]) s w = Ok (s', w') ->
                     running s' = false.
Proof.
  intros Hquit Hbreak. induction evs1 as [|a evs1 IH]; intros s w.
  - cbn [app for_events]. unfold bind. destruct (Hquit s w) as [s1 Hs1].
    rewrite Hs1. split; [done|]. unfold ret. intros s' w' [= <- <-].
    by eapply Hbreak.
  - cbn [app for_events]. unfold bind.
    destruct (body a s w) as [[[s1 stop] w1]|err] eqn:Ha; [|done].
    destruct stop.
    + split; [done|]. unfold ret. intros s' w' [= <- <-]. by eapply Hbreak.
    + apply IH.
Qed.

Lemma v2_event_running (now : Q) (e : event) (m m' : XboxGamepadTrainerV2.Machine)
      (w w' : World) :
  XboxGamepadTrainerV2.handle_event now e m w = Ok (m', w') ->
  (XboxGamepadTrainerV2.running m = false \/ e = QUIT \/ e = KEYDOWN K_ESCAPE) ->
  XboxGamepadTrainerV2.running m' = false.
Proof.
  intros H Hr.
  assert (Hsum : forall m1 w1,
             XboxGamepadTrainerV2.start_summary m w = Ok (m1, w1) ->
             XboxGamepadTrainerV2.running m1 = XboxGamepadTrainerV2.running m).
  { intros m1 w1 Hs. unfold XboxGamepadTrainerV2.start_summary in Hs. minv.
    by simplify_eq. }
  destruct e as [|[| |]|joy idx|]; cbn [XboxGamepadTrainerV2.handle_event] in H.
  - minv. by simplify_eq.
  - destruct Hr as [Hr|[?|?]]; try done.
    destruct (negb _); [apply Hsum in H; congruence|minv; by simplify_eq].
  - minv. by simplify_eq.
  - destruct Hr as [Hr|[?|?]]; try done. minv. by simplify_eq.
  - destruct Hr as [Hr|[?|?]]; try done.
    destruct (bool_decide (_ = XboxGamepadTrainerV2.prompt)); [|minv; by simplify_eq].
    destruct (bool_decide (idx = 7)); [apply Hsum in H; congruence|].
    destruct (dict_lookup _ idx) as [lbl|]; [|minv; by simplify_eq].
    destruct (XboxGamepadTrainerV2.nonempty lbl); [|minv; by simplify_eq].
    apply v2_record_press_files in H as (_ & _ & Hrun & _). congruence.
  - destruct Hr as [Hr|[?|?]]; try done. minv. by simplify_eq.
Qed.

Lemma v2_events_running (now : Q) (e : event) (evs : list event) :
  forall (m m' : XboxGamepadTrainerV2.Machine) (w w' : World),
    for_each (XboxGamepadTrainerV2.handle_event now) evs m w = Ok (m', w') ->
    (XboxGamepadTrainerV2.running m = false
     \/ ((e = QUIT \/ e = KEYDOWN K_ESCAPE) /\ e ∈ evs)) ->
    XboxGamepadTrainerV2.running m' = false.
Proof.
  induction evs as [|a evs IH]; intros m m' w w' H Hr; cbn [for_each] in H.
  - apply ret_Ok_inv in H as [<- _]. destruct Hr as [Hr|[_ Hin]]; [done|].
    by apply elem_of_nil in Hin.
  - apply bind_Ok_inv in H as (m1 & w1 & Ha & H).
    eapply IH; [exact H|].
    destruct Hr as [Hr|[He Hin]].
    + left. eapply v2_event_running; [exact Ha|by left].
    + apply elem_of_cons in Hin as [->|Hin].
      * left. eapply v2_event_running; [exact Ha|by right].
      * right. done.
Qed.

(** X13. A quit event (closing the window or ESC) ends the run.  In
    reaction-trainer.py and xbox-gamepad-trainer.py the events that follow
    it in the same turn and all later turns are without effect: the run is
    the one in which the quit event is the last thing that happens.  In
    xbox-gamepad-trainer-v2.py the turn is completed (its remaining events
    are handled) and the later turns are without effect. *)
Theorem quit_ends_the_run (e : event) :
  e = QUIT \/ e = KEYDOWN K_ESCAPE ->
  (forall evs1 evs2 ax fs m w,
      ReactionTrainer.loop (mkFrame (evs1 ++ e :: evs2) ax :: fs) m w
      = ReactionTrainer.loop [mkFrame (evs1 ++ [e]) ax] m w)
  /\ (forall evs1 evs2 ax fs m w,
        XboxGamepadTrainer.loop (mkFrame (evs1 ++ e :: evs2) ax :: fs) m w
        = XboxGamepadTrainer.loop [mkFrame (evs1 ++ [e]) ax] m w)
  /\ (forall f fs m w,
        e ∈ events f ->
        XboxGamepadTrainerV2.loop (f :: fs) m w = XboxGamepadTrainerV2.loop [f] m w).
Proof.
  intros He. split; [|split]; [intros evs1 evs2 ax fs m w..|intros f fs m w].
  - assert (Hframe :
        ReactionTrainer.frame (mkFrame (evs1 ++ e :: evs2) ax) m w
        = ReactionTrainer.frame (mkFrame (evs1 ++ [e]) ax) m w
        /\ forall m' w',
            ReactionTrainer.frame (mkFrame (evs1 ++ [e]) ax) m w = Ok (m', w') ->
            ReactionTrainer.running m' = false).
    { unfold ReactionTrainer.frame. cbn [events]. unfold bind, perf_counter.
      match goal with
      | |- context [for_events ?body (evs1 ++ [e]) m ?W] =>
          destruct (for_events_quit body ReactionTrainer.running e evs2) with
            (evs1 := evs1) (s := m) (w := W) as [Heq Hrun]
      end.
      { intros s w0. destruct He as [-> | ->]; by eexists. }
      { intros a s w0 s' w' Ha. by eapply rt_break_quit. }
      rewrite Heq. split; [done|]. intros m' w'.
      destruct (for_events _ (evs1 ++ [e]) m _) as [[m1 w1]|err]; [|done].
      intros Hp. apply rt_progress_cases in Hp as (_ & _ & Hr & _).
      rewrite Hr. by eapply Hrun. }
    destruct Hframe as [Heq Hrun]. cbn [ReactionTrainer.loop].
    destruct (ReactionTrainer.running m); [|done].
    unfold bind. rewrite Heq. clear Heq.
    destruct (ReactionTrainer.frame _ m w) as [[m1 w1]|err]; [|done].
    specialize (Hrun m1 w1 eq_refl).
    destruct fs; cbn [ReactionTrainer.loop]; [done|]. by rewrite Hrun.
  - assert (Hframe :
        XboxGamepadTrainer.frame (mkFrame (evs1 ++ e :: evs2) ax) m w
        = XboxGamepadTrainer.frame (mkFrame (evs1 ++ [e]) ax) m w
        /\ forall m' w',
            XboxGamepadTrainer.frame (mkFrame (evs1 ++ [e]) ax) m w = Ok (m', w') ->
            XboxGamepadTrainer.running m' = false).
    { unfold XboxGamepadTrainer.frame. cbn [events]. unfold bind, perf_counter.
      match goal with
      | |- context [for_events ?body (evs1 ++ [e]) m ?W] =>
          destruct (for_events_quit body XboxGamepadTrainer.running e evs2) with
            (evs1 := evs1) (s := m) (w := W) as [Heq Hrun]
      end.
      { intros s w0. destruct He as [-> | ->]; by eexists. }
      { intros a s w0 s' w' Ha. by eapply v1_break_quit. }
      rewrite Heq. split; [done|]. intros m' w'.
      destruct (for_events _ (evs1 ++ [e]) m _) as [[m1 w1]|err]; [|done].
      intros Hp. apply v1_progress_cases in Hp as (_ & _ & Hr & _).
      rewrite Hr. by eapply Hrun. }
    destruct Hframe as [Heq Hrun]. cbn [XboxGamepadTrainer.loop].
    destruct (XboxGamepadTrainer.running m); [|done].
    unfold bind. rewrite Heq. clear Heq.
    destruct (XboxGamepadTrainer.frame _ m w) as [[m1 w1]|err]; [|done].
    specialize (Hrun m1 w1 eq_refl).
    destruct fs; cbn [XboxGamepadTrainer.loop]; [done|]. by rewrite Hrun.
  - intros Hin. cbn [XboxGamepadTrainerV2.loop].
    destruct (XboxGamepadTrainerV2.running m); [|done].
    unfold bind.
    destruct (XboxGamepadTrainerV2.frame f m w) as [[m1 w1]|err] eqn:Hf; [|done].
    assert (Hrun : XboxGamepadTrainerV2.running m1 = false).
    { unfold XboxGamepadTrainerV2.frame in Hf.
      apply bind_Ok_inv in Hf as (now & w2 & _ & Hf).
      apply bind_Ok_inv in Hf as (m2 & w3 & Hevs & Hf).
      apply bind_Ok_inv in Hf as (m3 & w4 & Hpolls & Hp).
      apply v2_progress_cases in Hp as (_ & _ & _ & Hr & _). rewrite Hr.
      assert (Hm2 : XboxGamepadTrainerV2.running m2 = false).
      { eapply (v2_events_running now e); [exact Hevs|]. right. done. }
      unfold XboxGamepadTrainerV2.poll_triggers in Hpolls.
      destruct (bool_decide _); [|by apply ret_Ok_inv in Hpolls as [<- _]].
      eapply (for_each_ind _ (fun m => XboxGamepadTrainerV2.running m = false));
        [|exact Hm2|exact Hpolls].
      intros ax0 s w0 s' w0' _ Hs Hpoll.
      apply v2_poll_cases in Hpoll as (_ & _ & Hr'). congruence. }
    destruct fs; cbn [XboxGamepadTrainerV2.loop]; [done|]. by rewrite Hrun.
Qed.
End Quit.

Lemma quit_ends_the_run_witness :
  ReactionTrainer.loop
    [Pygame.mkFrame [Pygame.QUIT; Pygame.KEYDOWN Pygame.K_SPACE] [];
     Pygame.mkFrame [Pygame.JOYBUTTONDOWN 0 0] []]
    Examples.rt_waiting Examples.world_a
  = ReactionTrainer.loop [Pygame.mkFrame [Pygame.QUIT] []]
      Examples.rt_waiting Examples.world_a.
Proof.
  destruct (quit_ends_the_run Pygame.QUIT (or_introl eq_refl)) as (Hrt & _ & _).
  apply (Hrt [] [Pygame.KEYDOWN Pygame.K_SPACE] []
             [Pygame.mkFrame [Pygame.JOYBUTTONDOWN 0 0] []]).
Defined.

(** ** A trigger whose axis the joystick does not have *)

Section MissingAxis.
Import Pygame.

Lemma filter_correct_snoc (l : list SessionStats.Attempt) (a : SessionStats.Attempt) :
  SessionStats.correct a = false ->
  List.filter SessionStats.correct (l ++ [a]) = List.filter SessionStats.correct l.
Proof.
  intros Ha. rewrite List.filter_app. cbn. rewrite Ha. apply app_nil_r.
Qed.

(** A press of a control other than the target leaves the prompt as it
    is and adds no correct attempt. *)
Lemma v2_record_press_wrong (lbl : label) (now : Q) (m m' : XboxGamepadTrainerV2.Machine)
      (w w' : World) :
  XboxGamepadTrainerV2.record_press lbl now m w = Ok (m', w') ->
  lbl <> XboxGamepadTrainerV2.target_btn m ->
  XboxGamepadTrainerV2.target_btn m' = XboxGamepadTrainerV2.target_btn m
  /\ XboxGamepadTrainerV2.phase m' = XboxGamepadTrainerV2.phase m
  /\ List.filter SessionStats.correct
       (SessionStats.attempts (XboxGamepadTrainerV2.stats m'))
     = List.filter SessionStats.correct
         (SessionStats.attempts (XboxGamepadTrainerV2.stats m)).
Proof.
  intros H Hne. unfold XboxGamepadTrainerV2.record_press in H. cbv zeta in H.
  rewrite bool_decide_eq_false_2 in H by done. minv. simplify_eq. cbn.
  split; [done|]. split; [done|]. by apply filter_correct_snoc.
Qed.

(** X14. A trigger target cannot be answered on a joystick that lacks its
    axis.  When the v2 trainer shows LT or RT and, in every turn, the
    joystick reports no more axes than the index of that trigger's axis
    (4 for LT, 5 for RT), then however long the loop runs the same target
    stays, no correct attempt is recorded, and the program never goes back
    to a wait: only stopping the session leaves the prompt. *)
Theorem missing_axis_blocks_trigger (i : nat) (fs : list frame_input)
        (m m' : XboxGamepadTrainerV2.Machine) (w w' : World) :
  (i, XboxGamepadTrainerV2.target_btn m) ∈ XboxGamepadTrainerV2.TRIGGER_AXES ->
  Forall (fun f => length (axes f) <= i) fs ->
  XboxGamepadTrainerV2.phase m = XboxGamepadTrainerV2.prompt ->
  XboxGamepadTrainerV2.loop fs m w = Ok (m', w') ->
  XboxGamepadTrainerV2.target_btn m' = XboxGamepadTrainerV2.target_btn m
  /\ XboxGamepadTrainerV2.phase m' <> XboxGamepadTrainerV2.delay
  /\ List.filter SessionStats.correct
       (SessionStats.attempts (XboxGamepadTrainerV2.stats m'))
     = List.filter SessionStats.correct
         (SessionStats.attempts (XboxGamepadTrainerV2.stats m)).
Proof.
  intros Haxis Hfs Hph Hloop.
  remember (XboxGamepadTrainerV2.target_btn m) as T eqn:HT0.
  remember (List.filter SessionStats.correct
              (SessionStats.attempts (XboxGamepadTrainerV2.stats m))) as good eqn:Hgood.
  assert (HT : T = "LT" \/ T = "RT").
  { unfold XboxGamepadTrainerV2.TRIGGER_AXES in Haxis.
    rewrite !elem_of_cons, elem_of_nil in Haxis.
    destruct Haxis as [[= _ ->]|[[= _ ->]|[]]]; tauto. }
  assert (Hm : XboxGamepadTrainerV2.target_btn m = T
               /\ XboxGamepadTrainerV2.phase m <> XboxGamepadTrainerV2.delay
               /\ List.filter SessionStats.correct
                    (SessionStats.attempts (XboxGamepadTrainerV2.stats m))
                  = good) by (subst; rewrite Hph; done).
  clear HT0 Hgood Hph. revert m w Hm Hloop.
  induction Hfs as [|f fs Hf _ IH]; intros m w Hm Hloop;
    cbn [XboxGamepadTrainerV2.loop] in Hloop.
  { by apply ret_Ok_inv in Hloop as [<- _]. }
  destruct (XboxGamepadTrainerV2.running m);
    [|by apply ret_Ok_inv in Hloop as [<- _]].
  apply bind_Ok_inv in Hloop as (m1 & w1 & Hframe & Hloop).
  eapply IH; [|exact Hloop].
  eapply (v2_frame_ind
            (fun m' => XboxGamepadTrainerV2.target_btn m' = T
                       /\ XboxGamepadTrainerV2.phase m' <> XboxGamepadTrainerV2.delay
                       /\ List.filter SessionStats.correct
                            (SessionStats.attempts (XboxGamepadTrainerV2.stats m'))
                          = good) f); [| | |exact Hm|exact Hframe].
  - intros now e m2 w2 m3 w3 (Ht & Hd & Hg) Hev.
    assert (Hsum : forall m4 w4,
               XboxGamepadTrainerV2.start_summary m2 w2 = Ok (m4, w4) ->
               XboxGamepadTrainerV2.target_btn m4 = T
               /\ XboxGamepadTrainerV2.phase m4 <> XboxGamepadTrainerV2.delay
               /\ List.filter SessionStats.correct
                    (SessionStats.attempts (XboxGamepadTrainerV2.stats m4))
                  = good).
    { intros m4 w4 Hs. unfold XboxGamepadTrainerV2.start_summary in Hs. minv.
      by simplify_eq. }
    destruct e as [|[| |]|joy idx|]; cbn [XboxGamepadTrainerV2.handle_event] in Hev.
    + minv. by simplify_eq.
    + destruct (negb _); [by apply Hsum in Hev|minv; by simplify_eq].
    + minv. by simplify_eq.
    + minv. by simplify_eq.
    + destruct (bool_decide (_ = XboxGamepadTrainerV2.prompt)); [|minv; by simplify_eq].
      destruct (bool_decide (idx = 7)); [by apply Hsum in Hev|].
      destruct (dict_lookup XboxGamepadTrainerV2.btn_index_to_label idx) as [lbl|] eqn:Hl;
        [|minv; by simplify_eq].
      destruct (XboxGamepadTrainerV2.nonempty lbl); [|minv; by simplify_eq].
      apply v2_button_label in Hl as [_ Hl].
      apply v2_record_press_wrong in Hev as (Ht' & Hp' & Hg').
      * split; [congruence|]. split; congruence.
      * rewrite Ht. intros ->. rewrite !elem_of_cons, elem_of_nil in Hl.
        destruct HT as [HT|HT]; rewrite HT in Hl;
          destruct Hl as [?|[?|[?|[?|[?|[?|[]]]]]]]; discriminate.
    + minv. by simplify_eq.
  - intros now [j name] m2 w2 m3 w3 Hax Hns (Ht & Hd & Hg) Hpoll.
    unfold XboxGamepadTrainerV2.poll_axis in Hpoll.
    destruct (Nat.leb_spec (length (axes f)) j) as [Hle|Hgt]; [minv; by simplify_eq|].
    assert (Hname : name <> T).
    { intros ->. unfold XboxGamepadTrainerV2.TRIGGER_AXES in Haxis, Hax.
      rewrite !elem_of_cons, elem_of_nil in Haxis.
      rewrite !elem_of_cons, elem_of_nil in Hax.
      destruct Haxis as [[= -> HT1]|[[= -> HT1]|[]]];
        destruct Hax as [[= -> HT2]|[[= -> HT2]|[]]]; try lia; congruence. }
    apply bind_Ok_inv in Hpoll as (v & w4 & _ & Hpoll).
    apply bind_Ok_inv in Hpoll as (fire & w5 & _ & Hpoll).
    apply bind_Ok_inv in Hpoll as (m4 & w6 & Hpress & Hpoll).
    apply ret_Ok_inv in Hpoll as [<- <-].
    assert (Hm4 : XboxGamepadTrainerV2.target_btn m4 = T
                  /\ XboxGamepadTrainerV2.phase m4 <> XboxGamepadTrainerV2.delay
                  /\ List.filter SessionStats.correct
                       (SessionStats.attempts (XboxGamepadTrainerV2.stats m4))
                     = good).
    { destruct fire; [|minv; by simplify_eq].
      apply v2_record_press_wrong in Hpress as (Ht' & Hp' & Hg'); cbn in *.
      - split; [congruence|]. split; congruence.
      - congruence. }
    by destruct (Qltb v XboxGamepadTrainerV2.TRIGGER_RELEASE).
  - intros now m2 w2 m3 w3 (Ht & Hd & Hg) Hprog.
    unfold XboxGamepadTrainerV2.progress in Hprog.
    rewrite bool_decide_eq_false_2 in Hprog by done. cbn [andb] in Hprog.
    minv. by simplify_eq.
Qed.
End MissingAxis.

Lemma missing_axis_blocks_trigger_witness :
  exists m w m' w',
    XboxGamepadTrainerV2.main [Pygame.mkFrame [] []] Examples.world_lt = Ok (m, w)
    /\ XboxGamepadTrainerV2.target_btn m = "LT"
    /\ XboxGamepadTrainerV2.phase m = XboxGamepadTrainerV2.prompt
    /\ XboxGamepadTrainerV2.loop
         [Pygame.mkFrame [Pygame.JOYBUTTONDOWN 0 0] [1; 1; 1; 1]%Q;
          Pygame.mkFrame [] [1; 1; 1; 1]%Q] m w = Ok (m', w')
    /\ XboxGamepadTrainerV2.target_btn m' = "LT"
    /\ XboxGamepadTrainerV2.phase m' <> XboxGamepadTrainerV2.delay.
Proof.
  eexists _, _, _, _.
  match goal with
  | |- ?A /\ _ => assert (Hmain : A) by (vm_compute; reflexivity)
  end.
  split; [exact Hmain|]. split; [reflexivity|]. split; [reflexivity|].
  match goal with
  | |- ?A /\ _ => assert (Hloop : A) by (vm_compute; reflexivity)
  end.
  split; [exact Hloop|].
  edestruct (missing_axis_blocks_trigger 4) as (Ht & Hp & _);
    [|shelve|shelve|exact Hloop|].
  - apply list_elem_of_here.
  - split; [exact Ht|exact Hp].
  Unshelve.
  + repeat constructor.
  + reflexivity.
Defined.

(** ** Wrong presses before the right one *)

Section WrongPresses.
Import Pygame.




End WrongPresses.


(** ** The reaction times per button of reaction-trainer.py *)

Section PerButton.

Lemma dict_lookup_get {K V} `{EqDecision K} (d : dict K V) (k : K) (v def : V) :
  dict_lookup d k = Some v -> dict_get d k def = v.
Proof.
  unfold dict_lookup. induction d as [|[k0 v0] d IH]; cbn; [done|].
  case_decide; [by intros [= <-]|exact IH].
Qed.

Lemma dict_lookup_missing {K V} `{EqDecision K} (d : dict K V) (k : K) :
  k ∉ map fst d -> dict_lookup d k = None.
Proof.
  unfold dict_lookup. induction d as [|[k0 v0] d IH]; cbn; [done|].
  rewrite not_elem_of_cons. intros [Hne Hnin]. case_decide; [done|by apply IH].
Qed.

Lemma per_button_keys (TB : list label) (self : Session.t) :
  map fst (Session.per_button_times TB self)
  = map fst (foldl (fun out b => dict_set out b ([] : list Q)) [] TB).
Proof.
  unfold Session.per_button_times.
  generalize (foldl (fun out b => dict_set out b ([] : list Q)) [] TB).
  induction (Session.trials self) as [|tr trials IH]; intros out; [done|].
  cbn [foldl]. rewrite IH. case_bool_decide; [|done].
  by rewrite keys_dict_set, decide_True.
Qed.

Lemma init_buttons_nodup (TB : list label) : forall d : dict label (list Q),
  NoDup (map fst d) ->
  NoDup (map fst (foldl (fun out b => dict_set out b []) d TB)).
Proof.
  induction TB as [|x TB IH]; intros d Hd; [done|].
  cbn [foldl]. apply IH. by apply dict_incr_nodup.
Qed.

(** X16. What [per_button_times] builds: a dictionary whose keys are the
    configured buttons, each once, and which gives for each of them the
    reaction times of the trials on that button, in the order of the
    trials; trials on another target are in no entry. *)
Theorem per_button_times_groups (TB : list label) (self : Session.t) :
  NoDup (map fst (Session.per_button_times TB self))
  /\ (forall b, b ∈ map fst (Session.per_button_times TB self) <-> b ∈ TB)
  /\ (forall b,
        dict_lookup (Session.per_button_times TB self) b
        = if decide (b ∈ TB) then Some (trial_times self b) else None).
Proof.
  assert (Hkeys : forall b, b ∈ map fst (Session.per_button_times TB self) <-> b ∈ TB).
  { intros b. rewrite per_button_keys.
    destruct (init_buttons_dict TB [] (fun _ => eq_refl)) as [_ H2].
    rewrite H2. cbn. rewrite elem_of_nil. tauto. }
  split; [|split; [exact Hkeys|]].
  - rewrite per_button_keys. apply init_buttons_nodup. constructor.
  - intros b. destruct (decide (b ∈ TB)) as [Hb|Hb].
    + destruct (dict_lookup_key (Session.per_button_times TB self) b) as [v Hv];
        [by apply Hkeys|].
      rewrite Hv. f_equal. apply (dict_lookup_get _ _ _ []) in Hv.
      rewrite per_button_times_get, decide_True in Hv by done. done.
    + apply dict_lookup_missing. by rewrite Hkeys.
Qed.
End PerButton.

(** ** What a turn adds to the ledger *)

Section TurnLedger.
Import Pygame.

(** An event of reaction-trainer.py adds no trial and does not make the
    onset known, or it adds one trial and forgets the onset. *)
Lemma rt_event_ledger (now : Q) (e : event) (m m' : ReactionTrainer.Machine) (b : bool)
      (w w' : World) :
  ReactionTrainer.handle_event now e m w = Ok ((m', b), w') ->
  Session.false_starts (ReactionTrainer.session m)
  <= Session.false_starts (ReactionTrainer.session m')
  /\ ((Session.trials (ReactionTrainer.session m')
       = Session.trials (ReactionTrainer.session m)
       /\ (ReactionTrainer.go_shown_t (ReactionTrainer.state m) = None ->
           ReactionTrainer.go_shown_t (ReactionTrainer.state m') = None))
      \/ (exists tr,
             Session.trials (ReactionTrainer.session m')
             = Session.trials (ReactionTrainer.session m) ++ [tr]
             /\ ReactionTrainer.go_shown_t (ReactionTrainer.state m) <> None
             /\ ReactionTrainer.go_shown_t (ReactionTrainer.state m') = None)).
Proof.
  intros H.
  destruct e as [|[| |]|joy idx|]; cbn [ReactionTrainer.handle_event] in H.
  - minv. simplify_eq. split; [done|by left].
  - destruct (negb _); minv; simplify_eq; [|split; [done|by left]].
    unfold ReactionTrainer.stop in Hc. minv. simplify_eq. split; [done|by left].
  - minv. simplify_eq. split; [done|by left].
  - minv. simplify_eq. split; [done|by left].
  - destruct (bool_decide (joy = js_get_id)); [|minv; simplify_eq; split; [done|by left]].
    apply bind_Ok_inv in H as (m1 & w1 & Hb & H).
    apply ret_Ok_inv in H as [[= <- <-] <-].
    unfold ReactionTrainer.on_button in Hb.
    destruct (_ && _).
    { unfold ReactionTrainer.stop in Hb. minv. simplify_eq. split; [done|by left]. }
    unfold ReactionTrainer.set_feedback, ReactionTrainer.schedule_ready,
      ReactionTrainer.rand_delay_s in Hb.
    destruct (dict_lookup ReactionTrainer.DEFAULT_XBOX_FACE idx) as [pressed|];
      [|minv; simplify_eq; split; [done|by left]].
    destruct (ReactionTrainer.phase (ReactionTrainer.state m)).
    + minv. simplify_eq. cbn. split; [lia|by left].
    + destruct (negb _); [minv; simplify_eq; split; [done|by left]|].
      destruct (ReactionTrainer.go_shown_t (ReactionTrainer.state m)) as [t|] eqn:Ht.
      * minv. simplify_eq. cbn. split; [done|]. right. by eexists.
      * minv. simplify_eq. cbn. split; [done|by left].
    + minv. simplify_eq. split; [done|by left].
  - minv. simplify_eq. split; [done|by left].
Qed.

(** An attempt that a press adds to the ledger of a gamepad trainer: it is
    untimed when the onset is not known; the onset is forgotten when the
    attempt is correct and kept when it is not. *)
Lemma v1_event_ledger (now : Q) (e : event) (m m' : XboxGamepadTrainer.Machine)
      (b : bool) (w w' : World) :
  XboxGamepadTrainer.handle_event now e m w = Ok ((m', b), w') ->
  (XboxGamepadTrainer.stats m' = XboxGamepadTrainer.stats m
   /\ XboxGamepadTrainer.prompt_shown_t m' = XboxGamepadTrainer.prompt_shown_t m)
  \/ (exists a,
         SessionStats.attempts (XboxGamepadTrainer.stats m')
         = SessionStats.attempts (XboxGamepadTrainer.stats m) ++ [a]
         /\ (XboxGamepadTrainer.prompt_shown_t m = None -> SessionStats.reaction_s a = None)
         /\ XboxGamepadTrainer.prompt_shown_t m'
            = if SessionStats.correct a then None
              else XboxGamepadTrainer.prompt_shown_t m).
Proof.
  intros H.
  destruct e as [|[| |]|joy idx|]; cbn [XboxGamepadTrainer.handle_event] in H.
  - minv. simplify_eq. by left.
  - destruct (negb _); minv; simplify_eq; [|by left].
    unfold XboxGamepadTrainer.stop in Hc. minv. simplify_eq. by left.
  - minv. simplify_eq. by left.
  - minv. simplify_eq. by left.
  - destruct (bool_decide (joy = js_get_id)); [|minv; simplify_eq; by left].
    destruct (_ && _).
    { minv. simplify_eq. unfold XboxGamepadTrainer.stop in Hc. minv. simplify_eq.
      by left. }
    destruct (bool_decide (_ = XboxGamepadTrainer.prompt)); [|minv; simplify_eq; by left].
    apply bind_Ok_inv in H as (m1 & w1 & Hb & H).
    apply ret_Ok_inv in H as [[= <- <-] <-].
    unfold XboxGamepadTrainer.on_prompt_button in Hb.
    destruct (dict_lookup XboxGamepadTrainer.DEFAULT_XBOX_FACE idx) as [pressed|];
      [|minv; simplify_eq; by left].
    cbv zeta in Hb. right.
    destruct (bool_decide (pressed = _)) eqn:Hc.
    + minv. simplify_eq. cbn. eexists. split; [reflexivity|]. cbn.
      split; [by intros ->|done].
    + minv. simplify_eq. cbn. eexists. split; [reflexivity|]. cbn.
      split; [by intros ->|done].
  - minv. simplify_eq. by left.
Qed.

Lemma v2_record_press_ledger (lbl : label) (now : Q)
      (m m' : XboxGamepadTrainerV2.Machine) (w w' : World) :
  XboxGamepadTrainerV2.record_press lbl now m w = Ok (m', w') ->
  exists a,
    SessionStats.attempts (XboxGamepadTrainerV2.stats m')
    = SessionStats.attempts (XboxGamepadTrainerV2.stats m) ++ [a]
    /\ (XboxGamepadTrainerV2.prompt_shown_t m = None -> SessionStats.reaction_s a = None)
    /\ XboxGamepadTrainerV2.prompt_shown_t m'
       = if SessionStats.correct a then None
         else XboxGamepadTrainerV2.prompt_shown_t m.
Proof.
  intros H. unfold XboxGamepadTrainerV2.record_press in H. cbv zeta in H.
  destruct (bool_decide (lbl = _)) eqn:Hc.
  - minv. destruct a0 as [b bag']. minv. simplify_eq. cbn.
    eexists. split; [reflexivity|]. cbn. split; [|done]. by intros ->.
  - minv. simplify_eq. cbn.
    eexists. split; [reflexivity|]. cbn. split; [|done]. by intros ->.
Qed.

Lemma v2_event_ledger (now : Q) (e : event) (m m' : XboxGamepadTrainerV2.Machine)
      (w w' : World) :
  XboxGamepadTrainerV2.handle_event now e m w = Ok (m', w') ->
  (XboxGamepadTrainerV2.stats m' = XboxGamepadTrainerV2.stats m
   /\ XboxGamepadTrainerV2.prompt_shown_t m' = XboxGamepadTrainerV2.prompt_shown_t m)
  \/ (exists a,
         SessionStats.attempts (XboxGamepadTrainerV2.stats m')
         = SessionStats.attempts (XboxGamepadTrainerV2.stats m) ++ [a]
         /\ (XboxGamepadTrainerV2.prompt_shown_t m = None ->
             SessionStats.reaction_s a = None)
         /\ XboxGamepadTrainerV2.prompt_shown_t m'
            = if SessionStats.correct a then None
              else XboxGamepadTrainerV2.prompt_shown_t m).
Proof.
  intros H.
  assert (Hsum : forall m1 w1,
             XboxGamepadTrainerV2.start_summary m w = Ok (m1, w1) ->
             XboxGamepadTrainerV2.stats m1 = XboxGamepadTrainerV2.stats m
             /\ XboxGamepadTrainerV2.prompt_shown_t m1
                = XboxGamepadTrainerV2.prompt_shown_t m).
  { intros m1 w1 Hs. unfold XboxGamepadTrainerV2.start_summary in Hs. minv.
    by simplify_eq. }
  destruct e as [|[| |]|joy idx|]; cbn [XboxGamepadTrainerV2.handle_event] in H.
  - minv. simplify_eq. by left.
  - destruct (negb _); [left; by apply Hsum in H|minv; simplify_eq; by left].
  - minv. simplify_eq. by left.
  - minv. simplify_eq. by left.
  - destruct (bool_decide (_ = XboxGamepadTrainerV2.prompt)); [|minv; simplify_eq; by left].
    destruct (bool_decide (idx = 7)); [left; by apply Hsum in H|].
    destruct (dict_lookup _ idx) as [lbl|]; [|minv; simplify_eq; by left].
    destruct (XboxGamepadTrainerV2.nonempty lbl); [|minv; simplify_eq; by left].
    right. by eapply v2_record_press_ledger.
  - minv. simplify_eq. by left.
Qed.

Lemma v2_poll_ledger (now : Q) (axes : list Q) (ax : nat * label)
      (m m' : XboxGamepadTrainerV2.Machine) (w w' : World) :
  XboxGamepadTrainerV2.poll_axis now axes ax m w = Ok (m', w') ->
  (XboxGamepadTrainerV2.stats m' = XboxGamepadTrainerV2.stats m
   /\ XboxGamepadTrainerV2.prompt_shown_t m' = XboxGamepadTrainerV2.prompt_shown_t m)
  \/ (exists a,
         SessionStats.attempts (XboxGamepadTrainerV2.stats m')
         = SessionStats.attempts (XboxGamepadTrainerV2.stats m) ++ [a]
         /\ (XboxGamepadTrainerV2.prompt_shown_t m = None ->
             SessionStats.reaction_s a = None)
         /\ XboxGamepadTrainerV2.prompt_shown_t m'
            = if SessionStats.correct a then None
              else XboxGamepadTrainerV2.prompt_shown_t m).
Proof.
  intros H. destruct ax as [i name]. unfold XboxGamepadTrainerV2.poll_axis in H.
  destruct (Nat.leb (length axes) i); [minv; simplify_eq; by left|].
  apply bind_Ok_inv in H as (v & w1 & _ & H).
  apply bind_Ok_inv in H as (fire & w2 & _ & H).
  apply bind_Ok_inv in H as (m1 & w3 & Hpress & H).
  apply ret_Ok_inv in H as [<- <-].
  assert (Hm1 : (XboxGamepadTrainerV2.stats m1 = XboxGamepadTrainerV2.stats m
                 /\ XboxGamepadTrainerV2.prompt_shown_t m1
                    = XboxGamepadTrainerV2.prompt_shown_t m)
                \/ (exists a,
                       SessionStats.attempts (XboxGamepadTrainerV2.stats m1)
                       = SessionStats.attempts (XboxGamepadTrainerV2.stats m) ++ [a]
                       /\ (XboxGamepadTrainerV2.prompt_shown_t m = None ->
                           SessionStats.reaction_s a = None)
                       /\ XboxGamepadTrainerV2.prompt_shown_t m1
                          = if SessionStats.correct a then None
                            else XboxGamepadTrainerV2.prompt_shown_t m)).
  { destruct fire; [|minv; simplify_eq; by left].
    right. by apply v2_record_press_ledger in Hpress. }
  by destruct (Qltb v XboxGamepadTrainerV2.TRIGGER_RELEASE).
Qed.

Lemma correct_reactions_snoc (l : list SessionStats.Attempt) (a : SessionStats.Attempt) :
  SessionStats._correct_reactions (SessionStats.mk (l ++ [a]))
  = SessionStats._correct_reactions (SessionStats.mk l)
      ++ (if SessionStats.correct a
          then match SessionStats.reaction_s a with Some r => [r] | None => [] end
          else []).
Proof.
  unfold SessionStats._correct_reactions. cbn [SessionStats.attempts].
  rewrite omap_app. cbn. by destruct (SessionStats.correct a), (SessionStats.reaction_s a).
Qed.
End TurnLedger.

Section TurnLedgerResults.
Import Pygame.

Lemma correct_reactions_length (s s' : SessionStats.t) (a : SessionStats.Attempt) :
  SessionStats.attempts s' = SessionStats.attempts s ++ [a] ->
  length (SessionStats._correct_reactions s')
  = length (SessionStats._correct_reactions s)
    + (if SessionStats.correct a
       then match SessionStats.reaction_s a with Some _ => 1 | None => 0 end
       else 0).
Proof.
  intros H. unfold SessionStats._correct_reactions. rewrite H, omap_app, length_app.
  cbn. destruct (SessionStats.correct a), (SessionStats.reaction_s a); cbn; lia.
Qed.

(** The step of the invariant of a turn of a gamepad trainer: at most one
    timed correct attempt since the start of the turn, and none to come
    once there is one, the onset being forgotten. *)
Lemma timed_answer_step (n : nat) (s s' : SessionStats.t) (onset onset' : option Q) :
  (s' = s /\ onset' = onset)
  \/ (exists a,
         SessionStats.attempts s' = SessionStats.attempts s ++ [a]
         /\ (onset = None -> SessionStats.reaction_s a = None)
         /\ onset' = if SessionStats.correct a then None else onset) ->
  length (SessionStats._correct_reactions s) = n
  \/ (length (SessionStats._correct_reactions s) = n + 1 /\ onset = None) ->
  length (SessionStats._correct_reactions s') = n
  \/ (length (SessionStats._correct_reactions s') = n + 1 /\ onset' = None).
Proof.
  intros [[-> ->]|(a & Ha & Hnone & Honset)] HI; [done|].
  rewrite (correct_reactions_length s s' a Ha).
  destruct HI as [Hn|[Hn Ho]].
  - destruct (SessionStats.correct a); [|left; lia].
    destruct (SessionStats.reaction_s a); [right; split; [lia|done]|left; lia].
  - right. rewrite (Hnone Ho). subst onset.
    split; [destruct (SessionStats.correct a); lia|].
    by destruct (SessionStats.correct a).
Qed.

(** X17. A turn records at most one timed answer.  Whatever the events of
    a turn and the positions of the triggers, reaction-trainer.py adds at
    most one trial in the turn, and each gamepad trainer adds at most one
    correct attempt with a reaction time (so at most one value to the
    reaction-time statistics), even when the v2 trainer records two
    attempts in the turn. *)
Theorem one_timed_answer_per_turn (f : frame_input) :
  (forall m w m' w',
      ReactionTrainer.frame f m w = Ok (m', w') ->
      length (Session.trials (ReactionTrainer.session m'))
      <= length (Session.trials (ReactionTrainer.session m)) + 1)
  /\ (forall m w m' w',
        XboxGamepadTrainer.frame f m w = Ok (m', w') ->
        length (SessionStats._correct_reactions (XboxGamepadTrainer.stats m'))
        <= length (SessionStats._correct_reactions (XboxGamepadTrainer.stats m)) + 1)
  /\ (forall m w m' w',
        XboxGamepadTrainerV2.frame f m w = Ok (m', w') ->
        length (SessionStats._correct_reactions (XboxGamepadTrainerV2.stats m'))
        <= length (SessionStats._correct_reactions (XboxGamepadTrainerV2.stats m)) + 1).
Proof.
  split; [|split]; intros m w m' w' Hf.
  - unfold ReactionTrainer.frame in Hf.
    apply bind_Ok_inv in Hf as (now & w1 & _ & Hf).
    apply bind_Ok_inv in Hf as (m1 & w2 & Hevs & Hp).
    apply rt_progress_cases in Hp as (_ & -> & _).
    set (n := length (Session.trials (ReactionTrainer.session m))).
    assert (HI : length (Session.trials (ReactionTrainer.session m1)) = n
                 \/ (length (Session.trials (ReactionTrainer.session m1)) = n + 1
                     /\ ReactionTrainer.go_shown_t (ReactionTrainer.state m1) = None)).
    { eapply (for_events_ind _
                (fun m1 => length (Session.trials (ReactionTrainer.session m1)) = n
                           \/ (length (Session.trials (ReactionTrainer.session m1)) = n + 1
                               /\ ReactionTrainer.go_shown_t (ReactionTrainer.state m1)
                                  = None)));
        [|by left|exact Hevs].
      intros e s w0 s' b w0' HI He.
      apply rt_event_ledger in He as (_ & [[Htr Hgo]|(tr & Htr & Hsome & Hgo)]).
      - rewrite Htr. destruct HI as [?|[? ?]]; [by left|right; auto].
      - rewrite Htr, length_app. cbn [length]. destruct HI as [?|[? ?]]; [|done].
        right. split; [lia|done]. }
    destruct HI as [?|[? _]]; lia.
  - unfold XboxGamepadTrainer.frame in Hf.
    apply bind_Ok_inv in Hf as (now & w1 & _ & Hf).
    apply bind_Ok_inv in Hf as (m1 & w2 & Hevs & Hp).
    apply v1_progress_cases in Hp as (_ & -> & _).
    set (n := length (SessionStats._correct_reactions (XboxGamepadTrainer.stats m))).
    assert (HI : length (SessionStats._correct_reactions (XboxGamepadTrainer.stats m1)) = n
                 \/ (length (SessionStats._correct_reactions (XboxGamepadTrainer.stats m1))
                     = n + 1
                     /\ XboxGamepadTrainer.prompt_shown_t m1 = None)).
    { eapply (for_events_ind _
                (fun m1 =>
                   length (SessionStats._correct_reactions (XboxGamepadTrainer.stats m1))
                   = n
                   \/ (length (SessionStats._correct_reactions
                                 (XboxGamepadTrainer.stats m1)) = n + 1
                       /\ XboxGamepadTrainer.prompt_shown_t m1 = None)));
        [|by left|exact Hevs].
      intros e s w0 s' b w0' HI He. apply v1_event_ledger in He.
      by eapply timed_answer_step. }
    destruct HI as [?|[? _]]; lia.
  - unfold XboxGamepadTrainerV2.frame in Hf.
    apply bind_Ok_inv in Hf as (now & w1 & _ & Hf).
    apply bind_Ok_inv in Hf as (m1 & w2 & Hevs & Hf).
    apply bind_Ok_inv in Hf as (m2 & w3 & Hpolls & Hp).
    apply v2_progress_cases in Hp as (_ & _ & -> & _).
    set (n := length (SessionStats._correct_reactions (XboxGamepadTrainerV2.stats m))).
    set (I := fun m1 =>
                length (SessionStats._correct_reactions (XboxGamepadTrainerV2.stats m1))
                = n
                \/ (length (SessionStats._correct_reactions
                              (XboxGamepadTrainerV2.stats m1)) = n + 1
                    /\ XboxGamepadTrainerV2.prompt_shown_t m1 = None)).
    assert (HI1 : I m1).
    { eapply (for_each_ind _ I); [|by left|exact Hevs].
      intros e s w0 s' w0' _ HI He. apply v2_event_ledger in He.
      by eapply timed_answer_step. }
    assert (HI2 : I m2).
    { unfold XboxGamepadTrainerV2.poll_triggers in Hpolls.
      destruct (bool_decide _); [|by apply ret_Ok_inv in Hpolls as [<- _]].
      eapply (for_each_ind _ I); [|exact HI1|exact Hpolls].
      intros ax s w0 s' w0' _ HI He. apply v2_poll_ledger in He.
      by eapply timed_answer_step. }
    destruct HI2 as [?|[? _]]; lia.
Qed.

(** X18. The ledger only grows.  Along every run of the loop, what was
    recorded stays recorded, unchanged and in the same order: the trials of
    reaction-trainer.py (and its count of false starts does not decrease)
    and the attempts of the gamepad trainers at the start of the run are a
    prefix of those at its end. *)
Theorem ledger_only_grows (fs : list frame_input) :
  (forall m w m' w',
      ReactionTrainer.loop fs m w = Ok (m', w') ->
      Session.trials (ReactionTrainer.session m)
        `prefix_of` Session.trials (ReactionTrainer.session m')
      /\ Session.false_starts (ReactionTrainer.session m)
         <= Session.false_starts (ReactionTrainer.session m'))
  /\ (forall m w m' w',
        XboxGamepadTrainer.loop fs m w = Ok (m', w') ->
        SessionStats.attempts (XboxGamepadTrainer.stats m)
          `prefix_of` SessionStats.attempts (XboxGamepadTrainer.stats m'))
  /\ (forall m w m' w',
        XboxGamepadTrainerV2.loop fs m w = Ok (m', w') ->
        SessionStats.attempts (XboxGamepadTrainerV2.stats m)
          `prefix_of` SessionStats.attempts (XboxGamepadTrainerV2.stats m')).
Proof.
  split; [|split]; intros m w m' w' Hloop.
  - eapply (rt_loop_ind
              (fun m' => Session.trials (ReactionTrainer.session m)
                           `prefix_of` Session.trials (ReactionTrainer.session m')
                         /\ Session.false_starts (ReactionTrainer.session m)
                            <= Session.false_starts (ReactionTrainer.session m')));
      [| |done|exact Hloop].
    + intros now e m1 w1 m2 b w2 [Hpre Hfs] He.
      apply rt_event_ledger in He as (Hle & [[Htr _]|(tr & Htr & _)]); rewrite Htr.
      * split; [done|lia].
      * split; [by apply prefix_app_r|lia].
    + intros now m1 w1 m2 w2 HP Hp. by apply rt_progress_cases in Hp as (_ & -> & _).
  - eapply (v1_loop_ind
              (fun m' => SessionStats.attempts (XboxGamepadTrainer.stats m)
                           `prefix_of` SessionStats.attempts (XboxGamepadTrainer.stats m')));
      [| |done|exact Hloop].
    + intros now e m1 w1 m2 b w2 Hpre He.
      apply v1_event_ledger in He as [[-> _]|(a & -> & _)]; [done|].
      by apply prefix_app_r.
    + intros now m1 w1 m2 w2 HP Hp. by apply v1_progress_cases in Hp as (_ & -> & _).
  - eapply (v2_loop_ind
              (fun m' => SessionStats.attempts (XboxGamepadTrainerV2.stats m)
                           `prefix_of` SessionStats.attempts
                                         (XboxGamepadTrainerV2.stats m')));
      [| | |done|exact Hloop].
    + intros now e m1 w1 m2 w2 Hpre He.
      apply v2_event_ledger in He as [[-> _]|(a & -> & _)]; [done|].
      by apply prefix_app_r.
    + intros now axes ax m1 w1 m2 w2 _ _ Hpre He.
      apply v2_poll_ledger in He as [[-> _]|(a & -> & _)]; [done|].
      by apply prefix_app_r.
    + intros now m1 w1 m2 w2 HP Hp.
      by apply v2_progress_cases in Hp as (_ & _ & -> & _).
Qed.
End TurnLedgerResults.

Lemma one_timed_answer_per_turn_witness :
  exists m w m' w',
    XboxGamepadTrainerV2.main [Pygame.mkFrame [] []] Examples.world_lt = Ok (m, w)
    /\ XboxGamepadTrainerV2.frame (Pygame.mkFrame [] Examples.both_pulled) m w
       = Ok (m', w')
    /\ length (SessionStats.attempts (XboxGamepadTrainerV2.stats m'))
       = length (SessionStats.attempts (XboxGamepadTrainerV2.stats m)) + 2
    /\ length (SessionStats._correct_reactions (XboxGamepadTrainerV2.stats m'))
       <= length (SessionStats._correct_reactions (XboxGamepadTrainerV2.stats m)) + 1.
Proof.
  eexists _, _, _, _.
  match goal with
  | |- ?A /\ _ => assert (Hmain : A) by (vm_compute; reflexivity)
  end.
  split; [exact Hmain|].
  match goal with
  | |- ?A /\ _ => assert (Hframe : A) by (vm_compute; reflexivity)
  end.
  split; [exact Hframe|]. split; [reflexivity|].
  destruct (one_timed_answer_per_turn (Pygame.mkFrame [] Examples.both_pulled))
    as (_ & _ & Hv2).
  exact (Hv2 _ _ _ _ Hframe).
Defined.

Lemma ledger_only_grows_witness :
  exists m w m' w',
    XboxGamepadTrainerV2.main [Pygame.mkFrame [] []] Examples.world_lt = Ok (m, w)
    /\ XboxGamepadTrainerV2.loop
         [Pygame.mkFrame [] Examples.both_pulled; Pygame.mkFrame [] []] m w
       = Ok (m', w')
    /\ SessionStats.attempts (XboxGamepadTrainerV2.stats m)
         `prefix_of` SessionStats.attempts (XboxGamepadTrainerV2.stats m').
Proof.
  eexists _, _, _, _.
  match goal with
  | |- ?A /\ _ => assert (Hmain : A) by (vm_compute; reflexivity)
  end.
  split; [exact Hmain|].
  match goal with
  | |- ?A /\ _ => assert (Hloop : A) by (vm_compute; reflexivity)
  end.
  split; [exact Hloop|].
  destruct (ledger_only_grows
              [Pygame.mkFrame [] Examples.both_pulled; Pygame.mkFrame [] []])
    as (_ & _ & Hv2).
  exact (Hv2 _ _ _ _ Hloop).
Defined.

(** ** The per-button counts of the report *)

Section PerButtonCounts.

Lemma list_sum_map_add {A} (f g : A -> nat) (l : list A) :
  list_sum (map (fun x => f x + g x) l) = list_sum (map f l) + list_sum (map g l).
Proof. unfold list_sum. induction l as [|x l IH]; cbn [map fold_right]; lia. Qed.

Lemma list_sum_indicator (x : label) (l : list label) (n : nat) :
  NoDup l ->
  list_sum (map (fun b => if bool_decide (x = b) then n else 0) l)
  = if bool_decide (x ∈ l) then n else 0.
Proof.
  unfold list_sum. induction 1 as [|b l Hnotin Hnd IH]; [done|].
  cbn [map fold_right]. rewrite IH.
  destruct (bool_decide_reflect (x = b)) as [->|Hne].
  - rewrite (bool_decide_eq_false_2 (b ∈ l)) by done.
    rewrite bool_decide_eq_true_2 by apply list_elem_of_here. lia.
  - destruct (bool_decide_reflect (x ∈ l)) as [Hin|Hnin].
    + rewrite bool_decide_eq_true_2 by (by apply list_elem_of_further). done.
    + rewrite bool_decide_eq_false_2; [done|].
      rewrite elem_of_cons. tauto.
Qed.

Lemma button_reactions_sum (buttons : list label) (self : SessionStats.t) :
  NoDup buttons ->
  Forall (fun a => SessionStats.target a ∈ buttons) (SessionStats.attempts self) ->
  list_sum (map (fun btn => length (SessionStats.button_reactions self btn)) buttons)
  = length (SessionStats._correct_reactions self).
Proof.
  intros Hnd. unfold SessionStats.button_reactions, SessionStats._correct_reactions.
  induction 1 as [|a l Ha _ IH].
  - cbn. unfold list_sum. induction buttons; cbn; [done|]. apply IHbuttons.
    by apply NoDup_cons in Hnd as [_ ?].
  - set (hit := if SessionStats.correct a
                then match SessionStats.reaction_s a with Some _ => 1 | None => 0 end
                else 0).
    assert (Hone : forall btn,
               length (omap (fun a => if SessionStats.correct a
                                           && bool_decide (SessionStats.target a = btn)
                                      then SessionStats.reaction_s a else None) (a :: l))
               = (if bool_decide (SessionStats.target a = btn) then hit else 0)
                 + length (omap (fun a => if SessionStats.correct a
                                               && bool_decide (SessionStats.target a = btn)
                                          then SessionStats.reaction_s a else None) l)).
    { intros btn. unfold hit. cbn [omap list_omap].
      destruct (SessionStats.correct a), (bool_decide (SessionStats.target a = btn)),
        (SessionStats.reaction_s a); cbn; lia. }
    rewrite (map_ext _ _ Hone), list_sum_map_add, IH.
    rewrite (list_sum_indicator _ _ _ Hnd), bool_decide_eq_true_2 by done.
    unfold hit. cbn [omap list_omap].
    destruct (SessionStats.correct a), (SessionStats.reaction_s a); cbn; lia.
Qed.

(** X19. The per-button counts of the report add up.  When the buttons
    of the per-button loop are distinct and every attempt of the ledger is
    on one of them (as it is in every ledger the gamepad trainers build),
    the report has one per-button entry for each button, in order, and the
    counts [n=...] of these entries (0 for the empty marker) add up to the
    number of reaction times behind the mean of the report. *)
Theorem per_button_counts_add_up (buttons : list label) (self : SessionStats.t) :
  NoDup buttons ->
  Forall (fun a => SessionStats.target a ∈ buttons) (SessionStats.attempts self) ->
  exists lines,
    SessionStats.summary_text buttons self = Ok lines
    /\ map fst (breakdown lines) = buttons
    /\ list_sum (map (fun e => default 0 (snd e)) (breakdown lines))
       = length (SessionStats._correct_reactions self).
Proof.
  intros Hnd Hall.
  destruct (summary_text_breakdown buttons self) as (lines & Hs & Hb).
  exists lines. split; [exact Hs|]. rewrite Hb. split.
  - rewrite map_map. cbn. apply map_id.
  - rewrite map_map. cbn [snd]. rewrite <- (button_reactions_sum buttons self Hnd Hall).
    f_equal. apply map_ext. intros btn. unfold SessionStats.button_count.
    by destruct (SessionStats.button_reactions self btn).
Qed.
End PerButtonCounts.

Lemma per_button_counts_add_up_witness :
  exists lines,
    SessionStats.summary_text XboxGamepadTrainer.FACE_BUTTONS
      (SessionStats.mk
         [SessionStats.mkAttempt "A" (Some "A") (Some (1 # 2)%Q) true;
          SessionStats.mkAttempt "B" (Some "X") (Some (1 # 3)%Q) false;
          SessionStats.mkAttempt "B" (Some "B") (Some (1 # 4)%Q) true])
    = Ok lines
    /\ map fst (breakdown lines) = XboxGamepadTrainer.FACE_BUTTONS
    /\ list_sum (map (fun e => default 0 (snd e)) (breakdown lines)) = 2.
Proof.
  apply (per_button_counts_add_up XboxGamepadTrainer.FACE_BUTTONS).
  - apply (bool_decide_unpack (NoDup XboxGamepadTrainer.FACE_BUTTONS)).
    vm_compute. exact I.
  - repeat constructor; cbn; unfold XboxGamepadTrainer.FACE_BUTTONS;
      rewrite !elem_of_cons; tauto.
Defined.
